(** * The safety-gated text pipeline of apps/server/src/routes/mvp.ts

    A shallow embedding of the symptom-triage gates, the external model
    adapter, the deterministic prescription extractor, the language
    alignment verifier and the two pipelines that orchestrate them, with
    the properties of the specification stated and settled over it.

    JavaScript strings are sequences of UTF-16 code units; regular
    expression literals of the source are kept as data ([regex]) and run by
    a backtracking matcher that follows the ECMAScript matching order
    (leftmost start, ordered alternatives, greedy quantifiers). *)

From Stdlib Require Import Bool Arith NArith ZArith Lia Ascii String List.
From Stdlib Require QArith_base.
Import ListNotations.

Set Warnings "-register-all,-abstract-large-number".

(** ** Strings *)

Module Js.

Local Open Scope N_scope.

Definition cu := N.
Definition jsstring := list cu.

(** A Basic Latin literal of the source as code units. *)
Definition lit (s : string) : jsstring :=
  map N_of_ascii (list_ascii_of_string s).

Definition cu_eqb (a b : cu) : bool := N.eqb a b.

Fixpoint str_eqb (a b : jsstring) : bool :=
  match a, b with
  | [], [] => true
  | x :: a', y :: b' => cu_eqb x y && str_eqb a' b'
  | _, _ => false
  end.

Definition in_range (lo hi x : cu) : bool := N.leb lo x && N.leb x hi.

(** [\s] of ECMAScript (WhiteSpace and LineTerminator), which is also the
    set [String.prototype.trim] strips. *)
Definition is_ws (x : cu) : bool :=
  in_range 9 13 x || N.eqb x 32 || N.eqb x 160 || N.eqb x 5760
  || in_range 8192 8202 x || N.eqb x 8232 || N.eqb x 8233 || N.eqb x 8239
  || N.eqb x 8287 || N.eqb x 12288 || N.eqb x 65279.

Definition is_digit (x : cu) : bool := in_range 48 57 x.
Definition is_upper (x : cu) : bool := in_range 65 90 x.
Definition is_lower (x : cu) : bool := in_range 97 122 x.
Definition is_latin (x : cu) : bool := is_upper x || is_lower x.

(** [\w] *)
Definition is_word (x : cu) : bool := is_latin x || is_digit x || N.eqb x 95.

(** LineTerminator, the complement of [.] *)
Definition is_line_terminator (x : cu) : bool :=
  N.eqb x 10 || N.eqb x 13 || N.eqb x 8232 || N.eqb x 8233.

(** The lower case of a Basic Latin code unit; the [i] flag of a pattern
    without the [u] flag relates no code unit outside the block to one
    inside it, so this is also how the patterns compare letters. *)
Definition lower_cu (x : cu) : cu := if is_upper x then x + 32 else x.

(** [String.prototype.toLowerCase], one code unit at a time.  Three kinds
    of code unit have a lower case that holds a Basic Latin code unit: the
    capitals A to Z, the Kelvin sign U+212A (lower case k) and the capital
    I with dot above U+0130 (lower case i followed by the combining dot
    U+0307); they are mapped as the language maps them.  Every other code
    unit is kept.  Where the language changes one of those (a capital
    letter outside Basic Latin, a capital sigma by its context, the
    surrogates of a cased letter), it puts one code unit in the place of
    one, and neither is Basic Latin, white space or a line terminator; the
    phrases and patterns this text is compared with are Basic Latin, so
    they tell no difference.  The text itself is exact on Basic Latin
    input. *)
Definition lower_units (x : cu) : jsstring :=
  if N.eqb x 304 then [105; 775]
  else if N.eqb x 8490 then [107]
  else [lower_cu x].

Definition toLowerCase (s : jsstring) : jsstring := flat_map lower_units s.

(** [s.startsWith(k)] *)
Fixpoint startsWith (k s : jsstring) : bool :=
  match k, s with
  | [], _ => true
  | _ :: _, [] => false
  | x :: k', y :: s' => cu_eqb x y && startsWith k' s'
  end.

(** [s.includes(k)] *)
Fixpoint includes (k s : jsstring) : bool :=
  startsWith k s ||
  match s with
  | [] => false
  | _ :: s' => includes k s'
  end.

(** [s.replace(/\s+/g, " ")]: every maximal run of white space becomes one
    space. [in_run] tells that the previous code unit was white space. *)
Fixpoint collapse_from (in_run : bool) (s : jsstring) : jsstring :=
  match s with
  | [] => []
  | x :: s' =>
      if is_ws x
      then (if in_run then collapse_from true s' else 32 :: collapse_from true s')
      else x :: collapse_from false s'
  end.

Definition collapse_ws (s : jsstring) : jsstring := collapse_from false s.

Fixpoint trimStart (s : jsstring) : jsstring :=
  match s with
  | [] => []
  | x :: s' => if is_ws x then trimStart s' else s
  end.

Definition trimEnd (s : jsstring) : jsstring := rev (trimStart (rev s)).

(** [s.trim()] *)
Definition trim (s : jsstring) : jsstring := trimEnd (trimStart s).

(** [parts.join(sep)] *)
Fixpoint join (sep : jsstring) (parts : list jsstring) : jsstring :=
  match parts with
  | [] => []
  | [p] => p
  | p :: ps => p ++ sep ++ join sep ps
  end.

(** A string is truthy when it is not empty. *)
Definition truthy (s : jsstring) : bool :=
  match s with [] => false | _ => true end.

(** [Array.from(new Set(xs))]: the first occurrence of each value, in
    insertion order. *)
Fixpoint dedupe_by {A : Type} (eqb : A -> A -> bool) (seen : list A) (xs : list A) : list A :=
  match xs with
  | [] => []
  | x :: xs' =>
      if existsb (eqb x) seen then dedupe_by eqb seen xs'
      else x :: dedupe_by eqb (x :: seen) xs'
  end.

(** The value of a run of decimal digits. *)
Definition digit_val (x : cu) : Z := Z.of_N x - 48.

Definition digits_value (ds : jsstring) : Z :=
  fold_left (fun acc d => 10 * acc + digit_val d)%Z ds 0%Z.

End Js.

Import Js.

(** ** Regular expressions *)

Module Re.

Inductive regex : Type :=
| Empty
| Class (f : cu -> bool)
| Seq (r1 r2 : regex)
| Alt (r1 r2 : regex)
| Star (r : regex)
| Group (i : nat) (r : regex)
| WordB
| Bol.

Definition captures := list (nat * jsstring).

Definition is_word_at (x : option cu) : bool :=
  match x with Some c => is_word c | None => false end.

Section Matcher.
Variable R : Type.

(** A continuation receives the code unit before the position, the rest
    of the input and the captures so far. *)
Definition cont := option cu -> jsstring -> captures -> option R.

(** The iterations of a greedy [r*]: one more match of [r] if it consumes
    input and the rest of the pattern then succeeds, else the rest of the
    pattern right away.  An iteration that consumes nothing is refused, as
    RepeatMatcher does; [n] bounds the iterations and the length of the
    input is always enough. *)
Definition star_loop
  (step : option cu -> jsstring -> captures -> cont -> option R) (k : cont)
  : nat -> option cu -> jsstring -> captures -> option R :=
  fix loop (n : nat) (p : option cu) (s : jsstring) (c : captures) {struct n} : option R :=
    match n with
    | O => k p s c
    | S n' =>
        match step p s c
                (fun p' s' c' =>
                   if Nat.ltb (length s') (length s) then loop n' p' s' c' else None) with
        | Some x => Some x
        | None => k p s c
        end
    end.

(** Backtracking matcher in continuation-passing style.  [Alt] tries its
    left branch first and [Star] is greedy. *)
Fixpoint mt (r : regex) (p : option cu) (s : jsstring) (c : captures) (k : cont)
  {struct r} : option R :=
  match r with
  | Empty => k p s c
  | Class f =>
      match s with
      | x :: s' => if f x then k (Some x) s' c else None
      | [] => None
      end
  | Seq r1 r2 => mt r1 p s c (fun p' s' c' => mt r2 p' s' c' k)
  | Alt r1 r2 =>
      match mt r1 p s c k with
      | Some x => Some x
      | None => mt r2 p s c k
      end
  | Star r1 => star_loop (mt r1) k (length s) p s c
  | Group i r1 =>
      mt r1 p s c
         (fun p' s' c' => k p' s' ((i, firstn (length s - length s') s) :: c'))
  | WordB =>
      if xorb (is_word_at p) (is_word_at (hd_error s)) then k p s c else None
  | Bol =>
      match p with
      | None => k p s c
      | Some _ => None
      end
  end.
End Matcher.

Arguments star_loop {R} step k n p s c.
Arguments mt {R} r p s c k.

Record MatchResult := {
  m_index : nat;
  m_text : jsstring;       (* match[0] *)
  m_rest : jsstring;       (* the input after the match *)
  m_groups : captures
}.

(** [match[i]] for a capture group; [None] is [undefined]. *)
Fixpoint group_of (i : nat) (c : captures) : option jsstring :=
  match c with
  | [] => None
  | (j, v) :: c' => if Nat.eqb i j then Some v else group_of i c'
  end.

Definition group (i : nat) (m : MatchResult) : option jsstring :=
  group_of i (m_groups m).

Definition match_here (r : regex) (p : option cu) (s : jsstring)
  : option (jsstring * captures) :=
  mt r p s [] (fun _ s' c => Some (s', c)).

(** The first match, scanning start positions from the left. *)
Fixpoint search_from (r : regex) (p : option cu) (s : jsstring) (idx : nat)
  : option MatchResult :=
  match match_here r p s with
  | Some (s', c) =>
      Some {| m_index := idx;
              m_text := firstn (length s - length s') s;
              m_rest := s';
              m_groups := c |}
  | None =>
      match s with
      | [] => None
      | x :: s' => search_from r (Some x) s' (S idx)
      end
  end.

(** [s.match(r)] for a pattern without the [g] flag. *)
Definition exec (r : regex) (s : jsstring) : option MatchResult :=
  search_from r None s 0.

(** [r.test(s)] *)
Definition test (r : regex) (s : jsstring) : bool :=
  match exec r s with Some _ => true | None => false end.

(** [s.replace(r, "")] for a pattern without the [g] flag. *)
Definition remove_first (r : regex) (s : jsstring) : jsstring :=
  match exec r s with
  | Some m => firstn (m_index m) s ++ m_rest m
  | None => s
  end.

(** *** Pattern syntax *)

Definition chr (c : cu) : regex := Class (cu_eqb c).
Definition chr_ci (c : cu) : regex := Class (fun x => cu_eqb (lower_cu x) (lower_cu c)).

Fixpoint seq_of (rs : list regex) : regex :=
  match rs with
  | [] => Empty
  | [r] => r
  | r :: rs' => Seq r (seq_of rs')
  end.

Fixpoint alt_of (rs : list regex) : regex :=
  match rs with
  | [] => Class (fun _ => false)
  | [r] => r
  | r :: rs' => Alt r (alt_of rs')
  end.

(** A literal run of a pattern, without and with the [i] flag. *)
Definition str (s : string) : regex := seq_of (map chr (lit s)).
Definition str_ci (s : string) : regex := seq_of (map chr_ci (lit s)).

Definition opt (r : regex) : regex := Alt r Empty.      (* r?  *)
Definition plus (r : regex) : regex := Seq r (Star r).  (* r+  *)

Definition ws : regex := Class is_ws.                     (* \s *)
Definition digit : regex := Class is_digit.               (* \d *)
Definition any : regex := Class (fun _ => true).          (* [\s\S] *)
Definition dot : regex := Class (fun x => negb (is_line_terminator x)).
Definition none_of (s : string) : regex :=
  Class (fun x => negb (existsb (cu_eqb x) (lit s))).

End Re.

Import Re.

(** ** Data model *)

Inductive TriageLevel := RED | YELLOW | GREEN | BLUE.

Record TriageResult := {
  summary : jsstring;
  triageLevel : TriageLevel;
  explanation : jsstring;
  recommendedAction : jsstring;
  disclaimer : jsstring
}.

(** [z.infer<typeof symptomCheckSchema>] *)
Record TriageRequest := {
  symptoms : jsstring;
  age : option Z;
  duration : option jsstring;
  knownConditions : option (list jsstring);
  additionalContext : option jsstring
}.

(** The argument of the two rule-based checks. *)
Record GateInput := {
  g_symptoms : jsstring;
  g_additionalContext : option jsstring
}.

Definition INDIA_EMERGENCY_NUMBER : jsstring := lit "112".

Definition DEFAULT_TRIAGE_DISCLAIMER : jsstring :=
  lit "This triage result is not a diagnosis or treatment plan. Please consult a licensed medical professional immediately.".

Definition emergencyKeywords : list jsstring :=
  map lit
    [ "chest pain"; "chest pressure"; "difficulty breathing"; "can't breathe";
      "cannot breathe"; "not breathing"; "unconscious"; "loss of consciousness";
      "severe bleeding"; "stroke"; "heart attack"; "seizure"; "paralysis";
      "severe head injury"; "suicidal"; "overdose"; "anaphylaxis" ]%string.

Definition dosageRequestKeywords : list jsstring :=
  map lit [ "dosage"; "dose"; "how many mg"; "how much medicine"; "prescribe" ]%string.

Definition diagnosisRequestKeywords : list jsstring :=
  map lit [ "diagnose"; "diagnosis"; "what disease do i have"; "what illness do i have" ]%string.

Definition safetyBypassKeywords : list jsstring :=
  map lit [ "ignore safety"; "ignore your rules"; "skip safety"; "bypass safety" ]%string.

(** ** Text sanitizer and rule engine *)

Definition sanitizeTriageText (value : jsstring) : jsstring :=
  trim (collapse_ws value).

Definition createRuleBasedRedResponse (reason : jsstring) : TriageResult :=
  {| summary := lit "Potential emergency warning signs were detected in the reported symptoms.";
     triageLevel := RED;
     explanation :=
       lit "The message includes emergency indicators (" ++ reason
         ++ lit ") that can be life-threatening.";
     recommendedAction :=
       lit "Call emergency services now (" ++ INDIA_EMERGENCY_NUMBER
         ++ lit ") or go to the nearest emergency department immediately.";
     disclaimer := DEFAULT_TRIAGE_DISCLAIMER ++ lit " Do not delay emergency care." |}.

Definition createRuleBasedSafetyRefusalResponse : TriageResult :=
  {| summary := lit "The request asks for diagnosis, medication dosage, or unsafe guidance.";
     triageLevel := YELLOW;
     explanation :=
       lit "For safety, this assistant cannot provide diagnosis, dosing, or advice that bypasses medical safeguards.";
     recommendedAction :=
       lit "Consult a licensed doctor within 24 hours for personalized guidance. If severe symptoms are present, call emergency services immediately.";
     disclaimer := DEFAULT_TRIAGE_DISCLAIMER |}.

(** [`${input.symptoms} ${input.additionalContext ?? ""}`.toLowerCase()] *)
Definition combinedText (input : GateInput) : jsstring :=
  toLowerCase
    (g_symptoms input ++ lit " "
       ++ match g_additionalContext input with Some c => c | None => [] end).

(** [/(?:spo2|oxygen(?: level)?|o2)\s*(?:is|:|=|at)?\s*(\d{2,3}(?:\.\d+)?)/i] *)
Definition oxygenRegex : regex :=
  seq_of
    [ alt_of [ str_ci "spo2"; Seq (str_ci "oxygen") (opt (str_ci " level")); str_ci "o2" ];
      Star ws;
      opt (alt_of [ str_ci "is"; str_ci ":"; str_ci "="; str_ci "at" ]);
      Star ws;
      Group 1 (seq_of [ digit; digit; opt digit; opt (Seq (str_ci ".") (plus digit)) ]) ].

Fixpoint leading_digits (s : jsstring) : jsstring :=
  match s with
  | x :: s' => if is_digit x then x :: leading_digits s' else []
  | [] => []
  end.

(** [Number(tok) < 90] for a token of the shape [\d+(?:\.\d+)?].  With [k]
    fraction digits the token denotes [d / 10^k] for the integer [d] its
    digits spell.  [Number] rounds that to the nearest double, ties to
    even, and the result is below 90 exactly when the rational is below the
    midpoint [90 - 2^-47] between 90 and the double before it. *)
Definition number_lt_90 (tok : jsstring) : bool :=
  let ip := leading_digits tok in
  let fp := skipn (S (length ip)) tok in
  (digits_value (ip ++ fp) * 2 ^ 47 <? 10 ^ Z.of_nat (length fp) * (90 * 2 ^ 47 - 1))%Z.

(** [None] is [null].  The captured token always denotes a number, so the
    [Number.isNaN] test of the source never fails. *)
Definition ruleBasedEmergencyCheck (input : GateInput) : option jsstring :=
  let combined := combinedText input in
  match find (fun keyword => includes keyword combined) emergencyKeywords with
  | Some matchedKeyword =>
      if truthy matchedKeyword then Some matchedKeyword else None
  | None =>
      match exec oxygenRegex combined with
      | Some oxygenMatch =>
          match group 1 oxygenMatch with
          | Some tok =>
              if number_lt_90 tok then Some (lit "oxygen level below 90%") else None
          | None => None
          end
      | None => None
      end
  end.

Definition ruleBasedSafetyRefusalCheck (input : GateInput) : bool :=
  let combined := combinedText input in
  let asksForDosage := existsb (fun keyword => includes keyword combined) dosageRequestKeywords in
  let asksForDiagnosis := existsb (fun keyword => includes keyword combined) diagnosisRequestKeywords in
  let asksToBypassSafety := existsb (fun keyword => includes keyword combined) safetyBypassKeywords in
  asksForDosage || asksForDiagnosis || asksToBypassSafety.

(** ** Simplified prescription summaries *)

Inductive PrescriptionLanguageCode := en | hi | ta | bn.

Inductive PrescriptionTimingSlot :=
| MORNING_BEFORE_FOOD | MORNING_AFTER_FOOD
| AFTERNOON_BEFORE_FOOD | AFTERNOON_AFTER_FOOD
| NIGHT_BEFORE_FOOD | NIGHT_AFTER_FOOD
| BEDTIME | AS_NEEDED | UNSPECIFIED.

Record SimplifiedMedicine := {
  medicineName : jsstring;
  dosage : jsstring;
  m_duration : jsstring;                       (* duration *)
  timingSlots : list PrescriptionTimingSlot;
  instructions : list jsstring
}.

Record SimplifiedPrescriptionSummary := {
  languageCode : PrescriptionLanguageCode;
  languageLabel : jsstring;
  doctorExplanation : jsstring;
  medicines : list SimplifiedMedicine;
  warnings : list jsstring;
  hydrationTips : list jsstring;
  generalAdvice : list jsstring
}.

(** [z.infer<typeof prescriptionSimplifySchema>] *)
Record SimplifyRequest := {
  text : jsstring;
  language : PrescriptionLanguageCode
}.

Definition prescriptionLanguageLabels (l : PrescriptionLanguageCode) : jsstring :=
  match l with
  | en => lit "English"
  | hi => lit "Hindi"
  | ta => lit "Tamil"
  | bn => lit "Bengali"
  end.

Definition lang_eqb (a b : PrescriptionLanguageCode) : bool :=
  match a, b with
  | en, en | hi, hi | ta, ta | bn, bn => true
  | _, _ => false
  end.

Definition slot_eqb (a b : PrescriptionTimingSlot) : bool :=
  match a, b with
  | MORNING_BEFORE_FOOD, MORNING_BEFORE_FOOD
  | MORNING_AFTER_FOOD, MORNING_AFTER_FOOD
  | AFTERNOON_BEFORE_FOOD, AFTERNOON_BEFORE_FOOD
  | AFTERNOON_AFTER_FOOD, AFTERNOON_AFTER_FOOD
  | NIGHT_BEFORE_FOOD, NIGHT_BEFORE_FOOD
  | NIGHT_AFTER_FOOD, NIGHT_AFTER_FOOD
  | BEDTIME, BEDTIME
  | AS_NEEDED, AS_NEEDED
  | UNSPECIFIED, UNSPECIFIED => true
  | _, _ => false
  end.

(** ** JSON values *)

Inductive json : Type :=
| JNull
| JBool (b : bool)
| JNum (q : QArith_base.Q)
| JStr (s : jsstring)
| JArr (items : list json)
| JObj (fields : list (jsstring * json)).

(** [!v] is false on exactly these values. *)
Definition json_truthy (v : json) : bool :=
  match v with
  | JNull => false
  | JBool b => b
  | JNum q => negb (Z.eqb (QArith_base.Qnum q) 0)
  | JStr s => truthy s
  | JArr _ | JObj _ => true
  end.

(** Own property [name] of an object; [None] is [undefined]. *)
Fixpoint assoc (name : jsstring) (fields : list (jsstring * json)) : option json :=
  match fields with
  | [] => None
  | (k, v) :: fields' => if str_eqb k name then Some v else assoc name fields'
  end.

(** [v.name] for a value that is neither [null] nor [undefined], and a name
    that no array, string, number or boolean defines. *)
Definition prop (name : string) (v : json) : option json :=
  match v with
  | JObj fields => assoc (lit name) fields
  | _ => None
  end.

(** [v[0]] for a value that is neither [null] nor [undefined]. *)
Definition index0 (v : json) : option json :=
  match v with
  | JArr items => hd_error items
  | JStr (x :: _) => Some (JStr [x])
  | JObj fields => assoc (lit "0") fields
  | _ => None
  end.

(** Optional chaining [v?.f]. *)
Definition chain (v : option json) (f : json -> option json) : option json :=
  match v with
  | None | Some JNull => None
  | Some x => f x
  end.

(** ** Effects: outbound calls and exceptions *)

Inductive JsError :=
| Error (message : jsstring)
| NetworkError               (* fetch rejects *)
| SyntaxError                (* JSON.parse / response.json() *)
| TypeError.

(** The prompts are fixed templates; a request is represented by the
    template and the values substituted into it. *)
Inductive Prompt :=
| TriagePrompt (symptoms : jsstring) (age : option Z) (duration : option jsstring)
    (knownConditions : option (list jsstring)) (additionalContext : option jsstring)
| SimplifyPrompt (language : PrescriptionLanguageCode) (text : jsstring)
| TranslatePrompt (language : PrescriptionLanguageCode) (summary : SimplifiedPrescriptionSummary).

Record FetchRequest := {
  rq_model : jsstring;
  rq_key : jsstring;
  rq_prompt : Prompt;
  rq_temperature_tenths : N
}.

Inductive FetchResult :=
| Rejected
| Response (status : N) (body : jsstring).

Definition response_ok (status : N) : bool := in_range 200%N 299%N status.

(** A computation that may call the external service and may throw. *)
Inductive Prog (A : Type) : Type :=
| Ret (a : A)
| Throw (e : JsError)
| Fetch (rq : FetchRequest) (k : FetchResult -> Prog A).

Arguments Ret {A} a.
Arguments Throw {A} e.
Arguments Fetch {A} rq k.

Fixpoint bind {A B : Type} (m : Prog A) (f : A -> Prog B) : Prog B :=
  match m with
  | Ret a => f a
  | Throw e => Throw e
  | Fetch rq k => Fetch rq (fun r => bind (k r) f)
  end.

Declare Scope prog_scope.
Delimit Scope prog_scope with prog.
Notation "x <- m ;; f" := (bind m (fun x => f))
  (at level 61, m at next level, right associativity) : prog_scope.

Definition fetch (rq : FetchRequest) : Prog FetchResult := Fetch rq (fun r => Ret r).

Inductive Outcome (A : Type) : Type :=
| Returned (a : A)
| Thrown (e : JsError).

Arguments Returned {A} a.
Arguments Thrown {A} e.

(** Running a computation against a network: [net n rq] answers the [n]-th
    outbound call.  The result comes with the calls made, in order. *)
Fixpoint run_from {A : Type} (net : nat -> FetchRequest -> FetchResult) (n : nat)
  (m : Prog A) : Outcome A * list FetchRequest :=
  match m with
  | Ret a => (Returned a, [])
  | Throw e => (Thrown e, [])
  | Fetch rq k =>
      let (o, calls) := run_from net (S n) (k (net n rq)) in
      (o, rq :: calls)
  end.

Definition run {A : Type} (net : nat -> FetchRequest -> FetchResult) (m : Prog A)
  : Outcome A * list FetchRequest :=
  run_from net 0 m.

Record Env := {
  GEMINI_API_KEY : option jsstring;
  GEMINI_MODEL : option jsstring
}.

(** [!env.GEMINI_API_KEY] is false exactly when a non-empty key is set. *)
Definition api_key (env : Env) : option jsstring :=
  match GEMINI_API_KEY env with
  | Some key => if truthy key then Some key else None
  | None => None
  end.

(** [env.GEMINI_MODEL ?? "gemini-2.5-flash"] *)
Definition model_name (env : Env) : jsstring :=
  match GEMINI_MODEL env with
  | Some m => m
  | None => lit "gemini-2.5-flash"
  end.

(** ** Schema validator *)

(** [z.string().min(lo).max(hi)]; lengths are counted in code units. *)
Definition str_between (lo hi : nat) (v : option json) : option jsstring :=
  match v with
  | Some (JStr s) =>
      if Nat.leb lo (length s) && Nat.leb (length s) hi then Some s else None
  | _ => None
  end.

Fixpoint all_some {A : Type} (l : list (option A)) : option (list A) :=
  match l with
  | [] => Some []
  | Some x :: l' =>
      match all_some l' with
      | Some xs => Some (x :: xs)
      | None => None
      end
  | None :: _ => None
  end.

(** [z.array(item).min(lo).max(hi)] *)
Definition array_of {A : Type} (item : json -> option A) (lo hi : nat) (v : option json)
  : option (list A) :=
  match v with
  | Some (JArr items) =>
      if Nat.leb lo (length items) && Nat.leb (length items) hi
      then all_some (map item items)
      else None
  | _ => None
  end.

(** [.strict()]: no key outside the schema's shape. *)
Definition only_keys (allowed : list string) (fields : list (jsstring * json)) : bool :=
  forallb (fun kv => existsb (str_eqb (fst kv)) (map lit allowed)) fields.

(** [z.enum([...])] over a table of names *)
Fixpoint enum_of {A : Type} (table : list (string * A)) (v : option json) : option A :=
  match table with
  | [] => None
  | (name, a) :: table' =>
      match v with
      | Some (JStr s) => if str_eqb s (lit name) then Some a else enum_of table' v
      | _ => None
      end
  end.

Definition triageLevelSchema : option json -> option TriageLevel :=
  enum_of [ ("RED", RED); ("YELLOW", YELLOW); ("GREEN", GREEN); ("BLUE", BLUE) ]%string.

Definition symptomCheckResponseSchema (v : json) : option TriageResult :=
  match v with
  | JObj fields =>
      if only_keys [ "summary"; "triageLevel"; "explanation"; "recommendedAction"; "disclaimer" ]%string fields
      then
        match str_between 5 600 (assoc (lit "summary") fields),
              triageLevelSchema (assoc (lit "triageLevel") fields),
              str_between 5 1000 (assoc (lit "explanation") fields),
              str_between 5 600 (assoc (lit "recommendedAction") fields),
              str_between 10 400 (assoc (lit "disclaimer") fields) with
        | Some s, Some l, Some e, Some a, Some d =>
            Some {| summary := s; triageLevel := l; explanation := e;
                    recommendedAction := a; disclaimer := d |}
        | _, _, _, _, _ => None
        end
      else None
  | _ => None
  end.

Definition prescriptionLanguageSchema : option json -> option PrescriptionLanguageCode :=
  enum_of [ ("en", en); ("hi", hi); ("ta", ta); ("bn", bn) ]%string.

Definition prescriptionTimingSlotSchema : option json -> option PrescriptionTimingSlot :=
  enum_of
    [ ("MORNING_BEFORE_FOOD", MORNING_BEFORE_FOOD); ("MORNING_AFTER_FOOD", MORNING_AFTER_FOOD);
      ("AFTERNOON_BEFORE_FOOD", AFTERNOON_BEFORE_FOOD); ("AFTERNOON_AFTER_FOOD", AFTERNOON_AFTER_FOOD);
      ("NIGHT_BEFORE_FOOD", NIGHT_BEFORE_FOOD); ("NIGHT_AFTER_FOOD", NIGHT_AFTER_FOOD);
      ("BEDTIME", BEDTIME); ("AS_NEEDED", AS_NEEDED); ("UNSPECIFIED", UNSPECIFIED) ]%string.

Definition prescriptionSimplifiedMedicineSchema (v : json) : option SimplifiedMedicine :=
  match v with
  | JObj fields =>
      if only_keys [ "medicineName"; "dosage"; "duration"; "timingSlots"; "instructions" ]%string fields
      then
        match str_between 1 160 (assoc (lit "medicineName") fields),
              str_between 1 160 (assoc (lit "dosage") fields),
              str_between 1 160 (assoc (lit "duration") fields),
              array_of (fun x => prescriptionTimingSlotSchema (Some x)) 1 8
                (assoc (lit "timingSlots") fields),
              array_of (fun x => str_between 1 220 (Some x)) 0 8
                (assoc (lit "instructions") fields) with
        | Some n, Some d, Some u, Some t, Some i =>
            Some {| medicineName := n; dosage := d; m_duration := u;
                    timingSlots := t; instructions := i |}
        | _, _, _, _, _ => None
        end
      else None
  | _ => None
  end.

Definition prescriptionSimplifyResponseSchema (v : json) : option SimplifiedPrescriptionSummary :=
  match v with
  | JObj fields =>
      if only_keys [ "languageCode"; "languageLabel"; "doctorExplanation"; "medicines";
                     "warnings"; "hydrationTips"; "generalAdvice" ]%string fields
      then
        match prescriptionLanguageSchema (assoc (lit "languageCode") fields),
              str_between 2 60 (assoc (lit "languageLabel") fields),
              str_between 5 1200 (assoc (lit "doctorExplanation") fields),
              array_of prescriptionSimplifiedMedicineSchema 1 12 (assoc (lit "medicines") fields),
              array_of (fun x => str_between 1 220 (Some x)) 0 10 (assoc (lit "warnings") fields),
              array_of (fun x => str_between 1 220 (Some x)) 0 8 (assoc (lit "hydrationTips") fields),
              array_of (fun x => str_between 1 220 (Some x)) 0 10 (assoc (lit "generalAdvice") fields) with
        | Some c, Some l, Some e, Some m, Some w, Some h, Some g =>
            Some {| languageCode := c; languageLabel := l; doctorExplanation := e;
                    medicines := m; warnings := w; hydrationTips := h; generalAdvice := g |}
        | _, _, _, _, _, _, _ => None
        end
      else None
  | _ => None
  end.

(** ** External model adapter *)

(** [data.candidates?.[0]?.content?.parts?.[0]?.text?.trim()]: an error when
    the access throws, otherwise the text or [undefined]. *)
Definition candidateText (data : json) : JsError + option jsstring :=
  match data with
  | JNull => inl TypeError
  | _ =>
      let text :=
        chain (chain (chain (chain (chain (prop "candidates" data) index0)
                                   (prop "content")) (prop "parts")) index0) (prop "text") in
      match text with
      | None | Some JNull => inr None
      | Some (JStr s) => inr (Some (trim s))
      | Some _ => inl TypeError
      end
  end.

(** [/\{[\s\S]*\}/] *)
Definition jsonBlockRegex : regex := seq_of [ str "{"; Star any; str "}" ].

(** Decimal digits of a number, for template strings. *)
Fixpoint decimal_from (fuel : nat) (n : N) (acc : jsstring) : jsstring :=
  match fuel with
  | O => acc
  | S fuel' =>
      let acc' := (48 + n mod 10)%N :: acc in
      if (n <? 10)%N then acc' else decimal_from fuel' (n / 10)%N acc'
  end.

Definition decimal (n : N) : jsstring := decimal_from (S (N.to_nat (N.log2 n))) n [].


(** ** Deterministic prescription extractor *)

Module Phrases.

(** [prescriptionFallbackByLanguage]: the fixed per-language phrase table.
    Phrases outside Basic Latin are given by their UTF-16 code units, with
    the source literal in the comment above each. *)
Record FallbackText := {
  defaultMedicine : jsstring;
  defaultDosage : jsstring;
  defaultDuration : jsstring;
  useDirective : jsstring -> jsstring -> jsstring;
  followSchedule : jsstring -> jsstring;
  takeAfterFood : jsstring;
  takeBeforeFood : jsstring;
  warningEmptyStomach : jsstring;
  warningGeneric : jsstring;
  hydrationTip : jsstring;
  generalAdvice : jsstring
}.

Definition phrases_en : FallbackText :=
  {|
     defaultMedicine :=
       lit "Medicine";
     defaultDosage :=
       lit "As prescribed";
     defaultDuration :=
       lit "As advised";
     (* Use ${medicineName} ${dosage} as directed by your doctor. *)
     useDirective := fun medicineName dosage =>
       lit "Use "
       ++ medicineName
       ++ lit " "
       ++ dosage
       ++ lit " as directed by your doctor.";
     (* Follow the schedule for ${duration}. *)
     followSchedule := fun duration =>
       lit "Follow the schedule for "
       ++ duration
       ++ lit ".";
     takeAfterFood :=
       lit "Take after food.";
     takeBeforeFood :=
       lit "Take before food.";
     warningEmptyStomach :=
       lit "Do not take on an empty stomach.";
     warningGeneric :=
       lit "Follow warning instructions carefully.";
     hydrationTip :=
       lit "Drink more water.";
     generalAdvice :=
       lit "Consult a licensed doctor if symptoms worsen or if side effects appear." |}.

Definition phrases_hi : FallbackText :=
  {|
     (* दवा *)
     defaultMedicine :=
       [ 2342; 2357; 2366 ]%N;
     (* डॉक्टर के अनुसार *)
     defaultDosage :=
       [ 2337; 2377; 2325; 2381; 2335; 2352; 32; 2325; 2375; 32; 2309; 2344;
         2369; 2360; 2366; 2352 ]%N;
     (* डॉक्टर की सलाह तक *)
     defaultDuration :=
       [ 2337; 2377; 2325; 2381; 2335; 2352; 32; 2325; 2368; 32; 2360; 2354;
         2366; 2361; 32; 2340; 2325 ]%N;
     (* ${medicineName} ${dosage} डॉक्टर के निर्देशानुसार लें। *)
     useDirective := fun medicineName dosage =>
       medicineName
       ++ lit " "
       ++ dosage
       ++ [ 32; 2337; 2377; 2325; 2381; 2335; 2352; 32; 2325; 2375; 32; 2344;
         2367; 2352; 2381; 2342; 2375; 2358; 2366; 2344; 2369; 2360; 2366;
         2352; 32; 2354; 2375; 2306; 2404 ]%N;
     (* ${duration} तक दवा समय पर लें। *)
     followSchedule := fun duration =>
       duration
       ++ [ 32; 2340; 2325; 32; 2342; 2357; 2366; 32; 2360; 2350; 2351; 32; 2346;
         2352; 32; 2354; 2375; 2306; 2404 ]%N;
     (* खाना खाने के बाद लें। *)
     takeAfterFood :=
       [ 2326; 2366; 2344; 2366; 32; 2326; 2366; 2344; 2375; 32; 2325; 2375;
         32; 2348; 2366; 2342; 32; 2354; 2375; 2306; 2404 ]%N;
     (* खाना खाने से पहले लें। *)
     takeBeforeFood :=
       [ 2326; 2366; 2344; 2366; 32; 2326; 2366; 2344; 2375; 32; 2360; 2375;
         32; 2346; 2361; 2354; 2375; 32; 2354; 2375; 2306; 2404 ]%N;
     (* खाली पेट दवा न लें। *)
     warningEmptyStomach :=
       [ 2326; 2366; 2354; 2368; 32; 2346; 2375; 2335; 32; 2342; 2357; 2366;
         32; 2344; 32; 2354; 2375; 2306; 2404 ]%N;
     (* सावधानी संबंधी निर्देश ध्यान से मानें। *)
     warningGeneric :=
       [ 2360; 2366; 2357; 2343; 2366; 2344; 2368; 32; 2360; 2306; 2348; 2306;
         2343; 2368; 32; 2344; 2367; 2352; 2381; 2342; 2375; 2358; 32; 2343;
         2381; 2351; 2366; 2344; 32; 2360; 2375; 32; 2350; 2366; 2344; 2375;
         2306; 2404 ]%N;
     (* पर्याप्त पानी पिएं। *)
     hydrationTip :=
       [ 2346; 2352; 2381; 2351; 2366; 2346; 2381; 2340; 32; 2346; 2366; 2344;
         2368; 32; 2346; 2367; 2319; 2306; 2404 ]%N;
     (* लक्षण बढ़ें या दुष्प्रभाव हों तो तुरंत डॉक्टर से संपर्क करें। *)
     generalAdvice :=
       [ 2354; 2325; 2381; 2359; 2339; 32; 2348; 2338; 2364; 2375; 2306; 32;
         2351; 2366; 32; 2342; 2369; 2359; 2381; 2346; 2381; 2352; 2349; 2366;
         2357; 32; 2361; 2379; 2306; 32; 2340; 2379; 32; 2340; 2369; 2352;
         2306; 2340; 32; 2337; 2377; 2325; 2381; 2335; 2352; 32; 2360; 2375;
         32; 2360; 2306; 2346; 2352; 2381; 2325; 32; 2325; 2352; 2375; 2306;
         2404 ]%N |}.

Definition phrases_ta : FallbackText :=
  {|
     (* மருந்து *)
     defaultMedicine :=
       [ 2990; 2992; 3009; 2984; 3021; 2980; 3009 ]%N;
     (* மருத்துவர் கூறியபடி *)
     defaultDosage :=
       [ 2990; 2992; 3009; 2980; 3021; 2980; 3009; 2997; 2992; 3021; 32; 2965;
         3010; 2993; 3007; 2991; 2986; 2975; 3007 ]%N;
     (* மருத்துவர் கூறும் வரை *)
     defaultDuration :=
       [ 2990; 2992; 3009; 2980; 3021; 2980; 3009; 2997; 2992; 3021; 32; 2965;
         3010; 2993; 3009; 2990; 3021; 32; 2997; 2992; 3016 ]%N;
     (* ${medicineName} ${dosage} மருத்துவர் கூறியபடி எடுத்துக்கொள்ளவும். *)
     useDirective := fun medicineName dosage =>
       medicineName
       ++ lit " "
       ++ dosage
       ++ [ 32; 2990; 2992; 3009; 2980; 3021; 2980; 3009; 2997; 2992; 3021; 32;
         2965; 3010; 2993; 3007; 2991; 2986; 2975; 3007; 32; 2958; 2975; 3009;
         2980; 3021; 2980; 3009; 2965; 3021; 2965; 3018; 2995; 3021; 2995;
         2997; 3009; 2990; 3021; 46 ]%N;
     (* ${duration} வரை மருந்தை நேரத்திற்கு எடுத்துக்கொள்ளவும். *)
     followSchedule := fun duration =>
       duration
       ++ [ 32; 2997; 2992; 3016; 32; 2990; 2992; 3009; 2984; 3021; 2980; 3016;
         32; 2984; 3015; 2992; 2980; 3021; 2980; 3007; 2993; 3021; 2965; 3009;
         32; 2958; 2975; 3009; 2980; 3021; 2980; 3009; 2965; 3021; 2965; 3018;
         2995; 3021; 2995; 2997; 3009; 2990; 3021; 46 ]%N;
     (* உணவுக்குப் பிறகு எடுத்துக்கொள்ளவும். *)
     takeAfterFood :=
       [ 2953; 2979; 2997; 3009; 2965; 3021; 2965; 3009; 2986; 3021; 32; 2986;
         3007; 2993; 2965; 3009; 32; 2958; 2975; 3009; 2980; 3021; 2980; 3009;
         2965; 3021; 2965; 3018; 2995; 3021; 2995; 2997; 3009; 2990; 3021; 46 ]%N;
     (* உணவுக்கு முன் எடுத்துக்கொள்ளவும். *)
     takeBeforeFood :=
       [ 2953; 2979; 2997; 3009; 2965; 3021; 2965; 3009; 32; 2990; 3009; 2985;
         3021; 32; 2958; 2975; 3009; 2980; 3021; 2980; 3009; 2965; 3021; 2965;
         3018; 2995; 3021; 2995; 2997; 3009; 2990; 3021; 46 ]%N;
     (* வயிறு காலியாக இருக்கும்போது எடுத்துக்கொள்ள வேண்டாம். *)
     warningEmptyStomach :=
       [ 2997; 2991; 3007; 2993; 3009; 32; 2965; 3006; 2994; 3007; 2991; 3006;
         2965; 32; 2951; 2992; 3009; 2965; 3021; 2965; 3009; 2990; 3021; 2986;
         3019; 2980; 3009; 32; 2958; 2975; 3009; 2980; 3021; 2980; 3009; 2965;
         3021; 2965; 3018; 2995; 3021; 2995; 32; 2997; 3015; 2979; 3021; 2975;
         3006; 2990; 3021; 46 ]%N;
     (* எச்சரிக்கை வழிமுறைகளை கவனமாக பின்பற்றவும். *)
     warningGeneric :=
       [ 2958; 2970; 3021; 2970; 2992; 3007; 2965; 3021; 2965; 3016; 32; 2997;
         2996; 3007; 2990; 3009; 2993; 3016; 2965; 2995; 3016; 32; 2965; 2997;
         2985; 2990; 3006; 2965; 32; 2986; 3007; 2985; 3021; 2986; 2993; 3021;
         2993; 2997; 3009; 2990; 3021; 46 ]%N;
     (* அதிகமாக தண்ணீர் குடிக்கவும். *)
     hydrationTip :=
       [ 2949; 2980; 3007; 2965; 2990; 3006; 2965; 32; 2980; 2979; 3021; 2979;
         3008; 2992; 3021; 32; 2965; 3009; 2975; 3007; 2965; 3021; 2965; 2997;
         3009; 2990; 3021; 46 ]%N;
     (* அறிகுறிகள் மோசமடைந்தால் அல்லது பக்கவிளைவுகள் இருந்தால் மருத்துவரை அணுகவும். *)
     generalAdvice :=
       [ 2949; 2993; 3007; 2965; 3009; 2993; 3007; 2965; 2995; 3021; 32; 2990;
         3019; 2970; 2990; 2975; 3016; 2984; 3021; 2980; 3006; 2994; 3021; 32;
         2949; 2994; 3021; 2994; 2980; 3009; 32; 2986; 2965; 3021; 2965; 2997;
         3007; 2995; 3016; 2997; 3009; 2965; 2995; 3021; 32; 2951; 2992; 3009;
         2984; 3021; 2980; 3006; 2994; 3021; 32; 2990; 2992; 3009; 2980; 3021;
         2980; 3009; 2997; 2992; 3016; 32; 2949; 2979; 3009; 2965; 2997; 3009;
         2990; 3021; 46 ]%N |}.

Definition phrases_bn : FallbackText :=
  {|
     (* ওষুধ *)
     defaultMedicine :=
       [ 2451; 2487; 2497; 2471 ]%N;
     (* ডাক্তারের নির্দেশ অনুযায়ী *)
     defaultDosage :=
       [ 2465; 2494; 2453; 2509; 2468; 2494; 2480; 2503; 2480; 32; 2472; 2495;
         2480; 2509; 2470; 2503; 2486; 32; 2437; 2472; 2497; 2479; 2494; 2479;
         2492; 2496 ]%N;
     (* ডাক্তারের পরামর্শ অনুযায়ী *)
     defaultDuration :=
       [ 2465; 2494; 2453; 2509; 2468; 2494; 2480; 2503; 2480; 32; 2474; 2480;
         2494; 2478; 2480; 2509; 2486; 32; 2437; 2472; 2497; 2479; 2494; 2479;
         2492; 2496 ]%N;
     (* ${medicineName} ${dosage} ডাক্তারের নির্দেশ অনুযায়ী সেবন করুন। *)
     useDirective := fun medicineName dosage =>
       medicineName
       ++ lit " "
       ++ dosage
       ++ [ 32; 2465; 2494; 2453; 2509; 2468; 2494; 2480; 2503; 2480; 32; 2472;
         2495; 2480; 2509; 2470; 2503; 2486; 32; 2437; 2472; 2497; 2479; 2494;
         2479; 2492; 2496; 32; 2488; 2503; 2476; 2472; 32; 2453; 2480; 2497;
         2472; 2404 ]%N;
     (* ${duration} পর্যন্ত সময়মতো ওষুধ নিন। *)
     followSchedule := fun duration =>
       duration
       ++ [ 32; 2474; 2480; 2509; 2479; 2472; 2509; 2468; 32; 2488; 2478; 2479;
         2492; 2478; 2468; 2507; 32; 2451; 2487; 2497; 2471; 32; 2472; 2495;
         2472; 2404 ]%N;
     (* খাওয়ার পরে সেবন করুন। *)
     takeAfterFood :=
       [ 2454; 2494; 2451; 2479; 2492; 2494; 2480; 32; 2474; 2480; 2503; 32;
         2488; 2503; 2476; 2472; 32; 2453; 2480; 2497; 2472; 2404 ]%N;
     (* খাওয়ার আগে সেবন করুন। *)
     takeBeforeFood :=
       [ 2454; 2494; 2451; 2479; 2492; 2494; 2480; 32; 2438; 2455; 2503; 32;
         2488; 2503; 2476; 2472; 32; 2453; 2480; 2497; 2472; 2404 ]%N;
     (* খালি পেটে ওষুধ খাবেন না। *)
     warningEmptyStomach :=
       [ 2454; 2494; 2482; 2495; 32; 2474; 2503; 2463; 2503; 32; 2451; 2487;
         2497; 2471; 32; 2454; 2494; 2476; 2503; 2472; 32; 2472; 2494; 2404 ]%N;
     (* সতর্কতার নির্দেশগুলি মেনে চলুন। *)
     warningGeneric :=
       [ 2488; 2468; 2480; 2509; 2453; 2468; 2494; 2480; 32; 2472; 2495; 2480;
         2509; 2470; 2503; 2486; 2455; 2497; 2482; 2495; 32; 2478; 2503; 2472;
         2503; 32; 2458; 2482; 2497; 2472; 2404 ]%N;
     (* পর্যাপ্ত পানি পান করুন। *)
     hydrationTip :=
       [ 2474; 2480; 2509; 2479; 2494; 2474; 2509; 2468; 32; 2474; 2494; 2472;
         2495; 32; 2474; 2494; 2472; 32; 2453; 2480; 2497; 2472; 2404 ]%N;
     (* লক্ষণ বাড়লে বা পার্শ্বপ্রতিক্রিয়া হলে দ্রুত ডাক্তারের সঙ্গে যোগাযোগ করুন। *)
     generalAdvice :=
       [ 2482; 2453; 2509; 2487; 2467; 32; 2476; 2494; 2465; 2492; 2482; 2503;
         32; 2476; 2494; 32; 2474; 2494; 2480; 2509; 2486; 2509; 2476; 2474;
         2509; 2480; 2468; 2495; 2453; 2509; 2480; 2495; 2479; 2492; 2494; 32;
         2489; 2482; 2503; 32; 2470; 2509; 2480; 2497; 2468; 32; 2465; 2494;
         2453; 2509; 2468; 2494; 2480; 2503; 2480; 32; 2488; 2457; 2509; 2455;
         2503; 32; 2479; 2507; 2455; 2494; 2479; 2507; 2455; 32; 2453; 2480;
         2497; 2472; 2404 ]%N |}.

End Phrases.

Definition prescriptionFallbackByLanguage (l : PrescriptionLanguageCode) : Phrases.FallbackText :=
  match l with
  | en => Phrases.phrases_en
  | hi => Phrases.phrases_hi
  | ta => Phrases.phrases_ta
  | bn => Phrases.phrases_bn
  end.

Inductive DayPart := MORNING | AFTERNOON | NIGHT.
Inductive MealRelation := BEFORE_FOOD | AFTER_FOOD | NONE.

Definition buildPrescriptionTimingSlot (part : DayPart) (meal : MealRelation)
  : PrescriptionTimingSlot :=
  match part with
  | MORNING =>
      match meal with
      | BEFORE_FOOD => MORNING_BEFORE_FOOD
      | AFTER_FOOD => MORNING_AFTER_FOOD
      | NONE => MORNING_AFTER_FOOD
      end
  | AFTERNOON =>
      match meal with
      | BEFORE_FOOD => AFTERNOON_BEFORE_FOOD
      | AFTER_FOOD => AFTERNOON_AFTER_FOOD
      | NONE => AFTERNOON_AFTER_FOOD
      end
  | NIGHT =>
      match meal with
      | BEFORE_FOOD => NIGHT_BEFORE_FOOD
      | AFTER_FOOD => NIGHT_AFTER_FOOD
      | NONE => NIGHT_AFTER_FOOD
      end
  end.

(** [\b r \b] *)
Definition wb (r : regex) : regex := seq_of [ WordB; r; WordB ].

(** [(food|meal|meals)] *)
Definition foodWords : regex := Group 1 (alt_of [ str "food"; str "meal"; str "meals" ]).

(** [(daily|a day)] *)
Definition dailyWords : regex := Group 1 (alt_of [ str "daily"; str "a day" ]).

(** [/\bas needed\b|\bwhen needed\b|\bsos\b/] *)
Definition asNeededRegex : regex :=
  alt_of [ wb (str "as needed"); wb (str "when needed"); wb (str "sos") ].

(** [/\bafter (food|meal|meals)\b|\bpost meal\b/] *)
Definition afterMealRegex : regex :=
  alt_of [ wb (Seq (str "after ") foodWords); wb (str "post meal") ].

(** [/\bbefore (food|meal|meals)\b|\bempty stomach\b/] *)
Definition beforeMealRegex : regex :=
  alt_of [ wb (Seq (str "before ") foodWords); wb (str "empty stomach") ].

(** [/\bmorning\b/] *)
Definition morningRegex : regex := wb (str "morning").

(** [/\bafternoon\b|\bnoon\b/] *)
Definition afternoonRegex : regex := alt_of [ wb (str "afternoon"); wb (str "noon") ].

(** [/\bnight\b|\bevening\b/] *)
Definition nightRegex : regex := alt_of [ wb (str "night"); wb (str "evening") ].

(** [/\bthrice daily\b|\bthree times (daily|a day)\b|\btid\b/] *)
Definition thriceRegex : regex :=
  alt_of [ wb (str "thrice daily"); wb (Seq (str "three times ") dailyWords); wb (str "tid") ].

(** [/\btwice daily\b|\btwo times (daily|a day)\b|\bbid\b/] *)
Definition twiceRegex : regex :=
  alt_of [ wb (str "twice daily"); wb (Seq (str "two times ") dailyWords); wb (str "bid") ].

(** [/\bonce daily\b|\bonce a day\b|\bod\b/] *)
Definition onceRegex : regex :=
  alt_of [ wb (str "once daily"); wb (str "once a day"); wb (str "od") ].

(** [/\bbefore bed\b|\bbedtime\b/] *)
Definition bedtimeRegex : regex := alt_of [ wb (str "before bed"); wb (str "bedtime") ].

Definition extractTimingSlotsFromText (text : jsstring) : list PrescriptionTimingSlot :=
  let normalized := toLowerCase text in
  if test asNeededRegex normalized then [ AS_NEEDED ]
  else
    let meal :=
      if test afterMealRegex normalized then AFTER_FOOD
      else if test beforeMealRegex normalized then BEFORE_FOOD
      else NONE in
    let parts :=
      (if test morningRegex normalized then [ MORNING ] else [])
        ++ (if test afternoonRegex normalized then [ AFTERNOON ] else [])
        ++ (if test nightRegex normalized then [ NIGHT ] else []) in
    let parts :=
      match parts with
      | [] =>
          if test thriceRegex normalized then [ MORNING; AFTERNOON; NIGHT ]
          else if test twiceRegex normalized then [ MORNING; NIGHT ]
          else if test onceRegex normalized then [ MORNING ]
          else []
      | _ :: _ => parts
      end in
    let slots := map (fun part => buildPrescriptionTimingSlot part meal) parts in
    let slots := slots ++ (if test bedtimeRegex normalized then [ BEDTIME ] else []) in
    match slots with
    | [] => [ UNSPECIFIED ]
    | _ :: _ => dedupe_by slot_eqb [] slots
    end.

(** [(?:take|tab(?:let)?|capsule|cap|syrup)] under the [i] flag *)
Definition formWords : regex :=
  alt_of [ str_ci "take"; Seq (str_ci "tab") (opt (str_ci "let")); str_ci "capsule";
           str_ci "cap"; str_ci "syrup" ].

(** [[A-Za-z][A-Za-z0-9-]*] *)
Definition nameWord : regex :=
  Seq (Class is_latin) (Star (Class (fun x => is_latin x || is_digit x || cu_eqb x 45%N))).

(** [r{0,3}], greedy *)
Definition upto3 (r : regex) : regex := opt (Seq r (opt (Seq r (opt r)))).

(** [/(?:take|tab(?:let)?|capsule|cap|syrup)?\s*([A-Za-z][A-Za-z0-9-]*(?:\s+[A-Za-z][A-Za-z0-9-]* ){0,3})\s+(\d+\s?(?:mg|ml|mcg|g))/i]
    (written here with a blank between the star and the parenthesis that
    closes the repeated group) *)
Definition medicineRegex : regex :=
  seq_of
    [ opt formWords; Star ws;
      Group 1 (Seq nameWord (upto3 (Seq (plus ws) nameWord)));
      plus ws;
      Group 2 (seq_of [ plus digit; opt ws;
                        alt_of [ str_ci "mg"; str_ci "ml"; str_ci "mcg"; str_ci "g" ] ]) ].

(** [/^(take|tab(?:let)?|capsule|cap|syrup)\s+/i] *)
Definition formPrefixRegex : regex := seq_of [ Bol; Group 1 formWords; plus ws ].

(** [/\bfor\s+(\d+\s*(?:day|days|week|weeks|month|months))\b/i] *)
Definition durationRegex : regex :=
  seq_of
    [ WordB; str_ci "for"; plus ws;
      Group 1 (seq_of [ plus digit; Star ws;
                        alt_of [ str_ci "day"; str_ci "days"; str_ci "week"; str_ci "weeks";
                                 str_ci "month"; str_ci "months" ] ]);
      WordB ].

(** [/\b(empty stomach|avoid empty stomach)\b/] *)
Definition emptyStomachRegex : regex :=
  wb (Group 1 (alt_of [ str "empty stomach"; str "avoid empty stomach" ])).

(** [/\bdo not\b|\bdon't\b|\bavoid\b/] *)
Definition avoidRegex : regex :=
  alt_of [ wb (str "do not"); wb (str "don't"); wb (str "avoid") ].

(** [/\bdrink\b.*\bwater\b|\bhydrat/] *)
Definition hydrationRegex : regex :=
  alt_of [ seq_of [ wb (str "drink"); Star dot; wb (str "water") ];
           Seq WordB (str "hydrat") ].

(** [/\bafter (food|meal|meals)\b/] *)
Definition afterFoodRegex : regex := wb (Seq (str "after ") foodWords).

(** [/\bbefore (food|meal|meals)\b/] *)
Definition beforeFoodRegex : regex := wb (Seq (str "before ") foodWords).

(** [/\b(?:once|twice|thrice)\s+(?:daily|a day|per day)\b|\b\d+\s*(?:times?|x)\s*(?:a|per)?\s*day\b|\b(?:od|bd|bid|tid)\b/i] *)
Definition frequencyRegex : regex :=
  alt_of
    [ wb (seq_of [ alt_of [ str_ci "once"; str_ci "twice"; str_ci "thrice" ]; plus ws;
                   alt_of [ str_ci "daily"; str_ci "a day"; str_ci "per day" ] ]);
      wb (seq_of [ plus digit; Star ws;
                   alt_of [ Seq (str_ci "time") (opt (str_ci "s")); str_ci "x" ];
                   Star ws; opt (alt_of [ str_ci "a"; str_ci "per" ]); Star ws;
                   str_ci "day" ]);
      wb (alt_of [ str_ci "od"; str_ci "bd"; str_ci "bid"; str_ci "tid" ]) ].

(** [/\bqty(?:uantity)?\s*:?\s*(\d+)\b/i] *)
Definition qtyRegex : regex :=
  seq_of [ WordB; str_ci "qty"; opt (str_ci "uantity"); Star ws; opt (str_ci ":"); Star ws;
           Group 1 (plus digit); WordB ].

(** [/\bif\s+[^.]+/i] *)
Definition conditionRegex : regex :=
  seq_of [ WordB; str_ci "if"; plus ws; plus (none_of ".") ].

(** [/\binstructions?\s*:\s*([^.;]+)/i] *)
Definition explicitInstructionRegex : regex :=
  seq_of [ WordB; str_ci "instruction"; opt (str_ci "s"); Star ws; str_ci ":"; Star ws;
           Group 1 (plus (none_of ".;")) ].

(** [/\b\d+\s*(?:tablet|tab|capsule|cap|ml|drop|drops)\b/i] *)
Definition tabletCountRegex : regex :=
  wb (seq_of [ plus digit; Star ws;
               alt_of [ str_ci "tablet"; str_ci "tab"; str_ci "capsule"; str_ci "cap";
                        str_ci "ml"; str_ci "drop"; str_ci "drops" ] ]).

(** [v || fallback] for an optional string *)
Definition or_default (v : option jsstring) (fallback : jsstring) : jsstring :=
  match v with
  | Some s => if truthy s then s else fallback
  | None => fallback
  end.

(** [if (v) out.push(f(v))] for an optional string *)
Definition push_if (v : option jsstring) (f : jsstring -> jsstring) : list jsstring :=
  match v with
  | Some s => if truthy s then [ f s ] else []
  | None => []
  end.

(** [match?.[i]] *)
Definition group_opt (i : nat) (m : option MatchResult) : option jsstring :=
  match m with
  | Some m' => group i m'
  | None => None
  end.

(** [match?.[0]] *)
Definition text_opt (m : option MatchResult) : option jsstring := option_map m_text m.

Definition fallbackInstructions (fallbackText : Phrases.FallbackText) (text lower : jsstring)
  : list jsstring :=
  (if test afterFoodRegex lower then [ Phrases.takeAfterFood fallbackText ] else [])
    ++ (if test beforeFoodRegex lower then [ Phrases.takeBeforeFood fallbackText ] else [])
    ++ push_if (text_opt (exec frequencyRegex text)) trim
    ++ push_if (group_opt 1 (exec qtyRegex text)) (fun n => lit "Qty " ++ n)
    ++ push_if (text_opt (exec conditionRegex text)) trim
    ++ push_if (group_opt 1 (exec explicitInstructionRegex text)) trim
    ++ push_if (text_opt (exec tabletCountRegex text)) trim.

Definition fallbackPrescriptionSummary (input : SimplifyRequest) : SimplifiedPrescriptionSummary :=
  let text := sanitizeTriageText (text input) in
  let lower := toLowerCase text in
  let fallbackText := prescriptionFallbackByLanguage (language input) in
  let medicineMatch := exec medicineRegex text in
  let medicineName :=
    or_default (option_map (fun g => trim (remove_first formPrefixRegex g))
                  (group_opt 1 medicineMatch))
      (Phrases.defaultMedicine fallbackText) in
  let dosage :=
    or_default (option_map (fun g => trim (collapse_ws g)) (group_opt 2 medicineMatch))
      (Phrases.defaultDosage fallbackText) in
  let duration :=
    or_default (group_opt 1 (exec durationRegex lower)) (Phrases.defaultDuration fallbackText) in
  let warnings :=
    if test emptyStomachRegex lower then [ Phrases.warningEmptyStomach fallbackText ]
    else if test avoidRegex lower then [ Phrases.warningGeneric fallbackText ]
    else [] in
  let hydrationTips :=
    if test hydrationRegex lower then [ Phrases.hydrationTip fallbackText ] else [] in
  let instructions := fallbackInstructions fallbackText text lower in
  let dedupedInstructions := dedupe_by str_eqb [] (filter truthy (map trim instructions)) in
  let languageLabel := prescriptionLanguageLabels (language input) in
  let explanationSegments :=
    filter truthy
      [ Phrases.useDirective fallbackText medicineName dosage;
        Phrases.followSchedule fallbackText duration;
        hd [] dedupedInstructions ] in
  {| languageCode := language input;
     languageLabel := languageLabel;
     doctorExplanation := join (lit " ") explanationSegments;
     medicines :=
       [ {| medicineName := medicineName;
            dosage := dosage;
            m_duration := duration;
            timingSlots := extractTimingSlotsFromText lower;
            instructions := dedupedInstructions |} ];
     warnings := warnings;
     hydrationTips := hydrationTips;
     generalAdvice := [ Phrases.generalAdvice fallbackText ] |}.

(** ** Language alignment verifier *)

(** [prescriptionScriptRegexByLanguage]: [/[\u0900-\u097F]/] for hi,
    [/[\u0B80-\u0BFF]/] for ta, [/[\u0980-\u09FF]/] for bn; no entry for en.
    None of the three carries the [g] flag. *)
Definition script_range (l : PrescriptionLanguageCode) : option (cu * cu) :=
  match l with
  | en => None
  | hi => Some (2304, 2431)%N
  | ta => Some (2944, 3071)%N
  | bn => Some (2432, 2559)%N
  end.

Definition is_script (l : PrescriptionLanguageCode) (x : cu) : bool :=
  match script_range l with
  | Some (first, last) => in_range first last x
  | None => false
  end.

Definition prescriptionScriptRegexByLanguage (l : PrescriptionLanguageCode) : option regex :=
  match script_range l with
  | Some _ => Some (Class (is_script l))
  | None => None
  end.

(** [/[A-Za-z]/g] *)
Definition latinRegex : regex := Class is_latin.

(** [s.match(r)] for a pattern with the [g] flag: the texts of all matches,
    each search resuming where the previous match ended (one code unit
    further after an empty match). *)
Fixpoint match_all_from (fuel : nat) (r : regex) (p : option cu) (s : jsstring)
  : list jsstring :=
  match fuel with
  | O => []
  | S fuel' =>
      match search_from r p s 0 with
      | None => []
      | Some m =>
          m_text m ::
            match m_text m, m_rest m with
            | [], [] => []
            | [], x :: rest => match_all_from fuel' r (Some x) rest
            | _ :: _, rest => match_all_from fuel' r (Some (last (m_text m) 0%N)) rest
            end
      end
  end.

Definition match_all (r : regex) (s : jsstring) : list jsstring :=
  match_all_from (S (length s)) r None s.

Definition prescriptionNarrativeText (summary : SimplifiedPrescriptionSummary) : jsstring :=
  trim
    (collapse_ws
       (join (lit " ")
          ([ doctorExplanation summary ]
             ++ flat_map instructions (medicines summary)
             ++ warnings summary
             ++ hydrationTips summary
             ++ generalAdvice summary))).

(** [(narrative.match(scriptRegex) ?? []).length]: the script patterns have
    no [g] flag and no capture group, so the array of a match holds the
    matched text and nothing else. *)
Definition scriptCount (scriptRegex : regex) (narrative : jsstring) : nat :=
  match exec scriptRegex narrative with
  | Some _ => 1
  | None => 0
  end.

(** [(narrative.match(/[A-Za-z]/g) ?? []).length] *)
Definition latinCount (narrative : jsstring) : nat :=
  length (match_all latinRegex narrative).

(** [latinCount > scriptCount * 1.2] is written over the integers as
    [6 * scriptCount < 5 * latinCount].  [scriptCount] is 0 or 1 here, and
    the double [1 * 1.2] lies strictly between 1 and 2, so the comparison of
    doubles and the comparison of integers agree. *)
Definition isPrescriptionLanguageAligned (summary : SimplifiedPrescriptionSummary)
  (language : PrescriptionLanguageCode) : bool :=
  match language with
  | en => true
  | _ =>
      match prescriptionScriptRegexByLanguage language with
      | None => true
      | Some scriptRegex =>
          let narrative := prescriptionNarrativeText summary in
          let sc := scriptCount scriptRegex narrative in
          let lc := latinCount narrative in
          if Nat.eqb sc 0 then false
          else if Nat.ltb (6 * sc) (5 * lc) then false
          else true
      end
  end.

(** The alignment rule in the words of the specification: count the
    code units of the target script and the Latin letters of the narrative;
    fail when there is no script code unit or when the Latin count exceeds
    1.2 times the script count. *)
Definition aligned_by_spec (summary : SimplifiedPrescriptionSummary)
  (language : PrescriptionLanguageCode) : bool :=
  match language with
  | en => true
  | _ =>
      let narrative := prescriptionNarrativeText summary in
      let sc := length (filter (is_script language) narrative) in
      let lc := length (filter is_latin narrative) in
      negb (Nat.eqb sc 0) && Nat.leb (5 * lc) (6 * sc)
  end.

Definition coercePrescriptionLanguage (summary : SimplifiedPrescriptionSummary)
  (language : PrescriptionLanguageCode) : SimplifiedPrescriptionSummary :=
  {| languageCode := language;
     languageLabel := prescriptionLanguageLabels language;
     doctorExplanation := doctorExplanation summary;
     medicines := medicines summary;
     warnings := warnings summary;
     hydrationTips := hydrationTips summary;
     generalAdvice := generalAdvice summary |}.

(** ** Duration in days (patient portal) *)

(** The three patterns of [durationDaysFromText] differ in their unit words
    only: [/(\d+)\s*(?:u1|u2)/i]. *)
Definition countOf (units : list string) : regex :=
  seq_of [ Group 1 (plus digit); Star ws; alt_of (map str_ci units) ].

(** [/(\d+)\s*(?:day|days)/i] *)
Definition dayRegex : regex := countOf [ "day"; "days" ]%string.

(** [/(\d+)\s*(?:week|weeks)/i] *)
Definition weekRegex : regex := countOf [ "week"; "weeks" ]%string.

(** [/(\d+)\s*(?:month|months)/i] *)
Definition monthRegex : regex := countOf [ "month"; "months" ]%string.

(** A number of the source where it counts days: a double whose value is
    a natural number, infinity, or not a number. *)
Inductive number := Finite (value : Z) | Infinity | NaN.

(** The double nearest to a natural number, ties to even.  A natural
    number below 2^53 is a double; a greater one keeps its 53 leading bits,
    rounded, and from 2^1024 - 2^970 on it rounds to infinity. *)
Definition to_double (z : Z) : number :=
  if (z <? 2 ^ 53)%Z then Finite z
  else
    let e := (Z.log2 z - 52)%Z in
    let q := (z / 2 ^ e)%Z in
    let r := (z mod 2 ^ e)%Z in
    let half := (2 ^ (e - 1))%Z in
    let rounded :=
      if (r <? half)%Z then q
      else if (half <? r)%Z then (q + 1)%Z
      else if Z.even q then q else (q + 1)%Z in
    if (2 ^ 1024 <=? rounded * 2 ^ e)%Z then Infinity else Finite (rounded * 2 ^ e).

(** [x * k] for a natural constant [k]: the exact product, rounded. *)
Definition times (x : number) (k : Z) : number :=
  match x with
  | Finite z => to_double (z * k)
  | Infinity => Infinity
  | NaN => NaN
  end.

(** [Number(match[1])]: the double nearest to the number a run of digits
    spells; [Number(undefined)] is not a number. *)
Definition numberOfGroup1 (m : MatchResult) : number :=
  match group 1 m with
  | Some ds => to_double (digits_value ds)
  | None => NaN
  end.

Definition durationDaysFromText (value : jsstring) : option number :=
  match exec dayRegex value with
  | Some dayMatch => Some (numberOfGroup1 dayMatch)
  | None =>
      match exec weekRegex value with
      | Some weekMatch => Some (times (numberOfGroup1 weekMatch) 7)
      | None =>
          match exec monthRegex value with
          | Some monthMatch => Some (times (numberOfGroup1 monthMatch) 30)
          | None => None
          end
      end
  end.

(** ** Route handlers *)

(** What a route answers: the JSON body with status 200, or status 503 with
    the message of the error it caught. *)
Inductive RouteReply (A : Type) : Type :=
| Json200 (payload : A)
| Json503 (e : JsError).

Arguments Json200 {A} payload.
Arguments Json503 {A} e.

(** [try { ... } catch (error) { return c.json({ error }, 503) }] *)
Fixpoint try_catch {A : Type} (m : Prog A) : Prog (RouteReply A) :=
  match m with
  | Ret a => Ret (Json200 a)
  | Throw e => Ret (Json503 e)
  | Fetch rq k => Fetch rq (fun r => try_catch (k r))
  end.

Local Open Scope prog_scope.

Section Pipelines.

(** [JSON.parse]; [None] when it throws a SyntaxError. *)
Variable JSON_parse : jsstring -> option json.

(** The adapter answers a JSON value, [JNull] standing for [null].  A match
    of [/\{[\s\S]*\}/] is never empty, so [if (!possibleJson)] tests for no
    match. *)
Definition requestGeminiJson (env : Env) (model : jsstring) (prompt : Prompt)
  (temperature_tenths : N) : Prog json :=
  match api_key env with
  | None => Ret JNull
  | Some key =>
      response <- fetch {| rq_model := model; rq_key := key; rq_prompt := prompt;
                           rq_temperature_tenths := temperature_tenths |} ;;
      match response with
      | Rejected => Throw NetworkError
      | Response status body =>
          if negb (response_ok status) then Ret JNull
          else
            match JSON_parse body with
            | None => Throw SyntaxError
            | Some data =>
                match candidateText data with
                | inl e => Throw e
                | inr None => Ret JNull
                | inr (Some rawText) =>
                    if negb (truthy rawText) then Ret JNull
                    else
                      match JSON_parse rawText with
                      | Some v => Ret v
                      | None =>
                          match exec jsonBlockRegex rawText with
                          | None => Ret JNull
                          | Some m =>
                              match JSON_parse (m_text m) with
                              | Some v => Ret v
                              | None => Ret JNull
                              end
                          end
                      end
                end
            end
      end
  end.

(** ** Triage pipeline *)

Definition normalizeInput (input : TriageRequest) : GateInput :=
  {| g_symptoms := sanitizeTriageText (symptoms input);
     g_additionalContext :=
       match additionalContext input with
       | Some c => if truthy c then Some (sanitizeTriageText c) else None
       | None => None
       end |}.

(** [if (emergencyReason)] tests the reason for null: the check returns no
    empty reason.  The prompt is sent with temperature 0.3. *)
Definition runSymptomTriage (env : Env) (input : TriageRequest) : Prog TriageResult :=
  let normalizedInput := normalizeInput input in
  match ruleBasedEmergencyCheck normalizedInput with
  | Some emergencyReason => Ret (createRuleBasedRedResponse emergencyReason)
  | None =>
      if ruleBasedSafetyRefusalCheck normalizedInput
      then Ret createRuleBasedSafetyRefusalResponse
      else
        match api_key env with
        | None => Throw (Error (lit "GEMINI_API_KEY is missing"))
        | Some key =>
            response <- fetch {| rq_model := model_name env; rq_key := key;
                                 rq_prompt :=
                                   TriagePrompt (g_symptoms normalizedInput) (age input)
                                     (duration input) (knownConditions input)
                                     (g_additionalContext normalizedInput);
                                 rq_temperature_tenths := 3 |} ;;
            match response with
            | Rejected => Throw NetworkError
            | Response status detail =>
                if negb (response_ok status)
                then Throw (Error (lit "Gemini request failed: " ++ decimal status
                                     ++ lit " " ++ detail))
                else
                  match JSON_parse detail with
                  | None => Throw SyntaxError
                  | Some data =>
                      match candidateText data with
                      | inl e => Throw e
                      | inr None => Throw (Error (lit "Gemini returned empty output"))
                      | inr (Some rawText) =>
                          if negb (truthy rawText)
                          then Throw (Error (lit "Gemini returned empty output"))
                          else
                            parsedJson <-
                              match JSON_parse rawText with
                              | Some v => Ret v
                              | None =>
                                  match exec jsonBlockRegex rawText with
                                  | None => Throw (Error (lit "Gemini returned non-JSON output"))
                                  | Some m =>
                                      match JSON_parse (m_text m) with
                                      | Some v => Ret v
                                      | None => Throw SyntaxError
                                      end
                                  end
                              end ;;
                            match symptomCheckResponseSchema parsedJson with
                            | None => Throw (Error (lit "Gemini output did not match required format"))
                            | Some data => Ret data
                            end
                      end
                  end
            end
        end
  end.

(** ** Simplifier pipeline *)

Definition translatePrescriptionSummaryToLanguage (env : Env)
  (summary : SimplifiedPrescriptionSummary) (language : PrescriptionLanguageCode)
  (model : jsstring) : Prog (option SimplifiedPrescriptionSummary) :=
  translatedJson <- requestGeminiJson env model (TranslatePrompt language summary) 1 ;;
  if negb (json_truthy translatedJson) then Ret None
  else
    match prescriptionSimplifyResponseSchema translatedJson with
    | None => Ret None
    | Some translated => Ret (Some (coercePrescriptionLanguage translated language))
    end.

Definition runPrescriptionSimplifier (env : Env) (input : SimplifyRequest)
  : Prog SimplifiedPrescriptionSummary :=
  let fallback := fallbackPrescriptionSummary input in
  match api_key env with
  | None => Ret fallback
  | Some _ =>
      let model := model_name env in
      parsedJson <- requestGeminiJson env model
                      (SimplifyPrompt (language input) (trim (text input))) 2 ;;
      if negb (json_truthy parsedJson) then Ret fallback
      else
        match prescriptionSimplifyResponseSchema parsedJson with
        | None => Ret fallback
        | Some parsed =>
            let summary := coercePrescriptionLanguage parsed (language input) in
            if negb (isPrescriptionLanguageAligned summary (language input))
            then
              translated <- translatePrescriptionSummaryToLanguage env summary
                              (language input) model ;;
              match translated with
              | Some t =>
                  if isPrescriptionLanguageAligned t (language input)
                  then Ret t
                  else Ret fallback
              | None => Ret fallback
              end
            else Ret summary
        end
  end.

(** The handlers of [/ai/symptom-checker] and [/ai/prescription-simplify],
    from the validated payload on; the audit records they write are not
    part of this model. *)
Definition symptomCheckerRoute (env : Env) (payload : TriageRequest)
  : Prog (RouteReply TriageResult) :=
  try_catch (runSymptomTriage env payload).

Definition prescriptionSimplifyRoute (env : Env) (payload : SimplifyRequest)
  : Prog (RouteReply SimplifiedPrescriptionSummary) :=
  try_catch (runPrescriptionSimplifier env payload).

End Pipelines.

(** ** Request contracts and serialisation *)

(** [symptomCheckSchema] accepts the request. *)
Definition symptomCheckSchema_ok (input : TriageRequest) : bool :=
  Nat.leb 10 (length (symptoms input)) && Nat.leb (length (symptoms input)) 3000
  && match age input with Some a => (Z.leb 0 a && Z.leb a 120)%Z | None => true end
  && match duration input with Some d => Nat.leb (length d) 200 | None => true end
  && match knownConditions input with
     | Some cs => forallb (fun c => Nat.leb (length c) 120) cs && Nat.leb (length cs) 15
     | None => true
     end
  && match additionalContext input with Some c => Nat.leb (length c) 1500 | None => true end.

(** [prescriptionSimplifySchema] accepts the request. *)
Definition prescriptionSimplifySchema_ok (input : SimplifyRequest) : bool :=
  Nat.leb 10 (length (text input)) && Nat.leb (length (text input)) 6000.

Definition language_name (l : PrescriptionLanguageCode) : string :=
  match l with
  | en => "en" | hi => "hi" | ta => "ta" | bn => "bn"
  end.

Definition slot_name (t : PrescriptionTimingSlot) : string :=
  match t with
  | MORNING_BEFORE_FOOD => "MORNING_BEFORE_FOOD"
  | MORNING_AFTER_FOOD => "MORNING_AFTER_FOOD"
  | AFTERNOON_BEFORE_FOOD => "AFTERNOON_BEFORE_FOOD"
  | AFTERNOON_AFTER_FOOD => "AFTERNOON_AFTER_FOOD"
  | NIGHT_BEFORE_FOOD => "NIGHT_BEFORE_FOOD"
  | NIGHT_AFTER_FOOD => "NIGHT_AFTER_FOOD"
  | BEDTIME => "BEDTIME"
  | AS_NEEDED => "AS_NEEDED"
  | UNSPECIFIED => "UNSPECIFIED"
  end.

Definition strings_to_json (l : list jsstring) : json := JArr (map JStr l).

Definition medicine_to_json (m : SimplifiedMedicine) : json :=
  JObj [ (lit "medicineName", JStr (medicineName m));
         (lit "dosage", JStr (dosage m));
         (lit "duration", JStr (m_duration m));
         (lit "timingSlots", JArr (map (fun t => JStr (lit (slot_name t))) (timingSlots m)));
         (lit "instructions", strings_to_json (instructions m)) ].

(** The summary as the JSON value a response carries. *)
Definition summary_to_json (s : SimplifiedPrescriptionSummary) : json :=
  JObj [ (lit "languageCode", JStr (lit (language_name (languageCode s))));
         (lit "languageLabel", JStr (languageLabel s));
         (lit "doctorExplanation", JStr (doctorExplanation s));
         (lit "medicines", JArr (map medicine_to_json (medicines s)));
         (lit "warnings", strings_to_json (warnings s));
         (lit "hydrationTips", strings_to_json (hydrationTips s));
         (lit "generalAdvice", strings_to_json (generalAdvice s)) ].

(** A phrase that white-space normalisation leaves as it is: it starts and
    ends with a code unit that is not white space, and its inner white space
    is single spaces. *)
Definition phrase_stable (k : jsstring) : bool :=
  match k with
  | [] => false
  | x :: _ => negb (is_ws x) && negb (is_ws (last k 0%N)) && str_eqb (collapse_ws k) k
  end.

(** The phrases of the safety-refusal gate. *)
Definition refusalKeywords : list jsstring :=
  dosageRequestKeywords ++ diagnosisRequestKeywords ++ safetyBypassKeywords.

(** The request mentions phrase [k], in any letter case, in its symptoms
    or in its additional context. *)
Definition mentions (k : jsstring) (input : TriageRequest) : bool :=
  includes k (toLowerCase (symptoms input))
  || match additionalContext input with
     | Some c => includes k (toLowerCase c)
     | None => false
     end.

(** A request that carries only a symptom text. *)
Definition symptoms_only (s : string) : TriageRequest :=
  {| symptoms := lit s; age := None; duration := None;
     knownConditions := None; additionalContext := None |}.

Definition no_key : Env := {| GEMINI_API_KEY := None; GEMINI_MODEL := None |}.

Definition with_key : Env :=
  {| GEMINI_API_KEY := Some (lit "secret"); GEMINI_MODEL := None |}.

(** A parser that rejects every text, and a network where every call fails. *)
Definition parse_nothing (s : jsstring) : option json := None.

Definition net_down (n : nat) (rq : FetchRequest) : FetchResult := Rejected.

(** ** Predicates on computations *)

(** Every value the computation can return satisfies [P]. *)
Fixpoint every_return {A : Type} (P : A -> Prop) (m : Prog A) : Prop :=
  match m with
  | Ret a => P a
  | Throw _ => True
  | Fetch _ k => forall r, every_return P (k r)
  end.

(** Every error the computation can throw satisfies [Q]. *)
Fixpoint every_throw {A : Type} (Q : JsError -> Prop) (m : Prog A) : Prop :=
  match m with
  | Ret _ => True
  | Throw e => Q e
  | Fetch _ k => forall r, every_throw Q (k r)
  end.

(** The computation makes at most [n] outbound calls, whatever the answers. *)
Fixpoint calls_at_most {A : Type} (n : nat) (m : Prog A) {struct m} : Prop :=
  match m with
  | Ret _ | Throw _ => True
  | Fetch _ k =>
      match n with
      | O => False
      | S n' => forall r, calls_at_most n' (k r)
      end
  end.

(** The errors the adapter lets escape: a rejected fetch, a response body
    that is not JSON, an envelope whose text cannot be read. *)
Definition adapter_error (e : JsError) : Prop :=
  e = NetworkError \/ e = SyntaxError \/ e = TypeError.

(** A parser that knows the texts of a table and rejects every other text. *)
Fixpoint parse_table (table : list (jsstring * json)) (s : jsstring) : option json :=
  match table with
  | [] => None
  | (k, v) :: table' => if str_eqb k s then Some v else parse_table table' s
  end.

(** The envelope of a model answer whose first candidate carries [payload]. *)
Definition envelope (payload : jsstring) : json :=
  JObj [ (lit "candidates",
          JArr [ JObj [ (lit "content",
                         JObj [ (lit "parts",
                                 JArr [ JObj [ (lit "text", JStr payload) ] ]) ]) ] ]) ].

(** A network that answers every call with status 200 and the same body. *)
Definition net_always (body : string) (n : nat) (rq : FetchRequest) : FetchResult :=
  Response 200 (lit body).

Definition paracetamol_text : jsstring :=
  lit "Take Paracetamol 500mg twice daily for 5 days after food. Qty 10.".

(** A model answer for an English request that announces another language. *)
Definition mislabelled_answer : json :=
  JObj [ (lit "languageCode", JStr (lit "hi"));
         (lit "languageLabel", JStr (lit "Hindustani"));
         (lit "doctorExplanation", JStr (lit "Take one tablet in the morning and one at night."));
         (lit "medicines",
          JArr [ JObj [ (lit "medicineName", JStr (lit "Paracetamol"));
                        (lit "dosage", JStr (lit "500mg"));
                        (lit "duration", JStr (lit "5 days"));
                        (lit "timingSlots",
                         JArr [ JStr (lit "MORNING_AFTER_FOOD"); JStr (lit "NIGHT_AFTER_FOOD") ]);
                        (lit "instructions", JArr [ JStr (lit "Qty 10") ]) ] ]);
         (lit "warnings", JArr []);
         (lit "hydrationTips", JArr []);
         (lit "generalAdvice", JArr [ JStr (lit "See a doctor if you feel worse.") ]) ].

Definition mislabelling_parser : jsstring -> option json :=
  parse_table [ (lit "envelope", envelope (lit "answer")); (lit "answer", mislabelled_answer) ].

(** What the simplifier may return for a request: the deterministic
    fallback, or a model answer that passed the schema, was relabelled with
    the requested language and passed the alignment check. *)
Definition accepted_summary (input : SimplifyRequest) (s : SimplifiedPrescriptionSummary) : Prop :=
  s = fallbackPrescriptionSummary input
  \/ exists v parsed,
       json_truthy v = true
       /\ prescriptionSimplifyResponseSchema v = Some parsed
       /\ s = coercePrescriptionLanguage parsed (language input)
       /\ isPrescriptionLanguageAligned s (language input) = true.

(** What the schema reads from [mislabelled_answer], relabelled for an
    English request. *)
Definition relabelled_answer : SimplifiedPrescriptionSummary :=
  coercePrescriptionLanguage
    {| languageCode := hi;
       languageLabel := lit "Hindustani";
       doctorExplanation := lit "Take one tablet in the morning and one at night.";
       medicines :=
         [ {| medicineName := lit "Paracetamol"; dosage := lit "500mg";
              m_duration := lit "5 days";
              timingSlots := [ MORNING_AFTER_FOOD; NIGHT_AFTER_FOOD ];
              instructions := [ lit "Qty 10" ] |} ];
       warnings := [];
       hydrationTips := [];
       generalAdvice := [ lit "See a doctor if you feel worse." ] |}
    en.

Definition english_request : SimplifyRequest :=
  {| text := paracetamol_text; language := en |}.

Definition hindi_request : SimplifyRequest :=
  {| text := paracetamol_text; language := hi |}.

(** ** The output contract, as the specification words it *)

Definition within (lo hi n : nat) : bool := Nat.leb lo n && Nat.leb n hi.

(** The constant phrases of a language's table. *)
Definition table_phrases (l : PrescriptionLanguageCode) : list jsstring :=
  let t := prescriptionFallbackByLanguage l in
  [ Phrases.defaultMedicine t; Phrases.defaultDosage t; Phrases.defaultDuration t;
    Phrases.takeAfterFood t; Phrases.takeBeforeFood t; Phrases.warningEmptyStomach t;
    Phrases.warningGeneric t; Phrases.hydrationTip t; Phrases.generalAdvice t ].

(** Requested language code, an explanation of 5 to 1200 code units, 1 to
    12 medicines with 1 to 8 timing slots and at most 8 instructions of 1 to
    220 code units each, every instruction a phrase of the table. *)
Definition meets_claimed_contract (input : SimplifyRequest) (s : SimplifiedPrescriptionSummary)
  : bool :=
  lang_eqb (languageCode s) (language input)
  && within 5 1200 (length (doctorExplanation s))
  && within 1 12 (length (medicines s))
  && forallb
       (fun m =>
          within 1 8 (length (timingSlots m))
          && Nat.leb (length (instructions m)) 8
          && forallb (fun i => within 1 220 (length i)) (instructions m)
          && forallb (fun i => existsb (str_eqb i) (table_phrases (language input)))
               (instructions m))
       (medicines s).

(** A request of 1627 code units: a medicine name of 1300 letters and a
    condition of 300. *)
Definition long_request : SimplifyRequest :=
  {| text := lit "Take " ++ repeat 65%N 1300 ++ lit " 500mg twice daily if " ++ repeat 120%N 300;
     language := hi |}.

(** ** Auxiliary notions for reasoning about the matcher *)

Definition suffix_of (s' s : jsstring) : Prop := exists pre, s = pre ++ s'.

(** The code unit before the position reached after reading [taken]. *)
Definition last_opt (p : option cu) (taken : jsstring) : option cu :=
  match taken with
  | [] => p
  | _ :: _ => Some (last taken 0%N)
  end.

(** [blocked r next]: the pattern starts with a code unit that [next], the
    code unit at the position ([None] at the end of the input), is not. *)
Fixpoint blocked (r : regex) (next : option cu) : bool :=
  match r with
  | Class f => match next with Some x => negb (f x) | None => true end
  | Seq r1 _ => blocked r1 next
  | Alt r1 r2 => blocked r1 next && blocked r2 next
  | Group _ r1 => blocked r1 next
  | Empty | Star _ | WordB | Bol => false
  end.



Definition headache_request : TriageRequest :=
  symptoms_only "I have a mild headache since this morning".

(** The same report with emergency words in the fields the gates do not read. *)
Definition headache_request_with_history : TriageRequest :=
  {| symptoms := lit "I have a mild headache since this morning";
     age := Some 34%Z;
     duration := Some (lit "since the seizure");
     knownConditions := Some [ lit "seizure"; lit "stroke" ];
     additionalContext := None |}.

Definition dosage_request : TriageRequest :=
  symptoms_only "what dosage of paracetamol should I take".

(** ** Proof automation *)

(** Splits a conjunction into its parts, leaving equations alone. *)
Ltac split_all := repeat match goal with |- _ /\ _ => split end.

(** Case analysis on whatever a goal matches on. *)
Ltac break_match :=
  repeat match goal with
         | |- context [match ?x with _ => _ end] => destruct x eqn:?; simpl
         | |- context [if ?x then _ else _] => destruct x eqn:?; simpl
         end.

(** A disjunction of range and equality tests on a code unit is false
    when linear arithmetic refutes each test. *)
Ltac class_false :=
  repeat (apply orb_false_intro);
  first [ apply N.eqb_neq; lia
        | apply andb_false_iff; first [ left; apply N.leb_gt; lia | right; apply N.leb_gt; lia ] ].

(** A parser for an answer that wraps its JSON block in prose. *)
Definition prose_parser : jsstring -> option json :=
  parse_table [ (lit "wrapped", envelope (lit "Sure: {x} done")); (lit "{x}", JBool true) ].

(** ** Normal forms of sanitised text *)

(** Every white-space code unit is a single space followed by a code unit
    that is not white space (or by nothing). *)
Fixpoint single_spaced (s : jsstring) : bool :=
  match s with
  | [] => true
  | x :: t =>
      (if is_ws x
       then cu_eqb x 32%N && match t with y :: _ => negb (is_ws y) | [] => true end
       else true)
      && single_spaced t
  end.

(** Neither the first nor the last code unit is white space. *)
Definition trimmed (s : jsstring) : bool :=
  match s with
  | [] => true
  | x :: _ => negb (is_ws x) && negb (is_ws (last s 0%N))
  end.

(** ** Serialised results and the bounds of the response schemas *)

Definition level_name (l : TriageLevel) : string :=
  match l with
  | RED => "RED" | YELLOW => "YELLOW" | GREEN => "GREEN" | BLUE => "BLUE"
  end.

(** The triage result as the JSON value a response carries. *)
Definition triage_to_json (t : TriageResult) : json :=
  JObj [ (lit "summary", JStr (summary t));
         (lit "triageLevel", JStr (lit (level_name (triageLevel t))));
         (lit "explanation", JStr (explanation t));
         (lit "recommendedAction", JStr (recommendedAction t));
         (lit "disclaimer", JStr (disclaimer t)) ].

(** The length bounds of [symptomCheckResponseSchema]. *)
Definition triage_in_bounds (t : TriageResult) : bool :=
  within 5 600 (length (summary t))
  && within 5 1000 (length (explanation t))
  && within 5 600 (length (recommendedAction t))
  && within 10 400 (length (disclaimer t)).

Definition text_in_bounds (s : jsstring) : bool := within 1 220 (length s).

(** The length bounds of [prescriptionSimplifiedMedicineSchema]. *)
Definition medicine_in_bounds (m : SimplifiedMedicine) : bool :=
  within 1 160 (length (medicineName m))
  && within 1 160 (length (dosage m))
  && within 1 160 (length (m_duration m))
  && within 1 8 (length (timingSlots m))
  && (within 0 8 (length (instructions m)) && forallb text_in_bounds (instructions m)).

(** The length bounds of [prescriptionSimplifyResponseSchema]. *)
Definition summary_in_bounds (s : SimplifiedPrescriptionSummary) : bool :=
  within 2 60 (length (languageLabel s))
  && within 5 1200 (length (doctorExplanation s))
  && (within 1 12 (length (medicines s)) && forallb medicine_in_bounds (medicines s))
  && (within 0 10 (length (warnings s)) && forallb text_in_bounds (warnings s))
  && (within 0 8 (length (hydrationTips s)) && forallb text_in_bounds (hydrationTips s))
  && (within 0 10 (length (generalAdvice s)) && forallb text_in_bounds (generalAdvice s)).

Definition triage_keys : list string :=
  [ "summary"; "triageLevel"; "explanation"; "recommendedAction"; "disclaimer" ]%string.

Definition summary_keys : list string :=
  [ "languageCode"; "languageLabel"; "doctorExplanation"; "medicines";
    "warnings"; "hydrationTips"; "generalAdvice" ]%string.

(** A network that answers every call with the given status and body. *)
Definition net_status (status : N) (body : string) (n : nat) (rq : FetchRequest) : FetchResult :=
  Response status (lit body).




(** ** Timing slots by meal relation *)

Definition before_food_slots : list PrescriptionTimingSlot :=
  [ MORNING_BEFORE_FOOD; AFTERNOON_BEFORE_FOOD; NIGHT_BEFORE_FOOD; BEDTIME ].

Definition after_food_slots : list PrescriptionTimingSlot :=
  [ MORNING_AFTER_FOOD; AFTERNOON_AFTER_FOOD; NIGHT_AFTER_FOOD; BEDTIME ].

Definition all_among (allowed slots : list PrescriptionTimingSlot) : bool :=
  forallb (fun t => existsb (slot_eqb t) allowed) slots.

Fixpoint distinct_slots (slots : list PrescriptionTimingSlot) : bool :=
  match slots with
  | [] => true
  | t :: slots' => negb (existsb (slot_eqb t) slots') && distinct_slots slots'
  end.

Definition no_digit (s : jsstring) : bool := forallb (fun x => negb (is_digit x)) s.

Definition rest_request : SimplifyRequest :=
  {| text := lit "Take rest and drink plenty of water, avoid cold drinks."; language := ta |}.

(** ** The triage normaliser of the web client

    [normalizeSymptomTriage] of the client's triage library reads a stored
    or received value into a [SymptomTriage], which has the fields of
    [TriageResult].  [toUpperCase] is modelled on the ASCII letters and on
    the two other letters whose upper case is an ASCII letter (dotless i
    and long s); every other code unit is kept, which no comparison with
    one of the level or severity words can tell from its upper case. *)

Module TriageLib.

Definition upper_cu (x : cu) : cu :=
  if is_lower x then (x - 32)%N
  else if N.eqb x 305 then 73%N
  else if N.eqb x 383 then 83%N
  else x.

Definition toUpperCase (s : jsstring) : jsstring := map upper_cu s.

Inductive LegacySeverity := LOW | MEDIUM | HIGH | EMERGENCY.

Definition LEGACY_SEVERITY_TO_LEVEL (severity : LegacySeverity) : TriageLevel :=
  match severity with
  | LOW => BLUE
  | MEDIUM => GREEN
  | HIGH => YELLOW
  | EMERGENCY => RED
  end.

Definition DEFAULT_DISCLAIMER : jsstring :=
  lit "This triage result is not a diagnosis or treatment plan. Please consult a licensed medical professional.".

Definition EMERGENCY_CALL_NUMBER : jsstring := lit "112".

Definition toNonEmptyString (value : option json) (fallback : jsstring) : jsstring :=
  match value with
  | Some (JStr s) => let cleaned := trim s in if truthy cleaned then cleaned else fallback
  | _ => fallback
  end.

Definition parseTriageLevel (value : option json) : option TriageLevel :=
  match value with
  | Some (JStr s) =>
      let normalized := toUpperCase (trim s) in
      if str_eqb normalized (lit "RED") then Some RED
      else if str_eqb normalized (lit "YELLOW") then Some YELLOW
      else if str_eqb normalized (lit "GREEN") then Some GREEN
      else if str_eqb normalized (lit "BLUE") then Some BLUE
      else None
  | _ => None
  end.

Definition parseLegacySeverity (value : option json) : option LegacySeverity :=
  match value with
  | Some (JStr s) =>
      let normalized := toUpperCase (trim s) in
      if str_eqb normalized (lit "LOW") then Some LOW
      else if str_eqb normalized (lit "MEDIUM") then Some MEDIUM
      else if str_eqb normalized (lit "HIGH") then Some HIGH
      else if str_eqb normalized (lit "EMERGENCY") then Some EMERGENCY
      else None
  | _ => None
  end.

Definition defaultRecommendedAction (level : TriageLevel) : jsstring :=
  match level with
  | RED =>
      lit "Call emergency services immediately (" ++ EMERGENCY_CALL_NUMBER
        ++ lit ") and seek emergency care now."
  | YELLOW => lit "Talk to a doctor within 24 hours and do not delay care."
  | GREEN => lit "Schedule a routine consultation with a doctor."
  | BLUE =>
      lit "Use basic self-care, monitor symptoms closely, and consult a doctor if symptoms worsen."
  end.

(** [null], [undefined] and the values that are not objects give [null];
    an array is an object without any of the fields read. *)
Definition normalizeSymptomTriage (value : json) : option TriageResult :=
  match value with
  | JObj _ | JArr _ =>
      match parseTriageLevel (prop "triageLevel" value) with
      | Some level =>
          Some {| summary :=
                    toNonEmptyString (prop "summary" value)
                      (lit "Symptoms were reviewed for triage.");
                  triageLevel := level;
                  explanation :=
                    toNonEmptyString (prop "explanation" value)
                      (lit "This urgency level was selected based on the reported symptom pattern.");
                  recommendedAction :=
                    toNonEmptyString (prop "recommendedAction" value)
                      (defaultRecommendedAction level);
                  disclaimer :=
                    toNonEmptyString (prop "disclaimer" value) DEFAULT_DISCLAIMER |}
      | None =>
          match parseLegacySeverity (prop "severity" value) with
          | None => None
          | Some legacySeverity =>
              let mappedLevel := LEGACY_SEVERITY_TO_LEVEL legacySeverity in
              Some {| summary :=
                        toNonEmptyString (prop "summary" value)
                          (lit "Symptoms were reviewed for triage.");
                      triageLevel := mappedLevel;
                      explanation :=
                        toNonEmptyString (prop "urgencyLabel" value)
                          (lit "This urgency level was estimated from the reported symptoms.");
                      recommendedAction := defaultRecommendedAction mappedLevel;
                      disclaimer :=
                        toNonEmptyString (prop "safetyNotice" value) DEFAULT_DISCLAIMER |}
          end
      end
  | _ => None
  end.

End TriageLib.

(** A text that can be shown: not empty, and without white space at either
    end. *)
Definition presentable (s : jsstring) : bool := truthy s && trimmed s.

Definition presentable_result (t : TriageResult) : bool :=
  presentable (summary t) && presentable (explanation t)
  && presentable (recommendedAction t) && presentable (disclaimer t).

(** A stored entry of the former format, with an action of its own. *)
Definition legacy_entry : json :=
  JObj [ (lit "severity", JStr (lit " emergency "));
         (lit "summary", JStr (lit "   "));
         (lit "urgencyLabel", JStr (lit "Go to hospital"));
         (lit "recommendedAction", JStr (lit "Rest at home")) ].

(** ** File names of uploaded records *)

(** [[a-zA-Z0-9._-]] *)
Definition filename_safe (x : cu) : bool :=
  is_latin x || is_digit x || N.eqb x 46 || N.eqb x 95 || N.eqb x 45.

(** [value.replace(/[^...]+/g, by)] for one class of code units: every
    maximal run of the class becomes the single code unit [by]. *)
Fixpoint replace_runs (f : cu -> bool) (by_unit : cu) (in_run : bool) (s : jsstring)
  : jsstring :=
  match s with
  | [] => []
  | x :: s' =>
      if f x
      then (if in_run then replace_runs f by_unit true s'
            else by_unit :: replace_runs f by_unit true s')
      else x :: replace_runs f by_unit false s'
  end.

Definition sanitizeFilename (value : jsstring) : jsstring :=
  let safe := replace_runs (fun x => negb (filename_safe x)) 95%N false value in
  if negb (truthy (trim safe)) then lit "record.bin" else firstn 120 safe.

(** No code unit of [s] is [c]. *)
Definition without (c : cu) (s : jsstring) : bool :=
  forallb (fun x => negb (cu_eqb c x)) s.

(** ** The acting user of a request *)

Inductive UserRole := PATIENT | DOCTOR | PHARMACY | ADMIN.

Definition role_eqb (a b : UserRole) : bool :=
  match a, b with
  | PATIENT, PATIENT | DOCTOR, DOCTOR | PHARMACY, PHARMACY | ADMIN, ADMIN => true
  | _, _ => false
  end.

Record UserRow := {
  u_id : jsstring;
  u_role : UserRole;
  u_approvalState : jsstring
}.

Inductive ActorResult :=
| ActorError (status : nat) (message : jsstring)
| ActorUser (user : UserRow).

(** [getActor(c, roles)] over the header [x-user-id] of the request and the
    user table [findUnique] reads. *)
Definition getActor (findUnique : jsstring -> option UserRow)
  (header : option jsstring) (roles : option (list UserRole)) : ActorResult :=
  match header with
  | None => ActorError 401 (lit "Missing x-user-id header")
  | Some userId =>
      if negb (truthy userId) then ActorError 401 (lit "Missing x-user-id header")
      else
        match findUnique userId with
        | None => ActorError 401 (lit "User not found")
        | Some user =>
            let role := u_role user in
            if match roles with
               | Some allowed => negb (existsb (role_eqb role) allowed)
               | None => false
               end
            then ActorError 403 (lit "Insufficient role permissions")
            else if negb (role_eqb role PATIENT) && negb (role_eqb role ADMIN)
                    && negb (str_eqb (u_approvalState user) (lit "APPROVED"))
            then ActorError 403 (lit "Account pending admin approval")
            else ActorUser {| u_id := u_id user; u_role := role;
                              u_approvalState := u_approvalState user |}
        end
  end.

(** A user table with an approved doctor and a pending pharmacy. *)
Definition two_users (id : jsstring) : option UserRow :=
  if str_eqb id (lit "d1")
  then Some {| u_id := lit "d1"; u_role := DOCTOR; u_approvalState := lit "APPROVED" |}
  else if str_eqb id (lit "p1")
  then Some {| u_id := lit "p1"; u_role := PHARMACY; u_approvalState := lit "PENDING" |}
  else None.

(** ** Inventory lookup keys *)

(** [value.trim().toLowerCase().replace(/\s+/g, " ")] *)
Definition normalizeLookupValue (value : jsstring) : jsstring :=
  collapse_ws (toLowerCase (trim value)).


(** ** Texts around a phrase *)

(** A map of code units to runs of code units keeps white space when it
    leaves white space alone and gives every other code unit a run, not
    empty, without white space. *)
Definition keeps_ws (g : cu -> jsstring) : Prop :=
  forall x,
    if is_ws x then g x = [x]
    else g x <> [] /\ forallb (fun y => negb (is_ws y)) (g x) = true.









(** Every code unit of the text is Basic Latin. *)
Definition basic_latin (s : jsstring) : bool := forallb (fun x => N.ltb x 128) s.

(** A report that spells "stroke" with the Kelvin sign, which lower-casing
    turns into the letter k. *)
Definition kelvin_sign_report : TriageRequest :=
  {| symptoms := lit "what dose is safe after a stro" ++ [8490%N] ++ lit "e last year";
     age := None; duration := None; knownConditions := None; additionalContext := None |}.

(** * Properties *)

(** ** Strings *)

Lemma cu_eqb_eq (a b : cu) : cu_eqb a b = true <-> a = b.
Proof. apply N.eqb_eq. Qed.

Lemma cu_eqb_refl (a : cu) : cu_eqb a a = true.
Proof. apply N.eqb_refl. Qed.

Lemma str_eqb_eq (a b : jsstring) : str_eqb a b = true <-> a = b.
Proof.
  revert b. induction a as [|x a IH]; intros [|y b]; simpl; split; try congruence; auto.
  - intros H. apply andb_true_iff in H as [H1 H2].
    apply cu_eqb_eq in H1. apply IH in H2. congruence.
  - intros H. injection H as -> ->. rewrite cu_eqb_refl. simpl. now apply IH.
Qed.

Lemma startsWith_app (k post : jsstring) : startsWith k (k ++ post) = true.
Proof. induction k as [|x k IH]; simpl; [reflexivity|]. now rewrite cu_eqb_refl. Qed.

Lemma startsWith_elim (k s : jsstring) :
  startsWith k s = true -> exists post, s = k ++ post.
Proof.
  revert s. induction k as [|x k IH]; intros s H.
  - now exists s.
  - destruct s as [|y s]; simpl in H; [discriminate|].
    apply andb_true_iff in H as [H1 H2]. apply cu_eqb_eq in H1. subst y.
    destruct (IH _ H2) as [post ->]. now exists post.
Qed.

Lemma includes_startsWith (k s : jsstring) : startsWith k s = true -> includes k s = true.
Proof. intros H. destruct s; simpl; now rewrite H. Qed.

Lemma includes_intro (k pre post : jsstring) : includes k (pre ++ k ++ post) = true.
Proof.
  induction pre as [|x pre IH]; simpl.
  - apply includes_startsWith, startsWith_app.
  - rewrite IH. apply orb_true_r.
Qed.

Lemma includes_elim (k s : jsstring) :
  includes k s = true -> exists pre post, s = pre ++ k ++ post.
Proof.
  induction s as [|x s IH]; simpl; intros H.
  - rewrite orb_false_r in H. apply startsWith_elim in H as [post ->].
    now exists [], post.
  - apply orb_true_iff in H as [H|H].
    + apply startsWith_elim in H as [post ->]. now exists [], post.
    + destruct (IH H) as (pre & post & ->). now exists (x :: pre), post.
Qed.

Lemma includes_app_l (k a b : jsstring) : includes k a = true -> includes k (a ++ b) = true.
Proof.
  intros H. apply includes_elim in H as (pre & post & ->).
  rewrite <- !app_assoc. apply includes_intro.
Qed.

Lemma includes_app_r (k a b : jsstring) : includes k b = true -> includes k (a ++ b) = true.
Proof.
  intros H. apply includes_elim in H as (pre & post & ->).
  rewrite app_assoc. apply includes_intro.
Qed.

Lemma toLowerCase_app (a b : jsstring) :
  toLowerCase (a ++ b) = toLowerCase a ++ toLowerCase b.
Proof. apply flat_map_app. Qed.

Lemma toLowerCase_cons (x : cu) (s : jsstring) :
  toLowerCase (x :: s) = lower_units x ++ toLowerCase s.
Proof. reflexivity. Qed.

Lemma is_ws_lower (x : cu) : is_ws (lower_cu x) = is_ws x.
Proof.
  unfold lower_cu. destruct (is_upper x) eqn:U; [|reflexivity].
  unfold is_upper, in_range in U. apply andb_true_iff in U as [U1 U2].
  apply N.leb_le in U1, U2.
  assert (W : forall y, (65 <= y <= 122)%N -> is_ws y = false).
  { intros y Hy. unfold is_ws, in_range. class_false. }
  rewrite (W x), (W (x + 32)%N); [reflexivity | lia | lia].
Qed.

Lemma lower_units_keeps_ws : keeps_ws lower_units.
Proof.
  intros x. unfold lower_units.
  destruct (N.eqb x 304) eqn:E1; [apply N.eqb_eq in E1; subst x; split; [discriminate|reflexivity]|].
  destruct (N.eqb x 8490) eqn:E2; [apply N.eqb_eq in E2; subst x; split; [discriminate|reflexivity]|].
  destruct (is_ws x) eqn:W.
  - unfold lower_cu. destruct (is_upper x) eqn:U; [|reflexivity].
    rewrite <- is_ws_lower in W. unfold lower_cu in W. rewrite U in W.
    unfold is_upper, in_range in U. apply andb_true_iff in U as [U1 U2].
    apply N.leb_le in U1, U2.
    assert (F : is_ws (x + 32)%N = false) by (unfold is_ws, in_range; class_false).
    congruence.
  - split; [discriminate|]. cbn [forallb]. now rewrite is_ws_lower, W.
Qed.

Lemma keeps_ws_rev (g : cu -> jsstring) : keeps_ws g -> keeps_ws (fun x => rev (g x)).
Proof.
  intros H x. specialize (H x). destruct (is_ws x).
  - now rewrite H.
  - destruct H as [H1 H2]. split.
    + intros E. apply H1. now rewrite <- (rev_involutive (g x)), E.
    + rewrite forallb_forall in *. intros y Hy. apply H2. now apply in_rev.
Qed.

Lemma collapse_from_run (b : bool) (u r : jsstring) :
  u <> [] -> forallb (fun y => negb (is_ws y)) u = true ->
  collapse_from b (u ++ r) = u ++ collapse_from false r.
Proof.
  revert b. induction u as [|y u IH]; intros b Hne H; [congruence|].
  simpl in H. apply andb_true_iff in H as [H1 H2]. apply negb_true_iff in H1.
  cbn [app collapse_from]. rewrite H1. f_equal.
  destruct u as [|z u]; [reflexivity|]. now apply IH.
Qed.

Lemma trimStart_run (u r : jsstring) :
  u <> [] -> forallb (fun y => negb (is_ws y)) u = true -> trimStart (u ++ r) = u ++ r.
Proof.
  destruct u as [|y u]; intros Hne H; [congruence|].
  simpl in H. apply andb_true_iff in H as [H1 _]. apply negb_true_iff in H1.
  cbn [app trimStart]. now rewrite H1.
Qed.

Lemma collapse_from_flat_map (g : cu -> jsstring) (b : bool) (s : jsstring) :
  keeps_ws g ->
  collapse_from b (flat_map g s) = flat_map g (collapse_from b s).
Proof.
  intros G. revert b. induction s as [|x s IH]; intros b; [reflexivity|].
  cbn [flat_map collapse_from]. pose proof (G x) as Gx. pose proof (G 32%N) as G32.
  change (is_ws 32%N) with true in G32. cbv iota in G32.
  destruct (is_ws x) eqn:W.
  - rewrite Gx. cbn [app collapse_from]. rewrite W.
    destruct b; [apply IH|]. cbn [flat_map]. rewrite G32. cbn [app]. f_equal. apply IH.
  - destruct Gx as [G1 G2]. rewrite collapse_from_run by assumption.
    cbn [flat_map]. f_equal. apply IH.
Qed.

Lemma trimStart_flat_map (g : cu -> jsstring) (s : jsstring) :
  keeps_ws g -> trimStart (flat_map g s) = flat_map g (trimStart s).
Proof.
  intros G. induction s as [|x s IH]; [reflexivity|].
  cbn [flat_map trimStart]. pose proof (G x) as Gx.
  destruct (is_ws x) eqn:W.
  - rewrite Gx. cbn [app trimStart]. now rewrite W.
  - destruct Gx as [G1 G2]. now rewrite trimStart_run.
Qed.

Lemma rev_flat_map (g : cu -> jsstring) (s : jsstring) :
  rev (flat_map g s) = flat_map (fun x => rev (g x)) (rev s).
Proof.
  induction s as [|x s IH]; [reflexivity|].
  cbn [flat_map rev]. rewrite rev_app_distr, IH, flat_map_app. cbn [flat_map].
  now rewrite app_nil_r.
Qed.

Lemma trimEnd_flat_map (g : cu -> jsstring) (s : jsstring) :
  keeps_ws g -> trimEnd (flat_map g s) = flat_map g (trimEnd s).
Proof.
  intros G. unfold trimEnd.
  rewrite rev_flat_map, (trimStart_flat_map _ _ (keeps_ws_rev g G)), rev_flat_map.
  apply flat_map_ext. intros x. apply rev_involutive.
Qed.

Lemma collapse_from_lower (b : bool) (s : jsstring) :
  collapse_from b (toLowerCase s) = toLowerCase (collapse_from b s).
Proof. apply collapse_from_flat_map, lower_units_keeps_ws. Qed.

Lemma trimStart_lower (s : jsstring) : trimStart (toLowerCase s) = toLowerCase (trimStart s).
Proof. apply trimStart_flat_map, lower_units_keeps_ws. Qed.

Lemma trimEnd_lower (s : jsstring) : trimEnd (toLowerCase s) = toLowerCase (trimEnd s).
Proof. apply trimEnd_flat_map, lower_units_keeps_ws. Qed.

Lemma trim_lower (s : jsstring) : trim (toLowerCase s) = toLowerCase (trim s).
Proof. unfold trim. now rewrite trimStart_lower, trimEnd_lower. Qed.

Lemma sanitize_lower (s : jsstring) :
  sanitizeTriageText (toLowerCase s) = toLowerCase (sanitizeTriageText s).
Proof.
  unfold sanitizeTriageText, collapse_ws. now rewrite collapse_from_lower, trim_lower.
Qed.

Lemma collapse_from_app_nonws (b : bool) (s1 : jsstring) (x : cu) (r : jsstring) :
  is_ws x = false ->
  collapse_from b (s1 ++ x :: r) = collapse_from b s1 ++ x :: collapse_from false r.
Proof.
  intros Hx. revert b. induction s1 as [|a s1 IH]; intros b; simpl.
  - now rewrite Hx.
  - destruct (is_ws a); [destruct b|]; simpl; now rewrite IH.
Qed.

Lemma collapse_from_app (b : bool) (s : jsstring) :
  exists b', forall post,
    collapse_from b (s ++ post) = collapse_from b s ++ collapse_from b' post.
Proof.
  revert b. induction s as [|a s IH]; intros b.
  - now exists b.
  - simpl. destruct (is_ws a).
    + destruct (IH true) as [b' Hb']. exists b'. intros post.
      destruct b; simpl; now rewrite Hb'.
    + destruct (IH false) as [b' Hb']. exists b'. intros post. simpl. now rewrite Hb'.
Qed.

Lemma trimStart_keep (P : jsstring) (x : cu) (R : jsstring) :
  is_ws x = false -> exists P', trimStart (P ++ x :: R) = P' ++ x :: R.
Proof.
  intros Hx. induction P as [|a P IH]; simpl.
  - rewrite Hx. now exists [].
  - destruct (is_ws a); [exact IH|]. now exists (a :: P).
Qed.

Lemma phrase_stable_shape (k : jsstring) :
  phrase_stable k = true ->
  exists x k', k = x :: k' /\ is_ws x = false /\ is_ws (last k 0%N) = false
               /\ collapse_from false k' = k'.
Proof.
  destruct k as [|x k']; [discriminate|]. unfold phrase_stable.
  intros H. apply andb_true_iff in H as [H H3]. apply andb_true_iff in H as [H1 H2].
  apply negb_true_iff in H1, H2. apply str_eqb_eq in H3.
  exists x, k'. repeat split; auto.
  unfold collapse_ws in H3. simpl in H3. rewrite H1 in H3. congruence.
Qed.

Lemma collapse_keeps_phrase (k pre post : jsstring) :
  phrase_stable k = true ->
  exists P Q, collapse_ws (pre ++ k ++ post) = P ++ k ++ Q.
Proof.
  intros H. destruct (phrase_stable_shape k H) as (x & k' & -> & Hx & _ & Hk').
  unfold collapse_ws. simpl. rewrite collapse_from_app_nonws by exact Hx.
  destruct (collapse_from_app false k') as [b' Hb'].
  rewrite Hb', Hk'. now exists (collapse_from false pre), (collapse_from b' post).
Qed.

Lemma trim_keeps_phrase (k P Q : jsstring) :
  phrase_stable k = true ->
  exists P' Q', trim (P ++ k ++ Q) = P' ++ k ++ Q'.
Proof.
  intros H. destruct (phrase_stable_shape k H) as (x & k' & E & Hx & Hl & _).
  assert (Hne : k <> []) by (rewrite E; discriminate).
  destruct (exists_last Hne) as (k0 & y & Ek).
  assert (Hy : is_ws y = false) by (rewrite Ek, last_last in Hl; exact Hl).
  unfold trim, trimEnd.
  assert (S1 : exists P', trimStart (P ++ k ++ Q) = P' ++ k ++ Q).
  { rewrite E. simpl. now apply trimStart_keep. }
  destruct S1 as [P' ->]. clear E Hl H Hne. subst k.
  rewrite !rev_app_distr. simpl. rewrite <- !app_assoc. simpl.
  destruct (trimStart_keep (rev Q) y (rev k0 ++ rev P') Hy) as [Q' ->].
  exists P', (rev Q').
  rewrite rev_app_distr. simpl. rewrite rev_app_distr, !rev_involutive.
  now rewrite <- !app_assoc.
Qed.

Lemma sanitize_keeps_phrase (k s : jsstring) :
  phrase_stable k = true ->
  includes k s = true ->
  includes k (sanitizeTriageText s) = true.
Proof.
  intros Hk H. apply includes_elim in H as (pre & post & ->).
  unfold sanitizeTriageText.
  destruct (collapse_keeps_phrase k pre post Hk) as (P & Q & ->).
  destruct (trim_keeps_phrase k P Q Hk) as (P' & Q' & ->).
  apply includes_intro.
Qed.

Lemma keywords_stable :
  forallb phrase_stable (emergencyKeywords ++ refusalKeywords) = true.
Proof. vm_compute. reflexivity. Qed.

Lemma emergency_keyword_stable (k : jsstring) :
  In k emergencyKeywords -> phrase_stable k = true.
Proof.
  intros H. pose proof keywords_stable as A. rewrite forallb_forall in A.
  apply A, in_or_app. now left.
Qed.

Lemma refusal_keyword_stable (k : jsstring) :
  In k refusalKeywords -> phrase_stable k = true.
Proof.
  intros H. pose proof keywords_stable as A. rewrite forallb_forall in A.
  apply A, in_or_app. now right.
Qed.

Lemma phrase_stable_truthy (k : jsstring) : phrase_stable k = true -> truthy k = true.
Proof. now destruct k. Qed.

(** ** Triage pipeline *)

Section TriageProperties.

Variable JSON_parse : jsstring -> option json.

Lemma includes_nil_false (k : jsstring) : truthy k = true -> includes k [] = false.
Proof. now destruct k. Qed.

Lemma mentions_combined (k : jsstring) (input : TriageRequest) :
  phrase_stable k = true ->
  mentions k input = true ->
  includes k (combinedText (normalizeInput input)) = true.
Proof.
  intros Hk H. unfold combinedText, normalizeInput.
  cbn [g_symptoms g_additionalContext].
  rewrite !toLowerCase_app. unfold mentions in H.
  apply orb_true_iff in H as [H|H].
  - apply includes_app_l. rewrite <- sanitize_lower. now apply sanitize_keeps_phrase.
  - destruct (additionalContext input) as [c|]; [|discriminate].
    do 2 apply includes_app_r.
    destruct c as [|x c].
    + cbn [toLowerCase flat_map] in H.
      now rewrite (includes_nil_false k (phrase_stable_truthy k Hk)) in H.
    + cbn [truthy]. rewrite <- sanitize_lower. now apply sanitize_keeps_phrase.
Qed.

Lemma emergency_check_keyword (input : GateInput) (k : jsstring) :
  In k emergencyKeywords ->
  includes k (combinedText input) = true ->
  exists matched, In matched emergencyKeywords
    /\ includes matched (combinedText input) = true
    /\ ruleBasedEmergencyCheck input = Some matched.
Proof.
  intros Hin Hk. unfold ruleBasedEmergencyCheck.
  destruct (find (fun keyword => includes keyword (combinedText input)) emergencyKeywords)
    as [matched|] eqn:F.
  - apply find_some in F as [F1 F2]. exists matched. repeat split; auto.
    now rewrite (phrase_stable_truthy matched (emergency_keyword_stable matched F1)).
  - apply (find_none _ _ F) in Hin. simpl in Hin. congruence.
Qed.

Lemma emergency_short_circuit (env : Env) (input : TriageRequest) (reason : jsstring) :
  ruleBasedEmergencyCheck (normalizeInput input) = Some reason ->
  runSymptomTriage JSON_parse env input = Ret (createRuleBasedRedResponse reason).
Proof. intros H. unfold runSymptomTriage. now rewrite H. Qed.

Lemma refusal_check_keyword (input : GateInput) (k : jsstring) :
  In k refusalKeywords ->
  includes k (combinedText input) = true ->
  ruleBasedSafetyRefusalCheck input = true.
Proof.
  intros Hin Hk. unfold ruleBasedSafetyRefusalCheck.
  unfold refusalKeywords in Hin.
  apply in_app_or in Hin as [Hin|Hin]; [|apply in_app_or in Hin as [Hin|Hin]].
  - apply orb_true_iff; left. apply orb_true_iff; left.
    apply existsb_exists. now exists k.
  - apply orb_true_iff; left. apply orb_true_iff; right.
    apply existsb_exists. now exists k.
  - apply orb_true_iff; right. apply existsb_exists. now exists k.
Qed.

(** C1. A request that mentions an emergency phrase, in its symptoms or in
    its additional context, is answered RED without any outbound call,
    whatever the configuration: the answer is returned before the model is
    consulted, its explanation names a matched emergency phrase of the
    text and its recommended action is the fixed sentence that carries the
    emergency number 112. *)
Theorem emergency_phrase_yields_red (env : Env) (input : TriageRequest) (k : jsstring) :
  In k emergencyKeywords ->
  mentions k input = true ->
  exists matched,
    In matched emergencyKeywords
    /\ includes matched (combinedText (normalizeInput input)) = true
    /\ runSymptomTriage JSON_parse env input = Ret (createRuleBasedRedResponse matched)
    /\ triageLevel (createRuleBasedRedResponse matched) = RED
    /\ includes matched (explanation (createRuleBasedRedResponse matched)) = true
    /\ includes INDIA_EMERGENCY_NUMBER
         (recommendedAction (createRuleBasedRedResponse matched)) = true
    /\ explanation (createRuleBasedRedResponse matched)
       = lit "The message includes emergency indicators (" ++ matched
           ++ lit ") that can be life-threatening."
    /\ recommendedAction (createRuleBasedRedResponse matched)
       = lit "Call emergency services now (112) or go to the nearest emergency department immediately."
    /\ includes (lit "112") (recommendedAction (createRuleBasedRedResponse matched)) = true
    /\ forall net,
         run net (runSymptomTriage JSON_parse env input)
         = (Returned (createRuleBasedRedResponse matched), []).
Proof.
  intros Hin Hm.
  pose proof (mentions_combined k input (emergency_keyword_stable k Hin) Hm) as Hc.
  destruct (emergency_check_keyword (normalizeInput input) k Hin Hc) as (matched & M1 & M2 & M3).
  exists matched.
  pose proof (emergency_short_circuit env input matched M3) as E.
  repeat split; auto.
  - cbn [explanation createRuleBasedRedResponse]. apply includes_intro.
  - intros net. now rewrite E.
Qed.

(** C5. A request that mentions a dosage-request, diagnosis-request or
    safety-bypass phrase and that the emergency gate lets pass is answered
    with the fixed YELLOW safety refusal (consult within 24 hours, no
    diagnosis or dosing) without any outbound call; and whenever the
    emergency gate matches, its RED answer is returned instead, so the
    refusal gate only decides requests the emergency gate let pass. *)
Theorem refusal_phrase_yields_yellow (env : Env) (input : TriageRequest) (k : jsstring) :
  In k refusalKeywords ->
  mentions k input = true ->
  ruleBasedEmergencyCheck (normalizeInput input) = None ->
  runSymptomTriage JSON_parse env input = Ret createRuleBasedSafetyRefusalResponse
  /\ triageLevel createRuleBasedSafetyRefusalResponse = YELLOW
  /\ includes (lit "within 24 hours")
       (recommendedAction createRuleBasedSafetyRefusalResponse) = true
  /\ includes (lit "cannot provide diagnosis, dosing")
       (explanation createRuleBasedSafetyRefusalResponse) = true
  /\ (forall net,
        run net (runSymptomTriage JSON_parse env input)
        = (Returned createRuleBasedSafetyRefusalResponse, []))
  /\ (forall other reason,
        ruleBasedEmergencyCheck (normalizeInput other) = Some reason ->
        runSymptomTriage JSON_parse env other = Ret (createRuleBasedRedResponse reason)).
Proof.
  intros Hin Hm He.
  pose proof (mentions_combined k input (refusal_keyword_stable k Hin) Hm) as Hc.
  pose proof (refusal_check_keyword (normalizeInput input) k Hin Hc) as Hr.
  assert (E : runSymptomTriage JSON_parse env input = Ret createRuleBasedSafetyRefusalResponse).
  { unfold runSymptomTriage. now rewrite He, Hr. }
  repeat split; auto.
  - intros net. now rewrite E.
  - intros other reason. apply emergency_short_circuit.
Qed.

Lemma normalizeInput_ext (r1 r2 : TriageRequest) :
  symptoms r1 = symptoms r2 ->
  additionalContext r1 = additionalContext r2 ->
  normalizeInput r1 = normalizeInput r2.
Proof. intros H1 H2. unfold normalizeInput. now rewrite H1, H2. Qed.

Lemma triage_ret_inv (env : Env) (input : TriageRequest) (t : TriageResult) :
  runSymptomTriage JSON_parse env input = Ret t <->
  match ruleBasedEmergencyCheck (normalizeInput input) with
  | Some reason => t = createRuleBasedRedResponse reason
  | None =>
      ruleBasedSafetyRefusalCheck (normalizeInput input) = true
      /\ t = createRuleBasedSafetyRefusalResponse
  end.
Proof.
  unfold runSymptomTriage.
  destruct (ruleBasedEmergencyCheck (normalizeInput input)) as [reason|].
  - split; congruence.
  - destruct (ruleBasedSafetyRefusalCheck (normalizeInput input)).
    + split; [intros H; split; congruence | intros [_ ->]; reflexivity].
    + destruct (api_key env); simpl; split; intros H; try discriminate;
        destruct H; discriminate.
Qed.

(** C10. The rule-based gates read the symptoms and the additional context
    only: two requests that agree on these two fields get the same outcome
    of the emergency gate and of the safety-refusal gate and the same
    rule-based answer, whatever their age, duration and known conditions;
    and when neither gate matches on the two fields, no value of the other
    fields makes the pipeline return without consulting the model. *)
Theorem gates_read_symptoms_and_context_only (env : Env) (r1 r2 : TriageRequest) :
  symptoms r1 = symptoms r2 ->
  additionalContext r1 = additionalContext r2 ->
  ruleBasedEmergencyCheck (normalizeInput r1) = ruleBasedEmergencyCheck (normalizeInput r2)
  /\ ruleBasedSafetyRefusalCheck (normalizeInput r1)
     = ruleBasedSafetyRefusalCheck (normalizeInput r2)
  /\ (forall t, runSymptomTriage JSON_parse env r1 = Ret t
                <-> runSymptomTriage JSON_parse env r2 = Ret t)
  /\ (ruleBasedEmergencyCheck (normalizeInput r1) = None ->
      ruleBasedSafetyRefusalCheck (normalizeInput r1) = false ->
      forall t, runSymptomTriage JSON_parse env r2 <> Ret t).
Proof.
  intros H1 H2. pose proof (normalizeInput_ext r1 r2 H1 H2) as E.
  repeat split.
  - now rewrite E.
  - now rewrite E.
  - intros H. apply triage_ret_inv. rewrite <- E. now apply (triage_ret_inv env r1 t).
  - intros H. apply triage_ret_inv. rewrite E. now apply (triage_ret_inv env r2 t).
  - intros He Hr t H. apply triage_ret_inv in H. rewrite <- E, He, Hr in H.
    destruct H. discriminate.
Qed.

(** The oxygen rule in general: when no emergency phrase matches and the
    first oxygen reading of the text is below 90, the answer is RED. *)
Lemma oxygen_below_90_yields_red (env : Env) (input : TriageRequest)
  (m : MatchResult) (tok : jsstring) :
  find (fun keyword => includes keyword (combinedText (normalizeInput input)))
    emergencyKeywords = None ->
  exec oxygenRegex (combinedText (normalizeInput input)) = Some m ->
  group 1 m = Some tok ->
  number_lt_90 tok = true ->
  runSymptomTriage JSON_parse env input
  = Ret (createRuleBasedRedResponse (lit "oxygen level below 90%")).
Proof.
  intros F X G L. apply emergency_short_circuit.
  unfold ruleBasedEmergencyCheck. now rewrite F, X, G, L.
Qed.

(** The oxygen-saturation rule on short reports: "spo2 88" and
    "oxygen is 88%" match it, alone and inside a longer report, and the
    report is answered RED; "spo2 95", with no emergency phrase, does not
    make the gate match. *)
Lemma oxygen_rule_examples (env : Env) :
  ruleBasedEmergencyCheck (normalizeInput (symptoms_only "spo2 88"))
  = Some (lit "oxygen level below 90%")
  /\ ruleBasedEmergencyCheck (normalizeInput (symptoms_only "oxygen is 88%"))
     = Some (lit "oxygen level below 90%")
  /\ runSymptomTriage JSON_parse env (symptoms_only "Since last night my spo2 88 and I feel weak")
     = Ret (createRuleBasedRedResponse (lit "oxygen level below 90%"))
  /\ runSymptomTriage JSON_parse env (symptoms_only "Feeling tired, my oxygen is 88% on the meter")
     = Ret (createRuleBasedRedResponse (lit "oxygen level below 90%"))
  /\ triageLevel (createRuleBasedRedResponse (lit "oxygen level below 90%")) = RED
  /\ ruleBasedEmergencyCheck (normalizeInput (symptoms_only "spo2 95")) = None
  /\ ruleBasedEmergencyCheck
       (normalizeInput (symptoms_only "Mild cough today, spo2 95 on the meter")) = None.
Proof.
  split_all; try (vm_compute; reflexivity);
    apply emergency_short_circuit; vm_compute; reflexivity.
Qed.

End TriageProperties.

Lemma emergency_phrase_yields_red_witness :
  exists matched,
    In matched emergencyKeywords
    /\ includes matched
         (combinedText (normalizeInput (symptoms_only "I have severe chest pain since noon"))) = true
    /\ runSymptomTriage parse_nothing with_key (symptoms_only "I have severe chest pain since noon")
       = Ret (createRuleBasedRedResponse matched)
    /\ triageLevel (createRuleBasedRedResponse matched) = RED
    /\ includes matched (explanation (createRuleBasedRedResponse matched)) = true
    /\ includes INDIA_EMERGENCY_NUMBER
         (recommendedAction (createRuleBasedRedResponse matched)) = true
    /\ explanation (createRuleBasedRedResponse matched)
       = lit "The message includes emergency indicators (" ++ matched
           ++ lit ") that can be life-threatening."
    /\ recommendedAction (createRuleBasedRedResponse matched)
       = lit "Call emergency services now (112) or go to the nearest emergency department immediately."
    /\ includes (lit "112") (recommendedAction (createRuleBasedRedResponse matched)) = true
    /\ forall net,
         run net (runSymptomTriage parse_nothing with_key
                    (symptoms_only "I have severe chest pain since noon"))
         = (Returned (createRuleBasedRedResponse matched), []).
Proof.
  apply (emergency_phrase_yields_red parse_nothing with_key
           (symptoms_only "I have severe chest pain since noon") (lit "chest pain")).
  - simpl. left. reflexivity.
  - vm_compute. reflexivity.
Defined.

(** ** Computations *)

Lemma run_from_bind {A B : Type} (net : nat -> FetchRequest -> FetchResult)
  (m : Prog A) (f : A -> Prog B) (n : nat) :
  run_from net n (bind m f) =
  match run_from net n m with
  | (Returned a, calls) =>
      let (o, calls') := run_from net (n + length calls) (f a) in (o, calls ++ calls')
  | (Thrown e, calls) => (Thrown e, calls)
  end.
Proof.
  revert n. induction m as [a|e|rq k IH]; intros n; simpl.
  - rewrite Nat.add_0_r. now destruct (run_from net n (f a)).
  - reflexivity.
  - rewrite IH. destruct (run_from net (S n) (k (net n rq))) as [[a|e] calls]; simpl.
    + replace (n + S (length calls)) with (S (n + length calls)) by lia.
      now destruct (run_from net (S (n + length calls)) (f a)).
    + reflexivity.
Qed.

Lemma every_return_bind {A B : Type} (P : A -> Prop) (Q : B -> Prop)
  (m : Prog A) (f : A -> Prog B) :
  every_return P m ->
  (forall a, P a -> every_return Q (f a)) ->
  every_return Q (bind m f).
Proof.
  intros Hm Hf. induction m as [a|e|rq k IH]; simpl in *; auto.
Qed.


Lemma calls_at_most_mono {A : Type} (n n' : nat) (m : Prog A) :
  n <= n' -> calls_at_most n m -> calls_at_most n' m.
Proof.
  revert n n'. induction m as [a|e|rq k IH]; intros n n' Hle H; simpl in *; auto.
  destruct n as [|n]; simpl in H; [contradiction|]. destruct n' as [|n']; [lia|].
  intros r. apply (IH r n n'); [lia | apply H].
Qed.

Lemma calls_at_most_bind {A B : Type} (n1 n2 : nat) (m : Prog A) (f : A -> Prog B) :
  calls_at_most n1 m ->
  (forall a, calls_at_most n2 (f a)) ->
  calls_at_most (n1 + n2) (bind m f).
Proof.
  revert n1. induction m as [a|e|rq k IH]; intros n1 Hm Hf; simpl in *; auto.
  - apply calls_at_most_mono with (n := n2); [lia | apply Hf].
  - destruct n1 as [|n1]; simpl in Hm; [contradiction|]. simpl. intros r. apply IH; auto.
Qed.

Lemma every_return_run {A : Type} (P : A -> Prop) (m : Prog A)
  (net : nat -> FetchRequest -> FetchResult) (n : nat) (a : A) (calls : list FetchRequest) :
  every_return P m -> run_from net n m = (Returned a, calls) -> P a.
Proof.
  revert n calls. induction m as [x|e|rq k IH]; intros n calls H R; simpl in *.
  - now injection R as <- _.
  - discriminate.
  - destruct (run_from net (S n) (k (net n rq))) as [o cs] eqn:E.
    injection R as -> _. eapply IH; eauto.
Qed.

Lemma every_throw_run {A : Type} (Q : JsError -> Prop) (m : Prog A)
  (net : nat -> FetchRequest -> FetchResult) (n : nat) (e : JsError) (calls : list FetchRequest) :
  every_throw Q m -> run_from net n m = (Thrown e, calls) -> Q e.
Proof.
  revert n calls. induction m as [x|e'|rq k IH]; intros n calls H R; simpl in *.
  - discriminate.
  - now injection R as <- _.
  - destruct (run_from net (S n) (k (net n rq))) as [o cs] eqn:E.
    injection R as -> _. eapply IH; eauto.
Qed.

Lemma calls_at_most_run {A : Type} (b : nat) (m : Prog A)
  (net : nat -> FetchRequest -> FetchResult) (n : nat) :
  calls_at_most b m -> length (snd (run_from net n m)) <= b.
Proof.
  revert b n. induction m as [x|e|rq k IH]; intros b n H; simpl in *; try lia.
  destruct b as [|b]; simpl in H; [contradiction|].
  specialize (IH (net n rq) b (S n) (H _)).
  destruct (run_from net (S n) (k (net n rq))) as [o cs]. simpl in *. lia.
Qed.

(** ** External model adapter and simplifier pipeline *)

Section SimplifierProperties.

Variable JSON_parse : jsstring -> option json.

Lemma candidateText_error (data : json) (e : JsError) :
  candidateText data = inl e -> e = TypeError.
Proof.
  unfold candidateText. destruct data; try congruence;
    match goal with
    | |- context [match ?t with _ => _ end] =>
        destruct t as [[| | | | |]|]; congruence
    end.
Qed.

Lemma adapter_calls (env : Env) (model : jsstring) (prompt : Prompt) (t : N) :
  calls_at_most 1 (requestGeminiJson JSON_parse env model prompt t).
Proof.
  unfold requestGeminiJson. destruct (api_key env); simpl; auto.
  intros r. break_match; auto.
Qed.

Lemma adapter_throws (env : Env) (model : jsstring) (prompt : Prompt) (t : N) :
  every_throw adapter_error (requestGeminiJson JSON_parse env model prompt t).
Proof.
  unfold requestGeminiJson, adapter_error. destruct (api_key env); simpl; auto.
  intros r. destruct r as [|status body]; simpl; auto.
  destruct (response_ok status); simpl; auto.
  destruct (JSON_parse body) as [data|]; simpl; auto.
  destruct (candidateText data) as [e|[rawText|]] eqn:C; simpl; auto.
  - apply candidateText_error in C. auto.
  - break_match; auto.
Qed.

(** Without a key the adapter answers null and makes no call. *)
Lemma adapter_null_without_key (env : Env) (model : jsstring) (prompt : Prompt) (t : N) :
  api_key env = None ->
  requestGeminiJson JSON_parse env model prompt t = Ret JNull.
Proof. intros H. unfold requestGeminiJson. now rewrite H. Qed.

(** A status outside 200..299 makes the adapter answer null. *)
Lemma adapter_null_on_bad_status (env : Env) (model : jsstring) (prompt : Prompt) (t : N)
  (net : nat -> FetchRequest -> FetchResult) (key : jsstring) (status : N) (body : jsstring) :
  api_key env = Some key ->
  net 0 {| rq_model := model; rq_key := key; rq_prompt := prompt;
           rq_temperature_tenths := t |} = Response status body ->
  response_ok status = false ->
  fst (run net (requestGeminiJson JSON_parse env model prompt t)) = Returned JNull.
Proof.
  intros K R S. unfold run, requestGeminiJson. rewrite K. simpl. rewrite R, S. reflexivity.
Qed.

(** An envelope without candidate text, or with an empty one, makes the
    adapter answer null. *)
Lemma adapter_null_on_empty_payload (env : Env) (model : jsstring) (prompt : Prompt) (t : N)
  (net : nat -> FetchRequest -> FetchResult) (key : jsstring) (status : N) (body : jsstring)
  (data : json) (rawText : option jsstring) :
  api_key env = Some key ->
  net 0 {| rq_model := model; rq_key := key; rq_prompt := prompt;
           rq_temperature_tenths := t |} = Response status body ->
  response_ok status = true ->
  JSON_parse body = Some data ->
  candidateText data = inr rawText ->
  match rawText with Some s => truthy s = false | None => True end ->
  fst (run net (requestGeminiJson JSON_parse env model prompt t)) = Returned JNull.
Proof.
  intros K R S P C E. unfold run, requestGeminiJson. rewrite K. simpl.
  rewrite R, S. simpl. rewrite P, C. destruct rawText as [s|]; [|reflexivity].
  now rewrite E.
Qed.

(** A candidate text that is not JSON, and whose outermost braces do not
    hold JSON either, makes the adapter answer null. *)
Lemma adapter_null_on_parse_failure (env : Env) (model : jsstring) (prompt : Prompt) (t : N)
  (net : nat -> FetchRequest -> FetchResult) (key : jsstring) (status : N) (body : jsstring)
  (data : json) (rawText : jsstring) :
  api_key env = Some key ->
  net 0 {| rq_model := model; rq_key := key; rq_prompt := prompt;
           rq_temperature_tenths := t |} = Response status body ->
  response_ok status = true ->
  JSON_parse body = Some data ->
  candidateText data = inr (Some rawText) ->
  JSON_parse rawText = None ->
  match exec jsonBlockRegex rawText with
  | Some m => JSON_parse (m_text m) = None
  | None => True
  end ->
  fst (run net (requestGeminiJson JSON_parse env model prompt t)) = Returned JNull.
Proof.
  intros K R S P C E1 E2. unfold run, requestGeminiJson. rewrite K. simpl.
  rewrite R, S. simpl. rewrite P, C.
  destruct (truthy rawText); simpl; [|reflexivity].
  rewrite E1. destruct (exec jsonBlockRegex rawText) as [m|]; [|reflexivity].
  now rewrite E2.
Qed.

(** C2. The adapter does let exceptions reach its caller: with a key
    configured, a fetch that rejects makes it throw instead of answering
    null, and so does a 200 response whose body is not JSON. *)
Theorem adapter_throws_on_network_failure (model : jsstring) (prompt : Prompt) (t : N) :
  fst (run net_down (requestGeminiJson JSON_parse with_key model prompt t))
  = Thrown NetworkError
  /\ fst (run (net_always "<html>Bad gateway</html>")
            (requestGeminiJson parse_nothing with_key model prompt t))
     = Thrown SyntaxError.
Proof. split; reflexivity. Qed.

Lemma translate_returns (env : Env) (summary : SimplifiedPrescriptionSummary)
  (lang : PrescriptionLanguageCode) (model : jsstring) :
  every_return
    (fun o => o = None
              \/ exists v parsed,
                   json_truthy v = true
                   /\ prescriptionSimplifyResponseSchema v = Some parsed
                   /\ o = Some (coercePrescriptionLanguage parsed lang))
    (translatePrescriptionSummaryToLanguage JSON_parse env summary lang model).
Proof.
  unfold translatePrescriptionSummaryToLanguage.
  apply every_return_bind with (P := fun _ => True).
  - generalize (requestGeminiJson JSON_parse env model (TranslatePrompt lang summary) 1).
    intros m. induction m; simpl; auto.
  - intros v _. destruct (json_truthy v) eqn:T; simpl; auto.
    destruct (prescriptionSimplifyResponseSchema v) as [parsed|] eqn:S; simpl; auto.
    right. now exists v, parsed.
Qed.

Lemma every_return_trivial {A : Type} (m : Prog A) : every_return (fun _ => True) m.
Proof. induction m; simpl; auto. Qed.

(** Whatever the service answers, a summary the simplifier returns is the
    deterministic fallback or a validated, relabelled and aligned model
    answer. *)
Lemma simplifier_returns (env : Env) (input : SimplifyRequest) :
  every_return (accepted_summary input) (runPrescriptionSimplifier JSON_parse env input).
Proof.
  unfold runPrescriptionSimplifier, accepted_summary.
  destruct (api_key env); simpl; auto.
  apply every_return_bind with (P := fun _ => True); [apply every_return_trivial|].
  intros v _. destruct (json_truthy v) eqn:T; simpl; auto.
  destruct (prescriptionSimplifyResponseSchema v) as [parsed|] eqn:S; simpl; auto.
  destruct (isPrescriptionLanguageAligned (coercePrescriptionLanguage parsed (language input))
              (language input)) eqn:Al; simpl.
  - right. now exists v, parsed.
  - eapply every_return_bind; [apply translate_returns|].
    intros o [->|(v' & parsed' & T' & S' & ->)]; simpl; auto.
    destruct (isPrescriptionLanguageAligned
                (coercePrescriptionLanguage parsed' (language input)) (language input)) eqn:Al';
      simpl; auto.
    right. now exists v', parsed'.
Qed.



(** When the adapter answers null for the generation, or its answer fails
    the schema, the fallback is returned after that single call. *)
Lemma simplifier_falls_back (env : Env) (input : SimplifyRequest) (key : jsstring)
  (net : nat -> FetchRequest -> FetchResult) (v : json) (calls : list FetchRequest) :
  api_key env = Some key ->
  run net (requestGeminiJson JSON_parse env (model_name env)
             (SimplifyPrompt (language input) (trim (text input))) 2) = (Returned v, calls) ->
  json_truthy v = false \/ prescriptionSimplifyResponseSchema v = None ->
  run net (runPrescriptionSimplifier JSON_parse env input)
  = (Returned (fallbackPrescriptionSummary input), calls).
Proof.
  intros K R H. unfold run, runPrescriptionSimplifier in *. rewrite K.
  rewrite run_from_bind, R.
  destruct (json_truthy v); simpl.
  - destruct H as [H|H]; [discriminate|]. rewrite H. simpl. now rewrite app_nil_r.
  - now rewrite app_nil_r.
Qed.

(** C3. A model failure does reach the user of the simplify route: with a
    key configured and the network down, the request is answered 503 with
    the error, not with the fallback summary. *)
Theorem simplify_route_surfaces_network_failure (input : SimplifyRequest) :
  fst (run net_down (prescriptionSimplifyRoute JSON_parse with_key input))
  = Returned (Json503 NetworkError)
  /\ fst (run net_down (runPrescriptionSimplifier JSON_parse with_key input))
     = Thrown NetworkError.
Proof. split; reflexivity. Qed.

(** C9. A summary the simplifier returns, on any path, carries the
    requested language code and the canonical label of that code (English,
    Hindi, Tamil or Bengali), whatever code and label the model supplied. *)
Theorem returned_summary_language (env : Env) (input : SimplifyRequest)
  (net : nat -> FetchRequest -> FetchResult)
  (s : SimplifiedPrescriptionSummary) (calls : list FetchRequest) :
  run net (runPrescriptionSimplifier JSON_parse env input) = (Returned s, calls) ->
  languageCode s = language input
  /\ languageLabel s = prescriptionLanguageLabels (language input)
  /\ languageLabel s
     = match language input with
       | en => lit "English"
       | hi => lit "Hindi"
       | ta => lit "Tamil"
       | bn => lit "Bengali"
       end.
Proof.
  intros R.
  destruct (every_return_run _ _ net 0 s calls (simplifier_returns env input) R)
    as [->|(v & parsed & _ & _ & -> & _)];
    (split; [reflexivity|]; split; [reflexivity|]);
    cbn [languageLabel fallbackPrescriptionSummary coercePrescriptionLanguage];
    now destruct (language input).
Qed.

End SimplifierProperties.

Lemma returned_summary_language_witness :
  languageCode relabelled_answer = en
  /\ languageLabel relabelled_answer = prescriptionLanguageLabels en
  /\ languageLabel relabelled_answer = lit "English".
Proof.
  apply (returned_summary_language mislabelling_parser with_key english_request
           (net_always "envelope") relabelled_answer
           [ {| rq_model := lit "gemini-2.5-flash"; rq_key := lit "secret";
                rq_prompt := SimplifyPrompt en paracetamol_text;
                rq_temperature_tenths := 2 |} ]).
  vm_compute. reflexivity.
Defined.

(** ** Matching a single character class *)

Lemma match_here_class (f : cu -> bool) (p : option cu) (s : jsstring) :
  match_here (Class f) p s =
  match s with
  | x :: s' => if f x then Some (s', []) else None
  | [] => None
  end.
Proof. reflexivity. Qed.

Lemma search_from_unfold (r : regex) (p : option cu) (s : jsstring) (idx : nat) :
  search_from r p s idx =
  match match_here r p s with
  | Some (s', c) =>
      Some {| m_index := idx; m_text := firstn (length s - length s') s;
              m_rest := s'; m_groups := c |}
  | None =>
      match s with
      | [] => None
      | x :: s' => search_from r (Some x) s' (S idx)
      end
  end.
Proof. destruct s; reflexivity. Qed.

Lemma search_class_none (f : cu -> bool) (s : jsstring) (p : option cu) (idx : nat) :
  forallb (fun x => negb (f x)) s = true ->
  search_from (Class f) p s idx = None.
Proof.
  revert p idx. induction s as [|x s IH]; intros p idx H;
    rewrite search_from_unfold, match_here_class.
  - reflexivity.
  - simpl in H. apply andb_true_iff in H as [H1 H2]. apply negb_true_iff in H1.
    rewrite H1. now apply IH.
Qed.

Lemma search_class_some (f : cu -> bool) (pre : jsstring) (x : cu) (rest : jsstring)
  (p : option cu) (idx : nat) :
  forallb (fun y => negb (f y)) pre = true ->
  f x = true ->
  search_from (Class f) p (pre ++ x :: rest) idx
  = Some {| m_index := idx + length pre; m_text := [x]; m_rest := rest; m_groups := [] |}.
Proof.
  revert p idx. induction pre as [|y pre IH]; intros p idx H Hx;
    rewrite search_from_unfold, match_here_class; cbn [app].
  - rewrite Hx. cbn [length]. rewrite Nat.add_0_r.
    replace (S (length rest) - length rest) with 1 by lia. reflexivity.
  - simpl in H. apply andb_true_iff in H as [H1 H2]. apply negb_true_iff in H1.
    rewrite H1, (IH (Some y) (S idx) H2 Hx). cbn [length]. do 2 f_equal. lia.
Qed.

Lemma first_hit (f : cu -> bool) (s : jsstring) :
  forallb (fun x => negb (f x)) s = true
  \/ exists pre x rest,
       s = pre ++ x :: rest /\ forallb (fun y => negb (f y)) pre = true /\ f x = true.
Proof.
  induction s as [|a s IH]; [now left|].
  destruct (f a) eqn:Fa.
  - right. now exists [], a, s.
  - destruct IH as [IH|(pre & x & rest & -> & H1 & H2)].
    + left. simpl. now rewrite Fa.
    + right. exists (a :: pre), x, rest. simpl. now rewrite Fa.
Qed.

Lemma filter_none (f : cu -> bool) (s : jsstring) :
  forallb (fun x => negb (f x)) s = true -> filter f s = [].
Proof.
  induction s as [|a s IH]; simpl; [reflexivity|]. intros H.
  apply andb_true_iff in H as [H1 H2]. apply negb_true_iff in H1.
  rewrite H1. now apply IH.
Qed.

Lemma match_all_class (f : cu -> bool) (fuel : nat) (s : jsstring) (p : option cu) :
  length s < fuel ->
  match_all_from fuel (Class f) p s = map (fun x => [x]) (filter f s).
Proof.
  revert s p. induction fuel as [|fuel IH]; intros s p Hlt; [lia|].
  simpl. destruct (first_hit f s) as [H|(pre & x & rest & -> & H1 & H2)].
  - now rewrite (search_class_none f s p 0 H), (filter_none f s H).
  - rewrite (search_class_some f pre x rest p 0 H1 H2). cbn [m_text m_rest last].
    rewrite filter_app, (filter_none f pre H1). simpl. rewrite H2. simpl.
    f_equal. apply IH. rewrite length_app in Hlt. simpl in Hlt. lia.
Qed.

(** The pattern [/[A-Za-z]/g] finds every Latin letter. *)
Lemma latinCount_filter (s : jsstring) : latinCount s = length (filter is_latin s).
Proof.
  unfold latinCount, match_all, latinRegex.
  rewrite match_all_class by lia. apply length_map.
Qed.

(** A script pattern without the [g] flag yields one match at most. *)
Lemma scriptCount_class (f : cu -> bool) (s : jsstring) :
  scriptCount (Class f) s = if existsb f s then 1 else 0.
Proof.
  unfold scriptCount, exec.
  destruct (first_hit f s) as [H|(pre & x & rest & -> & H1 & H2)].
  - rewrite (search_class_none f s None 0 H).
    destruct (existsb f s) eqn:E; [|reflexivity].
    apply existsb_exists in E as (y & Hy & Fy).
    rewrite forallb_forall in H. apply H in Hy. now rewrite Fy in Hy.
  - rewrite (search_class_some f pre x rest None 0 H1 H2). simpl.
    rewrite existsb_app. simpl. rewrite H2. now rewrite orb_true_r.
Qed.

(** ** Language alignment verifier *)

(** What the check of the code computes for a target other than English:
    some code unit of the target script, and at most one Latin letter. *)
Lemma aligned_iff (summary : SimplifiedPrescriptionSummary) (lang : PrescriptionLanguageCode) :
  lang <> en ->
  isPrescriptionLanguageAligned summary lang
  = existsb (is_script lang) (prescriptionNarrativeText summary)
    && Nat.leb (length (filter is_latin (prescriptionNarrativeText summary))) 1.
Proof.
  intros Hl. unfold isPrescriptionLanguageAligned, prescriptionScriptRegexByLanguage.
  destruct lang; try congruence; cbn [script_range];
    rewrite scriptCount_class, latinCount_filter;
    destruct (existsb _ (prescriptionNarrativeText summary)); cbn [Nat.eqb andb];
    try reflexivity;
    generalize (length (filter is_latin (prescriptionNarrativeText summary))); intros n;
    destruct (Nat.ltb_spec (6 * 1) (5 * n)), (Nat.leb_spec n 1); try reflexivity; lia.
Qed.

(** A candidate without any code unit of the target script fails the
    check, for every target other than English. *)
Lemma no_script_never_aligned (summary : SimplifiedPrescriptionSummary)
  (lang : PrescriptionLanguageCode) :
  lang <> en ->
  existsb (is_script lang) (prescriptionNarrativeText summary) = false ->
  isPrescriptionLanguageAligned summary lang = false
  /\ aligned_by_spec summary lang = false.
Proof.
  intros Hl H. split.
  - rewrite aligned_iff by exact Hl. now rewrite H.
  - unfold aligned_by_spec.
    assert (E : filter (is_script lang) (prescriptionNarrativeText summary) = []).
    { apply filter_none. apply forallb_forall. intros x Hx.
      destruct (is_script lang x) eqn:Sx; [|reflexivity].
      assert (existsb (is_script lang) (prescriptionNarrativeText summary) = true)
        by (apply existsb_exists; now exists x).
      congruence. }
    rewrite E. now destruct lang.
Qed.

(** C8. The check of the code does not count the script characters: the
    Hindi summary the deterministic extractor itself produces for the
    sample prescription passes the schema and has 124 Devanagari code
    units against 30 Latin letters, which the rule of the specification
    accepts (30 is below 1.2 times 124), yet the code rejects it, since its
    script count is 1 as soon as one script character occurs. *)
Theorem alignment_rejects_mostly_hindi_summary :
  prescriptionSimplifyResponseSchema
    (summary_to_json (fallbackPrescriptionSummary hindi_request))
  = Some (fallbackPrescriptionSummary hindi_request)
  /\ length (filter (is_script hi)
               (prescriptionNarrativeText (fallbackPrescriptionSummary hindi_request))) = 124
  /\ length (filter is_latin
               (prescriptionNarrativeText (fallbackPrescriptionSummary hindi_request))) = 30
  /\ aligned_by_spec (fallbackPrescriptionSummary hindi_request) hi = true
  /\ isPrescriptionLanguageAligned (fallbackPrescriptionSummary hindi_request) hi = false.
Proof. split_all; vm_compute; reflexivity. Qed.

(** ** Deterministic prescription extractor *)

Lemma dedupe_by_length {A : Type} (eqb : A -> A -> bool) (xs seen : list A) :
  length (dedupe_by eqb seen xs) <= length xs.
Proof.
  revert seen. induction xs as [|x xs IH]; intros seen; simpl; [lia|].
  destruct (existsb (eqb x) seen); simpl.
  - specialize (IH seen). lia.
  - specialize (IH (x :: seen)). lia.
Qed.

Lemma dedupe_by_in {A : Type} (eqb : A -> A -> bool) (xs seen : list A) (x : A) :
  In x (dedupe_by eqb seen xs) -> In x xs.
Proof.
  revert seen. induction xs as [|y xs IH]; intros seen; simpl; [auto|].
  destruct (existsb (eqb y) seen); simpl.
  - intros H. right. eapply IH; eauto.
  - intros [H|H]; [now left | right; eapply IH; eauto].
Qed.

Lemma dedupe_by_fresh {A : Type} (eqb : A -> A -> bool)
  (refl : forall a, eqb a a = true) (xs seen : list A) (x : A) :
  In x (dedupe_by eqb seen xs) -> ~ In x seen.
Proof.
  revert seen. induction xs as [|y xs IH]; intros seen; simpl; [auto|].
  destruct (existsb (eqb y) seen) eqn:E; simpl.
  - apply IH.
  - intros [<-|H] Hin.
    + assert (existsb (eqb y) seen = true) by (apply existsb_exists; exists y; auto).
      congruence.
    + apply (IH (y :: seen) H). now right.
Qed.

Lemma dedupe_by_nodup {A : Type} (eqb : A -> A -> bool)
  (refl : forall a, eqb a a = true) (xs seen : list A) :
  NoDup (dedupe_by eqb seen xs).
Proof.
  revert seen. induction xs as [|y xs IH]; intros seen; simpl; [constructor|].
  destruct (existsb (eqb y) seen); [apply IH|].
  constructor; [|apply IH].
  intros H. apply (dedupe_by_fresh eqb refl xs (y :: seen) y H). now left.
Qed.

Lemma str_eqb_refl (s : jsstring) : str_eqb s s = true.
Proof. now apply str_eqb_eq. Qed.

Lemma slot_eqb_refl (t : PrescriptionTimingSlot) : slot_eqb t t = true.
Proof. now destruct t. Qed.

Lemma truthy_length (s : jsstring) : truthy s = true -> 1 <= length s.
Proof. destruct s; simpl; [discriminate | lia]. Qed.

Lemma or_default_truthy (v : option jsstring) (d : jsstring) :
  truthy d = true -> truthy (or_default v d) = true.
Proof.
  intros H. unfold or_default. destruct v as [s|]; [|exact H].
  now destruct (truthy s) eqn:E.
Qed.

Lemma push_if_length (v : option jsstring) (f : jsstring -> jsstring) :
  length (push_if v f) <= 1.
Proof. unfold push_if. destruct v as [s|]; [destruct (truthy s)|]; simpl; lia. Qed.

Lemma fallbackInstructions_length (t : Phrases.FallbackText) (text lower : jsstring) :
  length (fallbackInstructions t text lower) <= 7.
Proof.
  unfold fallbackInstructions. rewrite !length_app.
  pose proof (push_if_length (text_opt (exec frequencyRegex text)) trim).
  pose proof (push_if_length (group_opt 1 (exec qtyRegex text)) (fun n => lit "Qty " ++ n)).
  pose proof (push_if_length (text_opt (exec conditionRegex text)) trim).
  pose proof (push_if_length (group_opt 1 (exec explicitInstructionRegex text)) trim).
  pose proof (push_if_length (text_opt (exec tabletCountRegex text)) trim).
  destruct (test afterFoodRegex lower), (test beforeFoodRegex lower); cbn [length]; lia.
Qed.

Lemma timing_slots_shape (text : jsstring) :
  1 <= length (extractTimingSlotsFromText text) <= 4
  /\ NoDup (extractTimingSlotsFromText text).
Proof.
  unfold extractTimingSlotsFromText.
  destruct (test asNeededRegex (toLowerCase text)).
  { split; [simpl; lia | repeat constructor; simpl; tauto]. }
  set (meal := if test afterMealRegex (toLowerCase text) then AFTER_FOOD
               else if test beforeMealRegex (toLowerCase text) then BEFORE_FOOD else NONE).
  set (parts := match _ ++ _ ++ _ with [] => _ | _ :: _ => _ end).
  assert (Hp : length parts <= 3).
  { subst parts.
    destruct (test morningRegex (toLowerCase text)),
             (test afternoonRegex (toLowerCase text)),
             (test nightRegex (toLowerCase text)); simpl; try lia.
    destruct (test thriceRegex (toLowerCase text)); simpl; try lia.
    destruct (test twiceRegex (toLowerCase text)); simpl; try lia.
    destruct (test onceRegex (toLowerCase text)); simpl; lia. }
  set (slots := map _ parts ++ _).
  assert (Hs : length slots <= 4).
  { subst slots. rewrite length_app, length_map.
    destruct (test bedtimeRegex (toLowerCase text)); simpl; lia. }
  destruct slots as [|x slots'] eqn:E.
  - split; [simpl; lia | repeat constructor; simpl; tauto].
  - split.
    + pose proof (dedupe_by_length slot_eqb (x :: slots') []) as L.
      split; [simpl; lia | simpl in Hs, L |- *; lia].
    + apply dedupe_by_nodup, slot_eqb_refl.
Qed.

Lemma join_head_length (sep x : jsstring) (l : list jsstring) :
  length x <= length (join sep (x :: l)).
Proof. destruct l; simpl; [lia|]. rewrite length_app. lia. Qed.

Lemma useDirective_length (l : PrescriptionLanguageCode) (name dose : jsstring) :
  5 <= length (Phrases.useDirective (prescriptionFallbackByLanguage l) name dose).
Proof.
  destruct l; cbn [prescriptionFallbackByLanguage Phrases.useDirective
                   Phrases.phrases_en Phrases.phrases_hi Phrases.phrases_ta Phrases.phrases_bn];
    rewrite !length_app; simpl length; lia.
Qed.

Lemma defaults_truthy (l : PrescriptionLanguageCode) :
  truthy (Phrases.defaultMedicine (prescriptionFallbackByLanguage l)) = true
  /\ truthy (Phrases.defaultDosage (prescriptionFallbackByLanguage l)) = true
  /\ truthy (Phrases.defaultDuration (prescriptionFallbackByLanguage l)) = true.
Proof. destruct l; repeat split; reflexivity. Qed.

(** C4, as amended. For every simplify request the fallback summary has
    the requested language code and its canonical label, an explanation of
    at least 5 code units, exactly one medicine with a non-empty name,
    dosage and duration, 1 to 4 distinct timing slots and at most 7
    distinct, non-empty instructions, and its warnings, hydration tips and
    general advice are phrases of the language's table. *)
Theorem fallback_summary_shape (input : SimplifyRequest) :
  languageCode (fallbackPrescriptionSummary input) = language input
  /\ languageLabel (fallbackPrescriptionSummary input)
     = prescriptionLanguageLabels (language input)
  /\ 5 <= length (doctorExplanation (fallbackPrescriptionSummary input))
  /\ (exists m,
        medicines (fallbackPrescriptionSummary input) = [ m ]
        /\ 1 <= length (medicineName m)
        /\ 1 <= length (dosage m)
        /\ 1 <= length (m_duration m)
        /\ 1 <= length (timingSlots m) <= 4
        /\ NoDup (timingSlots m)
        /\ length (instructions m) <= 7
        /\ NoDup (instructions m)
        /\ forall i, In i (instructions m) -> 1 <= length i)
  /\ (forall w, In w (warnings (fallbackPrescriptionSummary input)) ->
                In w (table_phrases (language input)))
  /\ length (warnings (fallbackPrescriptionSummary input)) <= 1
  /\ (forall h, In h (hydrationTips (fallbackPrescriptionSummary input)) ->
                In h (table_phrases (language input)))
  /\ length (hydrationTips (fallbackPrescriptionSummary input)) <= 1
  /\ generalAdvice (fallbackPrescriptionSummary input)
     = [ Phrases.generalAdvice (prescriptionFallbackByLanguage (language input)) ].
Proof.
  destruct (defaults_truthy (language input)) as (D1 & D2 & D3).
  unfold fallbackPrescriptionSummary.
  cbn [languageCode languageLabel doctorExplanation medicines warnings hydrationTips
       generalAdvice].
  split; [reflexivity|]. split; [reflexivity|]. split.
  { cbn [filter].
    match goal with
    | |- context [truthy (Phrases.useDirective ?t ?n ?d)] =>
        pose proof (useDirective_length (language input) n d) as U;
        destruct (Phrases.useDirective t n d) as [|c u] eqn:E
    end; [simpl in U; lia|].
    cbn [truthy]. etransitivity; [exact U | apply join_head_length]. }
  split.
  { eexists. split; [reflexivity|].
    cbn [medicineName dosage m_duration timingSlots instructions].
    split; [now apply truthy_length, or_default_truthy|].
    split; [now apply truthy_length, or_default_truthy|].
    split; [now apply truthy_length, or_default_truthy|].
    split; [apply timing_slots_shape|].
    split; [apply timing_slots_shape|].
    split.
    { etransitivity; [apply dedupe_by_length|].
      etransitivity; [apply filter_length_le|].
      rewrite length_map. apply fallbackInstructions_length. }
    split; [apply dedupe_by_nodup, str_eqb_refl|].
    intros i Hi. apply dedupe_by_in, filter_In in Hi as [_ Hi].
    now apply truthy_length. }
  split.
  { intros w. unfold table_phrases.
    destruct (test emptyStomachRegex _); [|destruct (test avoidRegex _)];
      simpl; intros H; repeat (destruct H as [H|H]); subst; intuition auto. }
  split.
  { destruct (test emptyStomachRegex _); [|destruct (test avoidRegex _)]; simpl; lia. }
  split.
  { intros h. unfold table_phrases.
    destruct (test hydrationRegex _); simpl; intros H;
      repeat (destruct H as [H|H]); subst; intuition auto. }
  split; [destruct (test hydrationRegex _); simpl; lia | reflexivity].
Qed.

(** C4, the claim as stated fails: for a valid request of 1627 code units
    the fallback summary has an explanation of 1384 code units and an
    instruction of 303, carries the instruction "twice daily", which is no
    phrase of the Hindi table, and is rejected by the response schema. *)
Lemma fallback_summary_breaks_contract :
  prescriptionSimplifySchema_ok long_request = true
  /\ length (doctorExplanation (fallbackPrescriptionSummary long_request)) = 1384
  /\ map (fun m => map (@length cu) (instructions m))
       (medicines (fallbackPrescriptionSummary long_request)) = [ [ 11; 303 ] ]
  /\ existsb (fun m => existsb (str_eqb (lit "twice daily")) (instructions m))
       (medicines (fallbackPrescriptionSummary long_request)) = true
  /\ existsb (str_eqb (lit "twice daily")) (table_phrases hi) = false
  /\ meets_claimed_contract long_request (fallbackPrescriptionSummary long_request) = false
  /\ prescriptionSimplifyResponseSchema
       (summary_to_json (fallbackPrescriptionSummary long_request)) = None.
Proof. split_all; vm_compute; reflexivity. Qed.

(** ** The matcher *)

Lemma suffix_of_refl (s : jsstring) : suffix_of s s.
Proof. now exists []. Qed.

Lemma suffix_of_tail (x : cu) (s : jsstring) : suffix_of s (x :: s).
Proof. now exists [x]. Qed.

Lemma suffix_of_trans (a b c : jsstring) : suffix_of a b -> suffix_of b c -> suffix_of a c.
Proof. intros [p ->] [q ->]. exists (q ++ p). now rewrite app_assoc. Qed.

Section MatcherFacts.

Variable R : Type.

Lemma star_loop_none (step : option cu -> jsstring -> captures -> cont R -> option R)
  (k : cont R) (s : jsstring) :
  (forall p s0 c k0, suffix_of s0 s ->
     (forall p' s' c', suffix_of s' s0 -> k0 p' s' c' = None) -> step p s0 c k0 = None) ->
  (forall p' s' c', suffix_of s' s -> k p' s' c' = None) ->
  forall n p s0 c, suffix_of s0 s -> star_loop step k n p s0 c = None.
Proof.
  intros Hstep Hk. induction n as [|n IH]; intros p s0 c Hs; simpl.
  - now apply Hk.
  - rewrite Hstep; [now apply Hk | exact Hs |].
    intros p' s' c' Hs'. destruct (Nat.ltb _ _); [|reflexivity].
    apply IH. eapply suffix_of_trans; eauto.
Qed.

(** A pattern fails when what follows it fails at every later position. *)
Lemma mt_none (r : regex) :
  forall (p : option cu) (s : jsstring) (c : captures) (k : cont R),
    (forall p' s' c', suffix_of s' s -> k p' s' c' = None) ->
    mt r p s c k = None.
Proof.
  induction r as [|f|r1 IH1 r2 IH2|r1 IH1 r2 IH2|r1 IH1|i r1 IH1| |];
    intros p s c k Hk; cbn [mt].
  - apply Hk, suffix_of_refl.
  - destruct s as [|x s]; [reflexivity|]. destruct (f x); [|reflexivity].
    apply Hk, suffix_of_tail.
  - apply IH1. intros p' s' c' Hs. apply IH2. intros p'' s'' c'' Hs'.
    apply Hk. eapply suffix_of_trans; eauto.
  - rewrite (IH1 p s c k Hk). now apply IH2.
  - apply star_loop_none with (s := s).
    + intros p0 s0 c0 k0 Hs0 Hk0. now apply IH1.
    + exact Hk.
    + apply suffix_of_refl.
  - apply IH1. intros p' s' c' Hs. now apply Hk.
  - destruct (xorb _ _); [|reflexivity]. apply Hk, suffix_of_refl.
  - destruct p; [reflexivity|]. apply Hk, suffix_of_refl.
Qed.

(** A pattern fails where its first code unit cannot be read. *)
Lemma mt_blocked (r : regex) :
  forall (p : option cu) (s : jsstring) (c : captures) (k : cont R),
    blocked r (hd_error s) = true -> mt r p s c k = None.
Proof.
  induction r as [|f|r1 IH1 r2 IH2|r1 IH1 r2 IH2|r1 IH1|i r1 IH1| |];
    intros p s c k H; cbn [mt blocked] in *; try discriminate.
  - destruct s as [|x s]; [reflexivity|]. simpl in H.
    apply negb_true_iff in H. now rewrite H.
  - now apply IH1.
  - apply andb_true_iff in H as [H1 H2]. rewrite (IH1 p s c k H1). now apply IH2.
  - now apply IH1.
Qed.

Lemma star_loop_S (step : option cu -> jsstring -> captures -> cont R -> option R)
  (k : cont R) (n : nat) (p : option cu) (s : jsstring) (c : captures) :
  star_loop step k (S n) p s c =
  match step p s c
          (fun p' s' c' =>
             if Nat.ltb (length s') (length s) then star_loop step k n p' s' c' else None) with
  | Some x => Some x
  | None => k p s c
  end.
Proof. reflexivity. Qed.

Lemma mt_seq (r1 r2 : regex) (p : option cu) (s : jsstring) (c : captures) (k : cont R) :
  mt (Seq r1 r2) p s c k = mt r1 p s c (fun p' s' c' => mt r2 p' s' c' k).
Proof. reflexivity. Qed.

Lemma mt_group (i : nat) (r : regex) (p : option cu) (s : jsstring) (c : captures)
  (k : cont R) :
  mt (Group i r) p s c k
  = mt r p s c (fun p' s' c' => k p' s' ((i, firstn (length s - length s') s) :: c')).
Proof. reflexivity. Qed.

Lemma mt_class_cons (f : cu -> bool) (p : option cu) (x : cu) (s : jsstring)
  (c : captures) (k : cont R) :
  mt (Class f) p (x :: s) c k = if f x then k (Some x) s c else None.
Proof. reflexivity. Qed.

Lemma mt_class_nil (f : cu -> bool) (p : option cu) (c : captures) (k : cont R) :
  mt (Class f) p [] c k = None.
Proof. reflexivity. Qed.

(** A greedy star over a character class reads the whole run of the class
    when the rest of the pattern succeeds behind it. *)
Lemma star_class_greedy (f : cu -> bool) (k : cont R) (rest : jsstring) (c : captures) (x : R) :
  match hd_error rest with Some y => f y = false | None => True end ->
  forall (taken : jsstring) (n : nat) (p : option cu),
    forallb f taken = true ->
    length taken <= n ->
    k (last_opt p taken) rest c = Some x ->
    star_loop (mt (Class f)) k n p (taken ++ rest) c = Some x.
Proof.
  intros Hrest. induction taken as [|a taken IH]; intros n p Hrun Hn Hk.
  - cbn [app last_opt] in *. destruct n as [|n]; [exact Hk|].
    rewrite star_loop_S. destruct rest as [|y rest'].
    + now rewrite mt_class_nil.
    + simpl in Hrest. now rewrite mt_class_cons, Hrest.
  - destruct n as [|n]; [simpl in Hn; lia|].
    simpl in Hrun. apply andb_true_iff in Hrun as [Ha Hrun].
    rewrite star_loop_S. cbn [app]. rewrite mt_class_cons, Ha.
    replace (Nat.ltb (length (taken ++ rest)) (length (a :: taken ++ rest))) with true
      by (symmetry; apply Nat.ltb_lt; simpl; lia).
    rewrite (IH n (Some a) Hrun); [reflexivity | simpl in Hn; lia |].
    destruct taken; exact Hk.
Qed.

Lemma mt_star_class (f : cu -> bool) (k : cont R) (taken rest : jsstring)
  (p : option cu) (c : captures) (x : R) :
  forallb f taken = true ->
  match hd_error rest with Some y => f y = false | None => True end ->
  k (last_opt p taken) rest c = Some x ->
  mt (Star (Class f)) p (taken ++ rest) c k = Some x.
Proof.
  intros Hrun Hrest Hk. cbn [mt].
  apply star_class_greedy; auto. rewrite length_app. lia.
Qed.

End MatcherFacts.

Lemma search_none (r : regex) (s : jsstring) :
  (forall p s', suffix_of s' s -> match_here r p s' = None) ->
  forall p idx, search_from r p s idx = None.
Proof.
  induction s as [|x s IH]; intros H p idx; rewrite search_from_unfold.
  - now rewrite (H p [] (suffix_of_refl [])).
  - rewrite (H p (x :: s) (suffix_of_refl _)). apply IH.
    intros p' s' Hs. apply H. eapply suffix_of_trans; eauto using suffix_of_tail.
Qed.









Lemma ws_not_digit (x : cu) : is_ws x = true -> is_digit x = false.
Proof.
  unfold is_ws, is_digit, in_range. intros H.
  repeat match goal with
         | H : _ \/ _ |- _ => destruct H
         | H : _ && _ = true |- _ => apply andb_true_iff in H as [? ?]
         | H : _ || _ = true |- _ => apply orb_true_iff in H
         | H : N.leb _ _ = true |- _ => apply N.leb_le in H
         | H : N.eqb _ _ = true |- _ => apply N.eqb_eq in H
         end;
    destruct (N.leb_spec 48 x), (N.leb_spec x 57); simpl; try reflexivity; lia.
Qed.

Lemma firstn_prefix (a b : jsstring) : firstn (length (a ++ b) - length b) (a ++ b) = a.
Proof.
  rewrite length_app. replace (length a + length b - length b) with (length a) by lia.
  rewrite firstn_app, firstn_all, Nat.sub_diag. simpl. apply app_nil_r.
Qed.

(** A count pattern finds a count that opens the text, and captures its
    digits. *)
Lemma countOf_found (units : list string) (ds sp u : jsstring) :
  ds <> [] ->
  forallb is_digit ds = true ->
  forallb is_ws sp = true ->
  match hd_error u with Some y => is_ws y = false /\ is_digit y = false | None => True end ->
  (forall p c, exists rest,
      mt (alt_of (map str_ci units)) p u c (fun _ s' c' => Some (s', c')) = Some (rest, c)) ->
  exists m, exec (countOf units) (ds ++ sp ++ u) = Some m /\ group 1 m = Some ds.
Proof.
  intros Hne Hds Hsp Hu HA.
  destruct ds as [|d ds']; [congruence|]. clear Hne.
  simpl in Hds. apply andb_true_iff in Hds as [Hd Hds].
  assert (Hnext : match hd_error (sp ++ u) with
                  | Some y => is_digit y = false
                  | None => True
                  end).
  { destruct sp as [|y sp'].
    - simpl. destruct (hd_error u); tauto.
    - simpl in Hsp |- *. apply andb_true_iff in Hsp as [Hy _]. now apply ws_not_digit. }
  destruct (HA (last_opt (last_opt (Some d) ds') sp) [ (1, d :: ds') ]) as [rest E].
  exists {| m_index := 0;
            m_text := firstn (length ((d :: ds') ++ sp ++ u) - length rest)
                        ((d :: ds') ++ sp ++ u);
            m_rest := rest;
            m_groups := [ (1, d :: ds') ] |}.
  split; [|reflexivity].
  unfold exec. rewrite search_from_unfold.
  assert (M : match_here (countOf units) None ((d :: ds') ++ sp ++ u)
              = Some (rest, [ (1, d :: ds') ])).
  { unfold match_here, countOf. cbn [seq_of]. rewrite mt_seq, mt_group.
    unfold plus, digit. rewrite mt_seq. cbn [app]. rewrite mt_class_cons, Hd.
    apply mt_star_class; [exact Hds | exact Hnext |]. cbv beta.
    change (d :: ds' ++ sp ++ u) with ((d :: ds') ++ sp ++ u).
    rewrite firstn_prefix, mt_seq.
    apply mt_star_class; [exact Hsp | destruct (hd_error u); tauto | exact E]. }
  now rewrite M.
Qed.






Lemma refusal_phrase_yields_yellow_witness :
  runSymptomTriage parse_nothing with_key dosage_request
  = Ret createRuleBasedSafetyRefusalResponse
  /\ triageLevel createRuleBasedSafetyRefusalResponse = YELLOW
  /\ includes (lit "within 24 hours")
       (recommendedAction createRuleBasedSafetyRefusalResponse) = true
  /\ includes (lit "cannot provide diagnosis, dosing")
       (explanation createRuleBasedSafetyRefusalResponse) = true
  /\ (forall net,
        run net (runSymptomTriage parse_nothing with_key dosage_request)
        = (Returned createRuleBasedSafetyRefusalResponse, []))
  /\ (forall other reason,
        ruleBasedEmergencyCheck (normalizeInput other) = Some reason ->
        runSymptomTriage parse_nothing with_key other
        = Ret (createRuleBasedRedResponse reason)).
Proof.
  apply (refusal_phrase_yields_yellow parse_nothing with_key dosage_request (lit "dosage")).
  - simpl. left. reflexivity.
  - vm_compute. reflexivity.
  - vm_compute. reflexivity.
Defined.

Lemma gates_read_symptoms_and_context_only_witness :
  ruleBasedEmergencyCheck (normalizeInput headache_request)
  = ruleBasedEmergencyCheck (normalizeInput headache_request_with_history)
  /\ ruleBasedSafetyRefusalCheck (normalizeInput headache_request)
     = ruleBasedSafetyRefusalCheck (normalizeInput headache_request_with_history)
  /\ (forall t, runSymptomTriage parse_nothing with_key headache_request = Ret t
                <-> runSymptomTriage parse_nothing with_key headache_request_with_history
                    = Ret t)
  /\ (ruleBasedEmergencyCheck (normalizeInput headache_request) = None ->
      ruleBasedSafetyRefusalCheck (normalizeInput headache_request) = false ->
      forall t, runSymptomTriage parse_nothing with_key headache_request_with_history
                <> Ret t).
Proof.
  apply (gates_read_symptoms_and_context_only parse_nothing with_key
           headache_request headache_request_with_history); reflexivity.
Defined.

(** The report with "seizure" and "stroke" in its duration and known
    conditions passes both gates and goes to the model. *)
Lemma history_does_not_short_circuit (env : Env) (JSON_parse : jsstring -> option json)
  (t : TriageResult) :
  runSymptomTriage JSON_parse env headache_request_with_history <> Ret t.
Proof.
  intros H. apply triage_ret_inv in H.
  assert (E1 : ruleBasedEmergencyCheck (normalizeInput headache_request_with_history) = None)
    by (vm_compute; reflexivity).
  assert (E2 : ruleBasedSafetyRefusalCheck (normalizeInput headache_request_with_history)
               = false) by (vm_compute; reflexivity).
  rewrite E1, E2 in H. destruct H as [H _]. discriminate H.
Qed.

(** ** Further checks *)

(** The emergency check returns no empty reason. *)
Lemma emergency_reason_truthy (input : GateInput) (reason : jsstring) :
  ruleBasedEmergencyCheck input = Some reason -> truthy reason = true.
Proof.
  unfold ruleBasedEmergencyCheck.
  destruct (find _ emergencyKeywords) as [matched|].
  - destruct (truthy matched) eqn:T; [|discriminate]. now intros [= <-].
  - destruct (exec oxygenRegex (combinedText input)) as [m|]; [|discriminate].
    destruct (group 1 m) as [tok|]; [|discriminate].
    destruct (number_lt_90 tok); [|discriminate]. now intros [= <-].
Qed.

(** Without a key the simplifier answers the fallback and calls nothing. *)
Lemma simplifier_without_key (JSON_parse : jsstring -> option json) (env : Env)
  (input : SimplifyRequest) :
  api_key env = None ->
  runPrescriptionSimplifier JSON_parse env input = Ret (fallbackPrescriptionSummary input).
Proof. intros H. unfold runPrescriptionSimplifier. now rewrite H. Qed.

(** The extractor on the sample prescription: one medicine named
    Paracetamol, 500mg, 5 days, morning and night after food, and the
    quantity among the instructions. *)
Example fallback_on_sample_prescription :
  map (fun m => (medicineName m, dosage m, m_duration m, timingSlots m, instructions m))
    (medicines (fallbackPrescriptionSummary english_request))
  = [ (lit "Paracetamol", lit "500mg", lit "5 days",
       [ MORNING_AFTER_FOOD; NIGHT_AFTER_FOOD ],
       [ lit "Take after food."; lit "twice daily"; lit "Qty 10" ]) ].
Proof. vm_compute. reflexivity. Qed.

Example three_months_in_days : durationDaysFromText (lit "3 months") = Some (Finite 90).
Proof. vm_compute. reflexivity. Qed.

Example five_days_in_days : durationDaysFromText (lit "5 days") = Some (Finite 5).
Proof. vm_compute. reflexivity. Qed.

(** A report that passes both gates fails explicitly when no key is set. *)
Example triage_without_key_fails :
  runSymptomTriage parse_nothing no_key headache_request
  = Throw (Error (lit "GEMINI_API_KEY is missing")).
Proof. vm_compute. reflexivity. Qed.

(** The adapter reads the first balanced-looking block of a prose answer. *)
Example adapter_reads_wrapped_json :
  fst (run (net_always "wrapped")
         (requestGeminiJson prose_parser with_key (lit "gemini-2.5-flash")
            (SimplifyPrompt en paracetamol_text) 2))
  = Returned (JBool true).
Proof. vm_compute. reflexivity. Qed.

(** An oxygen reading that rounds to 90 as a double does not match. *)
Example oxygen_reading_rounding :
  number_lt_90 (lit "89.9999") = true
  /\ number_lt_90 (lit "89.99999999999999999") = false
  /\ number_lt_90 (lit "90") = false
  /\ number_lt_90 (lit "880") = false.
Proof. split_all; vm_compute; reflexivity. Qed.

(** * Further properties of the code *)

(** ** Text sanitizer *)

Lemma collapse_from_spaced (s : jsstring) :
  forall b,
    single_spaced (collapse_from b s) = true
    /\ (b = true ->
        match collapse_from b s with y :: _ => is_ws y = false | [] => True end).
Proof.
  induction s as [|x s IH]; intros b; [split; [reflexivity | intros _; exact I]|].
  cbn [collapse_from]. destruct (is_ws x) eqn:W.
  - destruct b.
    + apply IH.
    + destruct (IH true) as [S1 S2]. specialize (S2 eq_refl). split; [|discriminate].
      cbn [single_spaced]. rewrite S1.
      destruct (collapse_from true s) as [|y t]; [reflexivity|].
      now rewrite S2.
  - destruct (IH false) as [S1 _]. split; [|intros _; exact W].
    cbn [single_spaced]. now rewrite W, S1.
Qed.

Lemma single_spaced_tail (x : cu) (s : jsstring) :
  single_spaced (x :: s) = true -> single_spaced s = true.
Proof. cbn [single_spaced]. intros H. now apply andb_true_iff in H as [_ H]. Qed.

Lemma single_spaced_trimStart (s : jsstring) :
  single_spaced s = true -> single_spaced (trimStart s) = true.
Proof.
  induction s as [|x s IH]; intros H; [reflexivity|]. cbn [trimStart].
  destruct (is_ws x); [|exact H]. apply IH. now apply single_spaced_tail in H.
Qed.

Lemma single_spaced_app_l (a b : jsstring) :
  single_spaced (a ++ b) = true -> single_spaced a = true.
Proof.
  induction a as [|x a IH]; intros H; [reflexivity|].
  cbn [app single_spaced] in *. apply andb_true_iff in H as [H1 H2].
  rewrite (IH H2), andb_true_r.
  destruct (is_ws x); [|reflexivity].
  apply andb_true_iff in H1 as [E N]. rewrite E. simpl.
  destruct a as [|y a]; [reflexivity | exact N].
Qed.

Lemma trimStart_split (s : jsstring) :
  exists skipped, s = skipped ++ trimStart s /\ forallb is_ws skipped = true.
Proof.
  induction s as [|x s IH]; [now exists []|]. cbn [trimStart].
  destruct (is_ws x) eqn:W.
  - destruct IH as (k & E & A). exists (x :: k). split.
    + simpl. now rewrite <- E.
    + simpl. now rewrite W.
  - now exists [].
Qed.

Lemma trimStart_head (s : jsstring) :
  match trimStart s with y :: _ => is_ws y = false | [] => True end.
Proof.
  induction s as [|x s IH]; [exact I|]. cbn [trimStart].
  destruct (is_ws x) eqn:W; [exact IH | exact W].
Qed.

Lemma trimEnd_split (s : jsstring) :
  exists skipped, s = trimEnd s ++ skipped /\ forallb is_ws skipped = true.
Proof.
  unfold trimEnd. destruct (trimStart_split (rev s)) as (k & E & A).
  exists (rev k). split.
  - rewrite <- rev_app_distr, <- E. now rewrite rev_involutive.
  - rewrite forallb_forall in *. intros x Hx. apply A. now apply in_rev.
Qed.

Lemma trimEnd_last (s : jsstring) :
  trimEnd s <> [] -> is_ws (last (trimEnd s) 0%N) = false.
Proof.
  unfold trimEnd. pose proof (trimStart_head (rev s)) as H.
  destruct (trimStart (rev s)) as [|y t]; [intros N; now destruct N|]. intros _.
  simpl. now rewrite last_last.
Qed.

Lemma trimEnd_keeps_head (s : jsstring) (x : cu) (t : jsstring) :
  trimEnd s = x :: t -> exists t', s = x :: t'.
Proof.
  intros E. destruct (trimEnd_split s) as (k & S & _). rewrite E in S.
  now exists (t ++ k).
Qed.

Lemma sanitize_trimmed (s : jsstring) : trimmed (sanitizeTriageText s) = true.
Proof.
  unfold sanitizeTriageText, trim, trimmed.
  destruct (trimEnd (trimStart (collapse_ws s))) as [|x t] eqn:E; [reflexivity|].
  pose proof (trimEnd_last (trimStart (collapse_ws s))) as L. rewrite E in L.
  rewrite L by discriminate.
  destruct (trimEnd_keeps_head _ _ _ E) as [t' E'].
  pose proof (trimStart_head (collapse_ws s)) as H. rewrite E' in H. now rewrite H.
Qed.

Lemma sanitize_single_spaced (s : jsstring) : single_spaced (sanitizeTriageText s) = true.
Proof.
  unfold sanitizeTriageText, trim, collapse_ws.
  destruct (trimEnd_split (trimStart (collapse_from false s))) as (k & E & _).
  apply single_spaced_app_l with (b := k). rewrite <- E.
  apply single_spaced_trimStart, collapse_from_spaced.
Qed.

Lemma collapse_fixed (s : jsstring) :
  single_spaced s = true -> forall b, (b = true -> match s with y :: _ => is_ws y = false | [] => True end) ->
  collapse_from b s = s.
Proof.
  induction s as [|x s IH]; intros H b Hb; [reflexivity|].
  cbn [collapse_from single_spaced] in *. apply andb_true_iff in H as [H1 H2].
  destruct (is_ws x) eqn:W.
  - destruct b; [specialize (Hb eq_refl); congruence|].
    apply andb_true_iff in H1 as [E N]. apply cu_eqb_eq in E. subst x.
    f_equal. apply IH; [exact H2|]. intros _.
    destruct s as [|y s]; [exact I|]. now apply negb_true_iff in N.
  - f_equal. apply IH; [exact H2 | discriminate].
Qed.

Lemma trimStart_fixed (s : jsstring) :
  match s with y :: _ => is_ws y = false | [] => True end -> trimStart s = s.
Proof. destruct s as [|y s]; [reflexivity|]. simpl. now intros ->. Qed.

Lemma trim_fixed (s : jsstring) : trimmed s = true -> trim s = s.
Proof.
  unfold trimmed, trim, trimEnd. destruct s as [|x t]; [reflexivity|].
  intros H. apply andb_true_iff in H as [H1 H2]. apply negb_true_iff in H1, H2.
  rewrite (trimStart_fixed (x :: t)) by exact H1.
  destruct (exists_last (l := x :: t)) as (k & y & E); [discriminate|].
  rewrite E in *. rewrite last_last in H2. rewrite rev_app_distr. simpl.
  rewrite H2. simpl. now rewrite rev_involutive.
Qed.

(** X1. The sanitizer returns a text in normal form, whatever it is given:
    no white space at either end, every white-space code unit a single
    space followed by a code unit that is not white space; and it leaves a
    text in that form unchanged, so sanitising twice changes nothing. *)
Theorem sanitize_normal_form (s : jsstring) :
  trimmed (sanitizeTriageText s) = true
  /\ single_spaced (sanitizeTriageText s) = true
  /\ (forall pre a b post,
        sanitizeTriageText s = pre ++ a :: b :: post ->
        is_ws a = true -> a = 32%N /\ is_ws b = false)
  /\ sanitizeTriageText (sanitizeTriageText s) = sanitizeTriageText s.
Proof.
  pose proof (sanitize_trimmed s) as T. pose proof (sanitize_single_spaced s) as S.
  split; [exact T|]. split; [exact S|]. split.
  - intros pre a b post E Wa. rewrite E in S.
    clear - S Wa. induction pre as [|x pre IH].
    + cbn [app single_spaced] in S. rewrite Wa in S.
      apply andb_true_iff in S as [S _]. apply andb_true_iff in S as [S1 S2].
      apply cu_eqb_eq in S1. now apply negb_true_iff in S2.
    + apply IH. now apply single_spaced_tail in S.
  - unfold sanitizeTriageText at 1. unfold collapse_ws.
    rewrite collapse_fixed; [now apply trim_fixed | exact S | discriminate].
Qed.

(** ** Schema validator *)

Lemma str_between_eq (lo hi : nat) (s : jsstring) :
  str_between lo hi (Some (JStr s)) = if within lo hi (length s) then Some s else None.
Proof. reflexivity. Qed.

Lemma all_some_map {A B : Type} (item : B -> option A) (enc : A -> B) (ok : A -> bool)
  (l : list A) :
  (forall x, item (enc x) = if ok x then Some x else None) ->
  all_some (map item (map enc l)) = if forallb ok l then Some l else None.
Proof.
  intros H. induction l as [|x l IH]; [reflexivity|].
  cbn [map all_some forallb]. rewrite H. destruct (ok x); [|reflexivity].
  rewrite IH. now destruct (forallb ok l).
Qed.

Lemma array_of_map {A : Type} (item : json -> option A) (enc : A -> json) (ok : A -> bool)
  (lo hi : nat) (l : list A) :
  (forall x, item (enc x) = if ok x then Some x else None) ->
  array_of item lo hi (Some (JArr (map enc l)))
  = if within lo hi (length l) && forallb ok l then Some l else None.
Proof.
  intros H. unfold array_of, within. rewrite length_map.
  destruct (Nat.leb lo (length l) && Nat.leb (length l) hi); [|reflexivity].
  now apply all_some_map.
Qed.

Lemma strings_roundtrip (lo hi : nat) (l : list jsstring) :
  array_of (fun x => str_between 1 220 (Some x)) lo hi (Some (strings_to_json l))
  = if within lo hi (length l) && forallb text_in_bounds l then Some l else None.
Proof. apply array_of_map. intros x. apply str_between_eq. Qed.

Lemma slots_roundtrip (l : list PrescriptionTimingSlot) :
  array_of (fun x => prescriptionTimingSlotSchema (Some x)) 1 8
    (Some (JArr (map (fun t => JStr (lit (slot_name t))) l)))
  = if within 1 8 (length l) then Some l else None.
Proof.
  rewrite (array_of_map (fun x => prescriptionTimingSlotSchema (Some x))
             (fun t => JStr (lit (slot_name t))) (fun _ => true)).
  - assert (E : forallb (fun _ : PrescriptionTimingSlot => true) l = true)
      by (induction l; auto).
    now rewrite E, andb_true_r.
  - intros t. now destruct t.
Qed.

Lemma medicine_roundtrip (m : SimplifiedMedicine) :
  prescriptionSimplifiedMedicineSchema (medicine_to_json m)
  = if medicine_in_bounds m then Some m else None.
Proof.
  destruct m as [n d u t i].
  unfold prescriptionSimplifiedMedicineSchema, medicine_to_json, medicine_in_bounds.
  cbn [medicineName dosage m_duration timingSlots instructions].
  change (only_keys _ _) with true.
  change (assoc (lit "medicineName") _) with (Some (JStr n)).
  change (assoc (lit "dosage") _) with (Some (JStr d)).
  change (assoc (lit "duration") _) with (Some (JStr u)).
  change (assoc (lit "timingSlots") _)
    with (Some (JArr (map (fun t => JStr (lit (slot_name t))) t))).
  change (assoc (lit "instructions") _) with (Some (strings_to_json i)).
  rewrite !str_between_eq, slots_roundtrip, strings_roundtrip.
  destruct (within 1 160 (length n)), (within 1 160 (length d)),
    (within 1 160 (length u)), (within 1 8 (length t)),
    (within 0 8 (length i) && forallb text_in_bounds i); reflexivity.
Qed.

(** X2. The triage schema and the serialisation of a triage result are
    inverse on the results within the schema's bounds, and the schema
    rejects the serialisation of every other result. *)
Theorem triage_schema_roundtrip (t : TriageResult) :
  symptomCheckResponseSchema (triage_to_json t)
  = if triage_in_bounds t then Some t else None.
Proof.
  destruct t as [s l e a d].
  unfold symptomCheckResponseSchema, triage_to_json, triage_in_bounds.
  cbn [summary triageLevel explanation recommendedAction disclaimer].
  change (only_keys _ _) with true.
  change (assoc (lit "summary") _) with (Some (JStr s)).
  change (assoc (lit "triageLevel") _) with (Some (JStr (lit (level_name l)))).
  change (assoc (lit "explanation") _) with (Some (JStr e)).
  change (assoc (lit "recommendedAction") _) with (Some (JStr a)).
  change (assoc (lit "disclaimer") _) with (Some (JStr d)).
  rewrite !str_between_eq.
  replace (triageLevelSchema (Some (JStr (lit (level_name l))))) with (Some l)
    by (now destruct l).
  destruct (within 5 600 (length s)), (within 5 1000 (length e)),
    (within 5 600 (length a)), (within 10 400 (length d)); reflexivity.
Qed.

(** X3. The summary schema and the serialisation of a summary are inverse
    on the summaries within the schema's bounds (label 2 to 60, explanation
    5 to 1200, 1 to 12 medicines with fields of 1 to 160, 1 to 8 slots and up
    to 8 instructions, lists of up to 10, 8 and 10 texts of 1 to 220), and
    the schema rejects the serialisation of every other summary. *)
Theorem summary_schema_roundtrip (s : SimplifiedPrescriptionSummary) :
  prescriptionSimplifyResponseSchema (summary_to_json s)
  = if summary_in_bounds s then Some s else None.
Proof.
  destruct s as [c l e m w h g].
  unfold prescriptionSimplifyResponseSchema, summary_to_json, summary_in_bounds.
  cbn [languageCode languageLabel doctorExplanation medicines warnings hydrationTips
       generalAdvice].
  change (only_keys _ _) with true.
  change (assoc (lit "languageCode") _) with (Some (JStr (lit (language_name c)))).
  change (assoc (lit "languageLabel") _) with (Some (JStr l)).
  change (assoc (lit "doctorExplanation") _) with (Some (JStr e)).
  change (assoc (lit "medicines") _) with (Some (JArr (map medicine_to_json m))).
  change (assoc (lit "warnings") _) with (Some (strings_to_json w)).
  change (assoc (lit "hydrationTips") _) with (Some (strings_to_json h)).
  change (assoc (lit "generalAdvice") _) with (Some (strings_to_json g)).
  rewrite !str_between_eq, !strings_roundtrip.
  rewrite (array_of_map prescriptionSimplifiedMedicineSchema medicine_to_json
             medicine_in_bounds 1 12 m medicine_roundtrip).
  replace (prescriptionLanguageSchema (Some (JStr (lit (language_name c))))) with (Some c)
    by (now destruct c).
  destruct (within 2 60 (length l)), (within 5 1200 (length e)),
    (within 1 12 (length m) && forallb medicine_in_bounds m),
    (within 0 10 (length w) && forallb text_in_bounds w),
    (within 0 8 (length h) && forallb text_in_bounds h),
    (within 0 10 (length g) && forallb text_in_bounds g); reflexivity.
Qed.

Lemma only_keys_rejects (allowed : list string) (fields : list (jsstring * json))
  (k : jsstring) (v : json) :
  In (k, v) fields ->
  existsb (str_eqb k) (map lit allowed) = false ->
  only_keys allowed fields = false.
Proof.
  intros Hin Hk. unfold only_keys.
  destruct (forallb _ fields) eqn:F; [|reflexivity].
  rewrite forallb_forall in F. specialize (F _ Hin). simpl in F. congruence.
Qed.

(** X4. Both response schemas are closed: an object that carries a key
    outside the shapes of the two schemas is rejected by both, whatever
    else it holds. *)
Theorem schemas_reject_unknown_keys (fields : list (jsstring * json)) (k : jsstring) (v : json) :
  In (k, v) fields ->
  existsb (str_eqb k) (map lit (triage_keys ++ summary_keys)) = false ->
  symptomCheckResponseSchema (JObj fields) = None
  /\ prescriptionSimplifyResponseSchema (JObj fields) = None.
Proof.
  intros Hin Hk. rewrite map_app, existsb_app in Hk.
  apply orb_false_iff in Hk as [K1 K2].
  pose proof (only_keys_rejects triage_keys fields k v Hin K1) as E1.
  pose proof (only_keys_rejects summary_keys fields k v Hin K2) as E2.
  unfold triage_keys in E1. unfold summary_keys in E2.
  unfold symptomCheckResponseSchema, prescriptionSimplifyResponseSchema.
  now rewrite E1, E2.
Qed.

Lemma schemas_reject_unknown_keys_witness :
  symptomCheckResponseSchema
    (JObj [ (lit "summary", JStr (lit "Mild headache.")); (lit "confidence", JStr (lit "high")) ])
  = None
  /\ prescriptionSimplifyResponseSchema
       (JObj [ (lit "summary", JStr (lit "Mild headache."));
               (lit "confidence", JStr (lit "high")) ])
     = None.
Proof.
  apply (schemas_reject_unknown_keys
           [ (lit "summary", JStr (lit "Mild headache.")); (lit "confidence", JStr (lit "high")) ]
           (lit "confidence") (JStr (lit "high"))).
  - simpl. right. left. reflexivity.
  - vm_compute. reflexivity.
Defined.

(** ** Pipelines *)



Section PipelineFacts.

Variable JSON_parse : jsstring -> option json.

(** X5. Call budget of the adapter: without a key it answers null and
    calls nothing; with a key it makes exactly one call, which carries the
    key, the model, the prompt and the temperature it was given; and the
    only errors that leave it are those of that call (rejected fetch,
    unreadable body or envelope). *)
Theorem adapter_call_budget (env : Env) (model : jsstring) (prompt : Prompt) (t : N)
  (net : nat -> FetchRequest -> FetchResult) :
  match api_key env with
  | None => run net (requestGeminiJson JSON_parse env model prompt t) = (Returned JNull, [])
  | Some key =>
      snd (run net (requestGeminiJson JSON_parse env model prompt t))
      = [ {| rq_model := model; rq_key := key; rq_prompt := prompt;
             rq_temperature_tenths := t |} ]
  end
  /\ match fst (run net (requestGeminiJson JSON_parse env model prompt t)) with
     | Returned _ => True
     | Thrown e => adapter_error e
     end.
Proof.
  split.
  - pose proof (adapter_calls JSON_parse env model prompt t) as C.
    unfold requestGeminiJson, run in *. destruct (api_key env) as [key|]; [|reflexivity].
    cbn [bind fetch run_from calls_at_most] in *.
    match goal with
    | |- context [net 0 ?rq] => specialize (C (net 0 rq))
    end.
    apply (calls_at_most_run 0 _ net 1) in C.
    destruct (run_from net 1 _) as [o cs]. cbn [snd] in *.
    destruct cs; [reflexivity | simpl in C; lia].
  - destruct (run net (requestGeminiJson JSON_parse env model prompt t)) as [[v|e] calls] eqn:R;
      [exact I|].
    exact (every_throw_run adapter_error _ net 0 e calls
             (adapter_throws JSON_parse env model prompt t) R).
Qed.

(** X6. With a key set, a response whose status is outside 200..299 makes
    the adapter answer null after its one call, whatever the body. *)
Theorem adapter_bad_status_gives_null (env : Env) (model : jsstring) (prompt : Prompt) (t : N)
  (net : nat -> FetchRequest -> FetchResult) (key : jsstring) (status : N) (body : jsstring) :
  api_key env = Some key ->
  net 0 {| rq_model := model; rq_key := key; rq_prompt := prompt;
           rq_temperature_tenths := t |} = Response status body ->
  response_ok status = false ->
  run net (requestGeminiJson JSON_parse env model prompt t)
  = (Returned JNull,
     [ {| rq_model := model; rq_key := key; rq_prompt := prompt;
          rq_temperature_tenths := t |} ]).
Proof.
  intros K R S. unfold run, requestGeminiJson. rewrite K.
  cbn [bind fetch run_from]. rewrite R. cbn [bind]. now rewrite S.
Qed.



Lemma simplifier_english_calls (env : Env) (input : SimplifyRequest) :
  language input = en ->
  calls_at_most 1 (runPrescriptionSimplifier JSON_parse env input).
Proof.
  intros L. unfold runPrescriptionSimplifier. rewrite L.
  destruct (api_key env); simpl; auto.
  apply (calls_at_most_bind 1 0); [apply adapter_calls|].
  intros v. destruct (json_truthy v); simpl; auto.
  destruct (prescriptionSimplifyResponseSchema v); simpl; auto.
Qed.

(** X9. An English request never triggers the translation retry: the
    simplifier makes at most one call for it, since the alignment check
    accepts every summary when the target is English. *)
Theorem english_request_single_call (env : Env) (input : SimplifyRequest)
  (net : nat -> FetchRequest -> FetchResult) :
  language input = en ->
  length (snd (run net (runPrescriptionSimplifier JSON_parse env input))) <= 1.
Proof. intros L. now apply calls_at_most_run, simplifier_english_calls. Qed.

End PipelineFacts.

Lemma adapter_bad_status_gives_null_witness :
  run (net_status 503 "Service Unavailable")
    (requestGeminiJson parse_nothing with_key (lit "gemini-2.5-flash")
       (SimplifyPrompt en paracetamol_text) 2)
  = (Returned JNull,
     [ {| rq_model := lit "gemini-2.5-flash"; rq_key := lit "secret";
          rq_prompt := SimplifyPrompt en paracetamol_text; rq_temperature_tenths := 2 |} ]).
Proof.
  apply (adapter_bad_status_gives_null parse_nothing with_key (lit "gemini-2.5-flash")
           (SimplifyPrompt en paracetamol_text) 2 (net_status 503 "Service Unavailable")
           (lit "secret") 503 (lit "Service Unavailable")); reflexivity.
Defined.


Lemma english_request_single_call_witness :
  length (snd (run (net_always "envelope")
                 (runPrescriptionSimplifier mislabelling_parser with_key english_request)))
  <= 1.
Proof.
  apply (english_request_single_call mislabelling_parser with_key english_request
           (net_always "envelope")).
  reflexivity.
Defined.

(** ** Language alignment verifier *)

(** X10. What the alignment check decides: English is always accepted;
    for Hindi, Tamil and Bengali a summary is accepted exactly when its
    narrative holds a code unit of the target script and at most one Latin
    letter. *)
Theorem alignment_check_behaviour (summary : SimplifiedPrescriptionSummary)
  (lang : PrescriptionLanguageCode) :
  isPrescriptionLanguageAligned summary lang
  = match lang with
    | en => true
    | _ =>
        existsb (is_script lang) (prescriptionNarrativeText summary)
        && Nat.leb (length (filter is_latin (prescriptionNarrativeText summary))) 1
    end.
Proof. destruct lang; [reflexivity| | |]; apply aligned_iff; discriminate. Qed.

(** ** Timing slots *)

(** X11. The timing slots of a text are one to four distinct slots:
    [AS_NEEDED] alone, [UNSPECIFIED] alone, or day-part slots that all
    carry the same meal relation, possibly with BEDTIME; and a before-food
    slot is produced only when the text mentions before food (or an empty
    stomach) and does not mention after food, every other day part being
    marked after food. *)
Theorem timing_slots_uniform (text : jsstring) :
  (extractTimingSlotsFromText text = [ AS_NEEDED ]
   \/ extractTimingSlotsFromText text = [ UNSPECIFIED ]
   \/ all_among after_food_slots (extractTimingSlotsFromText text) = true
   \/ (all_among before_food_slots (extractTimingSlotsFromText text) = true
       /\ test afterMealRegex (toLowerCase text) = false
       /\ test beforeMealRegex (toLowerCase text) = true))
  /\ within 1 4 (length (extractTimingSlotsFromText text)) = true
  /\ distinct_slots (extractTimingSlotsFromText text) = true.
Proof.
  unfold extractTimingSlotsFromText.
  destruct (test asNeededRegex (toLowerCase text)); [split_all; auto; reflexivity|].
  destruct (test afterMealRegex (toLowerCase text)),
           (test beforeMealRegex (toLowerCase text)),
           (test morningRegex (toLowerCase text)),
           (test afternoonRegex (toLowerCase text)),
           (test nightRegex (toLowerCase text)),
           (test thriceRegex (toLowerCase text)),
           (test twiceRegex (toLowerCase text)),
           (test onceRegex (toLowerCase text)),
           (test bedtimeRegex (toLowerCase text));
    cbn; (split; [|split; reflexivity]);
    first [ right; left; reflexivity
          | right; right; left; reflexivity
          | right; right; right; repeat split; reflexivity ].
Qed.

(** ** Texts without digits *)

Lemma is_digit_lower (x : cu) : is_digit (lower_cu x) = is_digit x.
Proof.
  unfold lower_cu. destruct (is_upper x) eqn:U; [|reflexivity].
  unfold is_upper, in_range in U. apply andb_true_iff in U as [U1 U2].
  apply N.leb_le in U1, U2.
  assert (W : forall y, (65 <= y <= 122)%N -> is_digit y = false).
  { intros y Hy. unfold is_digit, in_range. class_false. }
  rewrite (W x), (W (x + 32)%N); [reflexivity | lia | lia].
Qed.

Lemma no_digit_lower_units (x : cu) : no_digit (lower_units x) = negb (is_digit x).
Proof.
  unfold lower_units.
  destruct (N.eqb x 304) eqn:E1; [apply N.eqb_eq in E1; now subst x|].
  destruct (N.eqb x 8490) eqn:E2; [apply N.eqb_eq in E2; now subst x|].
  unfold no_digit. cbn [forallb]. now rewrite is_digit_lower, andb_true_r.
Qed.

Lemma no_digit_lower (s : jsstring) : no_digit (toLowerCase s) = no_digit s.
Proof.
  induction s as [|x s IH]; [reflexivity|].
  rewrite toLowerCase_cons. unfold no_digit in *. rewrite forallb_app.
  fold (no_digit (lower_units x)). rewrite no_digit_lower_units. cbn [forallb].
  now rewrite IH.
Qed.

Lemma no_digit_collapse (s : jsstring) (b : bool) :
  no_digit s = true -> no_digit (collapse_from b s) = true.
Proof.
  unfold no_digit. revert b. induction s as [|x s IH]; intros b H; [reflexivity|].
  simpl in *. apply andb_true_iff in H as [H1 H2].
  destruct (is_ws x); [destruct b|]; simpl; rewrite ?H1; simpl; auto.
Qed.

Lemma no_digit_app (a b : jsstring) : no_digit (a ++ b) = no_digit a && no_digit b.
Proof. apply forallb_app. Qed.

Lemma no_digit_trim (s : jsstring) : no_digit s = true -> no_digit (trim s) = true.
Proof.
  intros H. unfold trim.
  destruct (trimStart_split s) as (k1 & E1 & _).
  destruct (trimEnd_split (trimStart s)) as (k2 & E2 & _).
  rewrite E1, E2, !no_digit_app in H.
  apply andb_true_iff in H as [_ H]. now apply andb_true_iff in H as [H _].
Qed.

Lemma no_digit_sanitize (s : jsstring) :
  no_digit s = true -> no_digit (sanitizeTriageText s) = true.
Proof. intros H. now apply no_digit_trim, no_digit_collapse. Qed.

Lemma no_digit_suffix_head (s' s : jsstring) :
  suffix_of s' s -> no_digit s = true ->
  match hd_error s' with Some x => is_digit x = false | None => True end.
Proof.
  intros [pre ->] H. rewrite no_digit_app in H. apply andb_true_iff in H as [_ H].
  destruct s' as [|x s']; [exact I|]. simpl in *.
  apply andb_true_iff in H as [H _]. now apply negb_true_iff in H.
Qed.

Lemma digits_blocked (r : regex) (next : option cu) :
  match next with Some x => is_digit x = false | None => True end ->
  blocked (Seq (plus digit) r) next = true.
Proof. destruct next as [x|]; [|reflexivity]. simpl. now intros ->. Qed.

Lemma countOf_needs_digit (units : list string) (s : jsstring) :
  no_digit s = true -> exec (countOf units) s = None.
Proof.
  intros H. unfold exec. apply search_none. intros p s' Hs'.
  unfold match_here. apply mt_blocked. unfold countOf. cbn [seq_of blocked].
  apply (digits_blocked Empty). now apply (no_digit_suffix_head s' s).
Qed.

(** X12. A duration text without any digit has no duration in days: the
    portal reads null from it, as it does from the default durations of
    the phrase table. *)
Theorem duration_without_digit (value : jsstring) :
  no_digit value = true -> durationDaysFromText value = None.
Proof.
  intros H. unfold durationDaysFromText, dayRegex, weekRegex, monthRegex.
  now rewrite !countOf_needs_digit.
Qed.

Lemma duration_without_digit_witness :
  durationDaysFromText (Phrases.defaultDuration (prescriptionFallbackByLanguage en)) = None.
Proof.
  apply (duration_without_digit (Phrases.defaultDuration (prescriptionFallbackByLanguage en))).
  reflexivity.
Defined.

Lemma day_units_found (u : jsstring) :
  u = lit "day" \/ u = lit "days" ->
  forall p c, exists rest,
    mt (alt_of (map str_ci [ "day"; "days" ]%string)) p u c (fun _ s' c' => Some (s', c'))
    = Some (rest, c).
Proof. intros [->| ->] p c; eexists; reflexivity. Qed.


Lemma medicine_needs_digit (s : jsstring) :
  no_digit s = true -> exec medicineRegex s = None.
Proof.
  intros H. unfold exec. apply search_none. intros p s' Hs'.
  unfold match_here, medicineRegex. cbn [seq_of]. rewrite mt_seq.
  apply mt_none. intros p1 s1 c1 H1. rewrite mt_seq.
  apply mt_none. intros p2 s2 c2 H2. rewrite mt_seq.
  apply mt_none. intros p3 s3 c3 H3. rewrite mt_seq.
  apply mt_none. intros p4 s4 c4 H4.
  apply mt_blocked.
  assert (D : suffix_of s4 s)
    by (repeat match goal with
               | Hx : suffix_of ?a ?b |- suffix_of ?a _ =>
                   first [ exact Hx | apply (suffix_of_trans a b); [exact Hx|] ]
               end).
  apply no_digit_suffix_head in D; [|exact H].
  destruct (hd_error s4) as [x|]; [|reflexivity].
  change (negb (is_digit x) = true). now rewrite D.
Qed.

Lemma duration_needs_digit (s : jsstring) :
  no_digit s = true -> exec durationRegex s = None.
Proof.
  intros H. unfold exec. apply search_none. intros p s' Hs'.
  unfold match_here, durationRegex. cbn [seq_of]. rewrite mt_seq.
  apply mt_none. intros p1 s1 c1 H1. rewrite mt_seq.
  apply mt_none. intros p2 s2 c2 H2. rewrite mt_seq.
  apply mt_none. intros p3 s3 c3 H3.
  apply mt_blocked.
  assert (D : suffix_of s3 s)
    by (repeat match goal with
               | Hx : suffix_of ?a ?b |- suffix_of ?a _ =>
                   first [ exact Hx | apply (suffix_of_trans a b); [exact Hx|] ]
               end).
  apply no_digit_suffix_head in D; [|exact H].
  destruct (hd_error s3) as [x|]; [|reflexivity].
  change (negb (is_digit x) = true). now rewrite D.
Qed.

(** X14. For a prescription text without any digit the extractor finds no
    medicine and no duration, and the single medicine of the fallback
    summary carries the default name, dosage and duration of the requested
    language's phrase table. *)
Theorem fallback_defaults_without_digit (input : SimplifyRequest) :
  no_digit (text input) = true ->
  map (fun m => (medicineName m, dosage m, m_duration m))
    (medicines (fallbackPrescriptionSummary input))
  = [ (Phrases.defaultMedicine (prescriptionFallbackByLanguage (language input)),
       Phrases.defaultDosage (prescriptionFallbackByLanguage (language input)),
       Phrases.defaultDuration (prescriptionFallbackByLanguage (language input))) ].
Proof.
  intros H. apply no_digit_sanitize in H.
  unfold fallbackPrescriptionSummary. cbn [medicines map medicineName dosage m_duration].
  rewrite (medicine_needs_digit _ H).
  rewrite (duration_needs_digit (toLowerCase (sanitizeTriageText (text input))))
    by (now rewrite no_digit_lower).
  reflexivity.
Qed.

Lemma fallback_defaults_without_digit_witness :
  map (fun m => (medicineName m, dosage m, m_duration m))
    (medicines (fallbackPrescriptionSummary rest_request))
  = [ (Phrases.defaultMedicine (prescriptionFallbackByLanguage (language rest_request)),
       Phrases.defaultDosage (prescriptionFallbackByLanguage (language rest_request)),
       Phrases.defaultDuration (prescriptionFallbackByLanguage (language rest_request))) ].
Proof.
  apply (fallback_defaults_without_digit rest_request). vm_compute. reflexivity.
Defined.

(** ** The client's triage normaliser *)

Lemma trim_trimmed (s : jsstring) : trimmed (trim s) = true.
Proof.
  unfold trim, trimmed.
  destruct (trimEnd (trimStart s)) as [|x t] eqn:E; [reflexivity|].
  pose proof (trimEnd_last (trimStart s)) as L. rewrite E in L.
  rewrite L by discriminate.
  destruct (trimEnd_keeps_head _ _ _ E) as [t' E'].
  pose proof (trimStart_head s) as H. rewrite E' in H. now rewrite H.
Qed.

Lemma toNonEmptyString_presentable (value : option json) (fallback : jsstring) :
  presentable fallback = true ->
  presentable (TriageLib.toNonEmptyString value fallback) = true.
Proof.
  intros F. unfold TriageLib.toNonEmptyString.
  destruct value as [[| | |s| |]|]; try exact F.
  cbv zeta. destruct (truthy (trim s)) eqn:T; [|exact F].
  unfold presentable. now rewrite T, trim_trimmed.
Qed.

Lemma defaultRecommendedAction_presentable (level : TriageLevel) :
  presentable (TriageLib.defaultRecommendedAction level) = true.
Proof. destruct level; reflexivity. Qed.

Lemma toNonEmptyString_keeps (s fallback : jsstring) :
  presentable s = true -> TriageLib.toNonEmptyString (Some (JStr s)) fallback = s.
Proof.
  unfold presentable, TriageLib.toNonEmptyString. intros H.
  apply andb_true_iff in H as [H1 H2]. cbv zeta.
  rewrite (trim_fixed s H2). now rewrite H1.
Qed.

Lemma parseTriageLevel_level_name (l : TriageLevel) :
  TriageLib.parseTriageLevel (Some (JStr (lit (level_name l)))) = Some l.
Proof. destruct l; reflexivity. Qed.

Lemma normalize_presentable (t : TriageResult) :
  presentable_result t = true ->
  TriageLib.normalizeSymptomTriage (triage_to_json t) = Some t.
Proof.
  unfold presentable_result. intros H.
  apply andb_true_iff in H as [H Hd]. apply andb_true_iff in H as [H Ha].
  apply andb_true_iff in H as [Hs He].
  destruct t as [s l e a d]. cbn [summary explanation recommendedAction disclaimer] in *.
  unfold TriageLib.normalizeSymptomTriage, triage_to_json.
  cbn [summary triageLevel explanation recommendedAction disclaimer].
  change (prop "triageLevel" (JObj ?f)) with (Some (JStr (lit (level_name l)))).
  rewrite parseTriageLevel_level_name.
  change (prop "summary" (JObj ?f)) with (Some (JStr s)).
  change (prop "explanation" (JObj ?f)) with (Some (JStr e)).
  change (prop "recommendedAction" (JObj ?f)) with (Some (JStr a)).
  change (prop "disclaimer" (JObj ?f)) with (Some (JStr d)).
  now rewrite !toNonEmptyString_keeps.
Qed.

Lemma presentable_wrapped (x y : cu) (body : jsstring) :
  is_ws x = false -> is_ws y = false -> presentable (x :: body ++ [y]) = true.
Proof.
  intros Hx Hy. unfold presentable, trimmed. cbn [truthy andb].
  rewrite Hx. rewrite app_comm_cons, last_last. now rewrite Hy.
Qed.

(** X15. Whatever value the client's normaliser accepts, the triage it
    returns has a summary, an explanation, a recommended action and a
    disclaimer that are not empty and carry no white space at either end. *)
Theorem normalized_triage_presentable (value : json) (t : TriageResult) :
  TriageLib.normalizeSymptomTriage value = Some t ->
  presentable_result t = true.
Proof.
  unfold TriageLib.normalizeSymptomTriage. intros H.
  assert (P : forall v f, presentable f = true ->
                presentable (TriageLib.toNonEmptyString v f) = true)
    by exact toNonEmptyString_presentable.
  assert (D := defaultRecommendedAction_presentable).
  destruct value as [| | | |items|fields]; try discriminate;
    destruct (TriageLib.parseTriageLevel _) as [level|];
    try (destruct (TriageLib.parseLegacySeverity _) as [sev|]; [|discriminate]);
    injection H as <-; unfold presentable_result;
    cbn [summary explanation recommendedAction disclaimer];
    rewrite ?P, ?D by (reflexivity || apply D); reflexivity.
Qed.

Lemma normalized_triage_presentable_witness :
  presentable_result
    {| summary := lit "Symptoms were reviewed for triage.";
       triageLevel := RED;
       explanation := lit "Go to hospital";
       recommendedAction := TriageLib.defaultRecommendedAction RED;
       disclaimer := TriageLib.DEFAULT_DISCLAIMER |} = true.
Proof.
  apply (normalized_triage_presentable legacy_entry). reflexivity.
Defined.

(** X16. A triage result of the server whose four texts are not empty and
    have no white space at either end comes out of the client's normaliser
    exactly as the server sent it. *)
Theorem client_keeps_presentable_result (t : TriageResult) :
  presentable_result t = true ->
  TriageLib.normalizeSymptomTriage (triage_to_json t) = Some t.
Proof. exact (normalize_presentable t). Qed.

Lemma client_keeps_presentable_result_witness :
  TriageLib.normalizeSymptomTriage (triage_to_json createRuleBasedSafetyRefusalResponse)
  = Some createRuleBasedSafetyRefusalResponse.
Proof.
  apply (client_keeps_presentable_result createRuleBasedSafetyRefusalResponse). reflexivity.
Defined.

(** X17. The emergency result the server's rules build is shown by the
    client unchanged, whatever reason the rule gives: level RED, the
    server's own texts and its action with the emergency number. *)
Theorem client_keeps_rule_based_red (reason : jsstring) :
  TriageLib.normalizeSymptomTriage (triage_to_json (createRuleBasedRedResponse reason))
  = Some (createRuleBasedRedResponse reason)
  /\ triageLevel (createRuleBasedRedResponse reason) = RED.
Proof.
  split; [|reflexivity]. apply normalize_presentable.
  unfold presentable_result, createRuleBasedRedResponse.
  cbn [summary explanation recommendedAction disclaimer].
  assert (E : presentable
                (lit "The message includes emergency indicators (" ++ reason
                   ++ lit ") that can be life-threatening.") = true).
  { change (lit "The message includes emergency indicators (")
      with (84%N :: lit "he message includes emergency indicators (").
    change (lit ") that can be life-threatening.")
      with (lit ") that can be life-threatening" ++ [46%N]).
    cbn [app].
    replace (lit "he message includes emergency indicators (" ++ reason
               ++ lit ") that can be life-threatening" ++ [46%N])
      with ((lit "he message includes emergency indicators (" ++ reason
               ++ lit ") that can be life-threatening") ++ [46%N])
      by (now rewrite <- !app_assoc).
    now apply presentable_wrapped. }
  rewrite E. reflexivity.
Qed.

(** X18. An entry of the former format is shown with the action of its
    mapped level: the action stored in the entry is not read; a valid
    triageLevel takes precedence over the severity. *)
Theorem legacy_entry_action (fields : list (jsstring * json)) (t : TriageResult) :
  TriageLib.parseTriageLevel (assoc (lit "triageLevel") fields) = None ->
  TriageLib.normalizeSymptomTriage (JObj fields) = Some t ->
  recommendedAction t = TriageLib.defaultRecommendedAction (triageLevel t)
  /\ exists severity,
       TriageLib.parseLegacySeverity (assoc (lit "severity") fields) = Some severity
       /\ triageLevel t = TriageLib.LEGACY_SEVERITY_TO_LEVEL severity.
Proof.
  intros L H. unfold TriageLib.normalizeSymptomTriage in H.
  change (prop "triageLevel" (JObj fields)) with (assoc (lit "triageLevel") fields) in H.
  rewrite L in H.
  change (prop "severity" (JObj fields)) with (assoc (lit "severity") fields) in H.
  destruct (TriageLib.parseLegacySeverity (assoc (lit "severity") fields)) as [sev|];
    [|discriminate].
  injection H as <-. split; [reflexivity|]. now exists sev.
Qed.

Lemma legacy_entry_action_witness :
  recommendedAction
    {| summary := lit "Symptoms were reviewed for triage.";
       triageLevel := RED;
       explanation := lit "Go to hospital";
       recommendedAction := TriageLib.defaultRecommendedAction RED;
       disclaimer := TriageLib.DEFAULT_DISCLAIMER |}
  = TriageLib.defaultRecommendedAction RED
  /\ exists severity,
       TriageLib.parseLegacySeverity
         (assoc (lit "severity")
            [ (lit "severity", JStr (lit " emergency "));
              (lit "summary", JStr (lit "   "));
              (lit "urgencyLabel", JStr (lit "Go to hospital"));
              (lit "recommendedAction", JStr (lit "Rest at home")) ]) = Some severity
       /\ RED = TriageLib.LEGACY_SEVERITY_TO_LEVEL severity.
Proof.
  apply (legacy_entry_action
           [ (lit "severity", JStr (lit " emergency "));
             (lit "summary", JStr (lit "   "));
             (lit "urgencyLabel", JStr (lit "Go to hospital"));
             (lit "recommendedAction", JStr (lit "Rest at home")) ]
           {| summary := lit "Symptoms were reviewed for triage.";
              triageLevel := RED;
              explanation := lit "Go to hospital";
              recommendedAction := TriageLib.defaultRecommendedAction RED;
              disclaimer := TriageLib.DEFAULT_DISCLAIMER |});
    reflexivity.
Defined.

(** ** The JSON block of an answer *)

Section StarAny.

Variable R : Type.

(** A greedy star over every code unit gives the input back to the rest of
    the pattern from the end, and so stops at the last position where the
    rest of the pattern succeeds. *)
Lemma star_any_last (k : cont R) (rest : jsstring) (c : captures) (x : R) :
  (forall p, k p rest c = Some x) ->
  (forall p s' c', suffix_of s' rest -> length s' < length rest -> k p s' c' = None) ->
  forall (taken : jsstring) (n : nat) (p : option cu),
    length taken <= n ->
    star_loop (mt any) k n p (taken ++ rest) c = Some x.
Proof.
  intros Hk Hlater. induction taken as [|a taken IH]; intros n p Hn.
  - cbn [app]. destruct n as [|n]; [apply Hk|]. rewrite star_loop_S.
    destruct rest as [|y rest']; [cbn; apply Hk|].
    unfold any at 1. rewrite mt_class_cons.
    assert (L : Nat.ltb (length rest') (length (y :: rest')) = true)
      by (apply Nat.ltb_lt; simpl; lia).
    rewrite L.
    rewrite (star_loop_none R (mt any) k rest'); [apply Hk| | |exists []; reflexivity].
    + intros p0 s0 c0 k0 _ H0. now apply mt_none.
    + intros p' s' c' Hs'. apply Hlater.
      * eapply suffix_of_trans; [exact Hs'|apply suffix_of_tail].
      * destruct Hs' as [q ->]. simpl. rewrite length_app. lia.
  - destruct n as [|n]; [simpl in Hn; lia|]. rewrite star_loop_S.
    cbn [app]. unfold any at 1. rewrite mt_class_cons.
    assert (L : Nat.ltb (length (taken ++ rest)) (length (a :: taken ++ rest)) = true)
      by (apply Nat.ltb_lt; simpl; lia).
    rewrite L. rewrite IH; [reflexivity|simpl in Hn; lia].
Qed.

End StarAny.

Lemma last_opt_cons (p : option cu) (y : cu) (s : jsstring) :
  last_opt p (y :: s) = last_opt (Some y) s.
Proof. destruct s; reflexivity. Qed.

(** The search passes over every position where the pattern cannot start. *)
Lemma search_skip (r : regex) (pre s : jsstring) :
  forallb (fun x => blocked r (Some x)) pre = true ->
  forall p idx,
    search_from r p (pre ++ s) idx = search_from r (last_opt p pre) s (idx + length pre).
Proof.
  induction pre as [|y pre IH]; intros H p idx.
  - cbn. now rewrite Nat.add_0_r.
  - simpl in H. apply andb_true_iff in H as [H1 H2].
    rewrite search_from_unfold. cbn [app]. unfold match_here.
    rewrite mt_blocked by exact H1.
    rewrite IH by exact H2. rewrite last_opt_cons. f_equal. simpl. lia.
Qed.

(** X19. In an answer that is not JSON as a whole, the block the adapter
    parses instead runs from the first opening brace of the text to its
    last closing brace, inner braces included. *)
Theorem json_block_spans_braces (pre mid post : jsstring) :
  without 123%N pre = true ->
  without 125%N post = true ->
  exists m,
    exec jsonBlockRegex (pre ++ lit "{" ++ mid ++ lit "}" ++ post) = Some m
    /\ m_index m = length pre
    /\ m_text m = lit "{" ++ mid ++ lit "}"
    /\ m_rest m = post.
Proof.
  intros Hpre Hpost.
  change jsonBlockRegex with (Seq (chr 123%N) (Seq (Star any) (chr 125%N))).
  change (lit "{") with [123%N]. change (lit "}") with [125%N]. cbn [app].
  unfold exec. rewrite search_skip by exact Hpre.
  rewrite search_from_unfold. unfold match_here.
  rewrite mt_seq. unfold chr at 1. rewrite mt_class_cons.
  change (cu_eqb 123%N 123%N) with true. cbv iota. rewrite mt_seq. cbn [mt].
  rewrite (star_any_last (jsstring * captures)
             (fun p' s' c' => mt (chr 125%N) p' s' c' (fun _ s0 c0 => Some (s0, c0)))
             (125%N :: post) [] (post, []) ) with (taken := mid).
  - eexists. split; [reflexivity|]. cbn [m_index m_text m_rest]. split; [reflexivity|].
    split; [|reflexivity].
    change (123%N :: mid ++ 125%N :: post) with ((123%N :: mid) ++ 125%N :: post).
    replace ((123%N :: mid) ++ 125%N :: post) with (((123%N :: mid) ++ [125%N]) ++ post)
      by (now rewrite <- app_assoc).
    apply firstn_prefix.
  - intros p. unfold chr. rewrite mt_class_cons. reflexivity.
  - intros p s' c' [q E] L.
    destruct q as [|z q]; [cbn in E; subst s'; lia|].
    injection E as _ E. unfold chr.
    destruct s' as [|y s']; [apply mt_class_nil|]. rewrite mt_class_cons.
    unfold without in Hpost. rewrite E, forallb_app in Hpost.
    apply andb_true_iff in Hpost as [_ Hpost]. cbn [forallb] in Hpost.
    apply andb_true_iff in Hpost as [Hy _]. apply negb_true_iff in Hy. now rewrite Hy.
  - rewrite length_app. lia.
Qed.

Lemma json_block_spans_braces_witness :
  exists m,
    exec jsonBlockRegex (lit "Here: " ++ lit "{" ++ lit "a:{b},c:{d}" ++ lit "}" ++ lit " ok")
    = Some m
    /\ m_index m = length (lit "Here: ")
    /\ m_text m = lit "{" ++ lit "a:{b},c:{d}" ++ lit "}"
    /\ m_rest m = lit " ok".
Proof.
  apply (json_block_spans_braces (lit "Here: ") (lit "a:{b},c:{d}") (lit " ok"));
    reflexivity.
Defined.

(** ** File names *)

Lemma filename_safe_not_ws (x : cu) : filename_safe x = true -> is_ws x = false.
Proof.
  unfold filename_safe, is_latin, is_upper, is_lower, is_digit, in_range. intros H.
  repeat (apply orb_true_iff in H; destruct H as [H|H]);
    try (apply andb_true_iff in H; destruct H as [H1 H2];
         apply N.leb_le in H1; apply N.leb_le in H2);
    try (apply N.eqb_eq in H);
    unfold is_ws, in_range; class_false.
Qed.

Lemma replace_runs_safe (in_run : bool) (s : jsstring) :
  forallb filename_safe (replace_runs (fun x => negb (filename_safe x)) 95%N in_run s) = true.
Proof.
  revert in_run. induction s as [|x s IH]; intros in_run; [reflexivity|].
  cbn [replace_runs]. destruct (filename_safe x) eqn:F; cbn [negb].
  - cbn [forallb]. now rewrite F, IH.
  - destruct in_run; [apply IH|]. cbn [forallb]. now rewrite IH.
Qed.

Lemma replace_runs_fixed (in_run : bool) (s : jsstring) :
  forallb filename_safe s = true ->
  replace_runs (fun x => negb (filename_safe x)) 95%N in_run s = s.
Proof.
  revert in_run. induction s as [|x s IH]; intros in_run H; [reflexivity|].
  simpl in H. apply andb_true_iff in H as [H1 H2].
  cbn [replace_runs]. rewrite H1. cbn [negb]. now rewrite IH.
Qed.

Lemma replace_runs_nonempty (x : cu) (s : jsstring) :
  replace_runs (fun y => negb (filename_safe y)) 95%N false (x :: s) <> [].
Proof. cbn [replace_runs]. destruct (negb (filename_safe x)); discriminate. Qed.

Lemma safe_presentable (s : jsstring) :
  s <> [] -> forallb filename_safe s = true -> trim s = s.
Proof.
  intros Hne H. apply trim_fixed. unfold trimmed.
  destruct s as [|x t]; [reflexivity|].
  assert (Hx : is_ws x = false).
  { simpl in H. apply andb_true_iff in H as [H _]. now apply filename_safe_not_ws. }
  assert (Hl : is_ws (last (x :: t) 0%N) = false).
  { destruct (exists_last (l := x :: t)) as (k & y & E); [discriminate|].
    rewrite E in *. rewrite last_last. rewrite forallb_app in H.
    apply andb_true_iff in H as [_ H]. simpl in H.
    apply andb_true_iff in H as [H _]. now apply filename_safe_not_ws. }
  now rewrite Hx, Hl.
Qed.

Lemma forallb_firstn {A : Type} (f : A -> bool) (n : nat) (l : list A) :
  forallb f l = true -> forallb f (firstn n l) = true.
Proof.
  revert n. induction l as [|x l IH]; intros [|n] H; try reflexivity.
  simpl in *. apply andb_true_iff in H as [H1 H2]. now rewrite H1, IH.
Qed.

Lemma sanitizeFilename_of_safe (s : jsstring) :
  s <> [] -> forallb filename_safe s = true -> length s <= 120 ->
  sanitizeFilename s = s.
Proof.
  intros Hne H L. unfold sanitizeFilename. cbv zeta.
  rewrite (replace_runs_fixed false s H), (safe_presentable s Hne H).
  destruct s as [|x t]; [congruence|]. cbn [truthy negb].
  now apply firstn_all2.
Qed.

(** X20. Whatever name an upload carries, the sanitised file name is not
    empty, has 120 code units at most, consists of ASCII letters, digits,
    dots, underscores and hyphens only (so it holds no path separator and
    no white space), and sanitising it again changes nothing. *)
Theorem sanitized_filename_safe (value : jsstring) :
  sanitizeFilename value <> []
  /\ length (sanitizeFilename value) <= 120
  /\ forallb filename_safe (sanitizeFilename value) = true
  /\ sanitizeFilename (sanitizeFilename value) = sanitizeFilename value.
Proof.
  assert (G : sanitizeFilename value <> []
              /\ length (sanitizeFilename value) <= 120
              /\ forallb filename_safe (sanitizeFilename value) = true).
  { unfold sanitizeFilename. cbv zeta.
    destruct value as [|x s].
    - cbn. split_all; [discriminate | lia | reflexivity].
    - pose proof (replace_runs_nonempty x s) as Hne.
      pose proof (replace_runs_safe false (x :: s)) as Hsafe.
      set (safe := replace_runs (fun y => negb (filename_safe y)) 95%N false (x :: s)) in *.
      rewrite (safe_presentable safe Hne Hsafe).
      destruct safe as [|y t] eqn:E; [congruence|]. cbn [truthy negb].
      split_all.
      + discriminate.
      + apply firstn_le_length.
      + now apply forallb_firstn. }
  destruct G as (G1 & G2 & G3). split_all; auto.
  now apply sanitizeFilename_of_safe.
Qed.

(** ** The acting user *)

(** X21. A request is granted an acting user only if it names, in a header
    that is not empty, a user of the table whose role is among the roles
    asked for and who is a patient, an administrator or approved; the user
    granted is the one of the table, and a list of roles only narrows what
    the call without one grants. *)
Theorem actor_granted_only_if (findUnique : jsstring -> option UserRow)
  (header : option jsstring) (roles : option (list UserRole)) (user : UserRow) :
  getActor findUnique header roles = ActorUser user ->
  (exists userId,
      header = Some userId /\ userId <> [] /\ findUnique userId = Some user)
  /\ match roles with
     | Some allowed => existsb (role_eqb (u_role user)) allowed = true
     | None => True
     end
  /\ (u_role user = PATIENT \/ u_role user = ADMIN \/ u_approvalState user = lit "APPROVED")
  /\ getActor findUnique header None = ActorUser user.
Proof.
  unfold getActor. intros H.
  destruct header as [userId|]; [|discriminate].
  destruct userId as [|x userId]; [discriminate|]. cbn [truthy negb] in *.
  destruct (findUnique (x :: userId)) as [[id role state]|] eqn:F; [|discriminate].
  cbv zeta in *. cbn [u_role u_id u_approvalState] in *.
  destruct (match roles with
            | Some allowed => negb (existsb (role_eqb role) allowed)
            | None => false
            end) eqn:A; [discriminate|].
  destruct (negb (role_eqb role PATIENT) && negb (role_eqb role ADMIN)
            && negb (str_eqb state (lit "APPROVED"))) eqn:P; [discriminate|].
  injection H as <-. cbn [u_role u_approvalState]. split_all.
  - exists (x :: userId). split_all; [reflexivity | discriminate | exact F].
  - destruct roles as [allowed|]; [|exact I]. now apply negb_false_iff in A.
  - destruct role; auto; right; right; simpl in P;
      apply negb_false_iff in P; now apply str_eqb_eq.
  - reflexivity.
Qed.

Lemma actor_granted_only_if_witness :
  (exists userId,
      Some (lit "d1") = Some userId /\ userId <> []
      /\ two_users userId
         = Some {| u_id := lit "d1"; u_role := DOCTOR; u_approvalState := lit "APPROVED" |})
  /\ existsb (role_eqb DOCTOR) [ DOCTOR; ADMIN ] = true
  /\ (DOCTOR = PATIENT \/ DOCTOR = ADMIN \/ lit "APPROVED" = lit "APPROVED")
  /\ getActor two_users (Some (lit "d1")) None
     = ActorUser {| u_id := lit "d1"; u_role := DOCTOR; u_approvalState := lit "APPROVED" |}.
Proof.
  apply (actor_granted_only_if two_users (Some (lit "d1")) (Some [ DOCTOR; ADMIN ])
           {| u_id := lit "d1"; u_role := DOCTOR; u_approvalState := lit "APPROVED" |}).
  reflexivity.
Defined.



(** ** Lookup keys *)

Lemma trimStart_collapse (b : bool) (s : jsstring) :
  trimStart (collapse_from b s) = collapse_from false (trimStart s).
Proof.
  revert b. induction s as [|x s IH]; intros b; [reflexivity|].
  cbn [collapse_from trimStart]. destruct (is_ws x) eqn:W.
  - destruct b; [apply IH|]. cbn [trimStart].
    change (is_ws 32%N) with true. cbv iota. apply IH.
  - cbn [trimStart collapse_from]. now rewrite W.
Qed.

Lemma trimStart_skip (a r : jsstring) :
  forallb is_ws a = true -> trimStart (a ++ r) = trimStart r.
Proof.
  induction a as [|x a IH]; intros H; [reflexivity|].
  simpl in H. apply andb_true_iff in H as [H1 H2].
  cbn [app trimStart]. rewrite H1. now apply IH.
Qed.

Lemma trimEnd_core (core : jsstring) (y : cu) (tail : jsstring) :
  is_ws y = false -> forallb is_ws tail = true ->
  trimEnd (core ++ y :: tail) = core ++ [y].
Proof.
  intros Hy Ht. unfold trimEnd.
  rewrite rev_app_distr. cbn [rev]. rewrite <- app_assoc. cbn [app].
  rewrite trimStart_skip.
  - cbn [trimStart]. rewrite Hy. cbn [rev]. now rewrite rev_involutive.
  - rewrite forallb_forall in *. intros x Hx. apply Ht. now apply in_rev.
Qed.

Lemma trimEnd_blank (s : jsstring) : forallb is_ws s = true -> trimEnd s = [].
Proof.
  intros H. unfold trimEnd.
  rewrite <- (app_nil_r (rev s)), trimStart_skip; [reflexivity|].
  rewrite forallb_forall in *. intros x Hx. apply H. now apply in_rev.
Qed.

Lemma collapse_blank (b : bool) (s : jsstring) :
  forallb is_ws s = true -> forallb is_ws (collapse_from b s) = true.
Proof.
  revert b. induction s as [|x s IH]; intros b H; [reflexivity|].
  simpl in H. apply andb_true_iff in H as [H1 H2].
  cbn [collapse_from]. rewrite H1. destruct b; [now apply IH|].
  cbn [forallb]. change (is_ws 32%N) with true. now apply IH.
Qed.

Lemma trimEnd_collapse (b : bool) (s : jsstring) :
  trimEnd (collapse_from b s) = collapse_from b (trimEnd s).
Proof.
  destruct (trimEnd_split s) as (tail & E & Ht).
  pose proof (trimEnd_last s) as L.
  destruct (trimEnd s) as [|c0 core] eqn:C.
  - cbn [app] in E. subst s. cbn [collapse_from].
    now apply trimEnd_blank, collapse_blank.
  - specialize (L ltac:(discriminate)).
    destruct (exists_last (l := c0 :: core)) as (front & y & F); [discriminate|].
    rewrite F in *. rewrite last_last in L.
    rewrite E at 1. rewrite <- app_assoc. cbn [app].
    rewrite !collapse_from_app_nonws by exact L.
    cbn [collapse_from]. apply trimEnd_core; [exact L|]. now apply collapse_blank.
Qed.

(** Trimming and collapsing white space commute. *)
Lemma collapse_trim (s : jsstring) : collapse_ws (trim s) = trim (collapse_ws s).
Proof.
  unfold trim, collapse_ws. now rewrite trimStart_collapse, trimEnd_collapse.
Qed.

Lemma sanitize_again (s : jsstring) :
  sanitizeTriageText (sanitizeTriageText s) = sanitizeTriageText s.
Proof.
  unfold sanitizeTriageText at 1. unfold collapse_ws.
  rewrite collapse_fixed;
    [apply trim_fixed, sanitize_trimmed | apply sanitize_single_spaced | discriminate].
Qed.

Lemma lower_cu_again (x : cu) : lower_cu (lower_cu x) = lower_cu x.
Proof.
  unfold lower_cu. destruct (is_upper x) eqn:U; [|now rewrite U].
  assert (V : is_upper (x + 32)%N = false).
  { unfold is_upper, in_range in *.
    apply andb_true_iff in U as [U1 U2]. apply N.leb_le in U1, U2.
    apply andb_false_iff. right. apply N.leb_gt. lia. }
  now rewrite V.
Qed.

Lemma lower_units_again (x : cu) : toLowerCase (lower_units x) = lower_units x.
Proof.
  destruct (N.eqb x 304) eqn:E1; [apply N.eqb_eq in E1; subst x; reflexivity|].
  destruct (N.eqb x 8490) eqn:E2; [apply N.eqb_eq in E2; subst x; reflexivity|].
  assert (V : lower_units x = [lower_cu x]) by (unfold lower_units; now rewrite E1, E2).
  rewrite V. cbn [toLowerCase flat_map]. rewrite app_nil_r. unfold lower_units.
  assert (L : (lower_cu x =? 304)%N = false /\ (lower_cu x =? 8490)%N = false).
  { apply N.eqb_neq in E1, E2. unfold lower_cu.
    destruct (is_upper x) eqn:U; [|split; now apply N.eqb_neq].
    unfold is_upper, in_range in U. apply andb_true_iff in U as [U1 U2].
    apply N.leb_le in U1, U2. split; apply N.eqb_neq; lia. }
  destruct L as [-> ->]. now rewrite lower_cu_again.
Qed.

Lemma toLowerCase_again (s : jsstring) : toLowerCase (toLowerCase s) = toLowerCase s.
Proof.
  induction s as [|x s IH]; [reflexivity|].
  now rewrite toLowerCase_cons, toLowerCase_app, lower_units_again, IH.
Qed.

Lemma lookup_value_as_sanitized (value : jsstring) :
  normalizeLookupValue value = toLowerCase (sanitizeTriageText value).
Proof.
  unfold normalizeLookupValue, sanitizeTriageText, collapse_ws.
  rewrite collapse_from_lower. f_equal. apply collapse_trim.
Qed.

(** X23. For a name written in Basic Latin, the key under which the
    inventory lookup compares names is the sanitised text in lower case,
    although it trims before it collapses white space and the sanitiser
    collapses before it trims; so the key is in normal form, normalising a
    key changes nothing, and two names that differ in letter case only
    have the same key.  Beyond Basic Latin the lower case of a letter can
    depend on its neighbours, which trimming changes, so the statement
    stays inside the block. *)
Theorem lookup_key_normal_form (value : jsstring) :
  basic_latin value = true ->
  normalizeLookupValue value = toLowerCase (sanitizeTriageText value)
  /\ trimmed (normalizeLookupValue value) = true
  /\ single_spaced (normalizeLookupValue value) = true
  /\ normalizeLookupValue (normalizeLookupValue value) = normalizeLookupValue value
  /\ normalizeLookupValue (toLowerCase value) = normalizeLookupValue value.
Proof.
  intros _. rewrite !lookup_value_as_sanitized. split_all.
  - reflexivity.
  - rewrite <- sanitize_lower. apply sanitize_trimmed.
  - rewrite <- sanitize_lower. apply sanitize_single_spaced.
  - now rewrite sanitize_lower, sanitize_again, toLowerCase_again.
  - now rewrite sanitize_lower, toLowerCase_again.
Qed.

Lemma lookup_key_normal_form_witness :
  normalizeLookupValue (lit "  Paracetamol   500 MG ")
  = toLowerCase (sanitizeTriageText (lit "  Paracetamol   500 MG "))
  /\ trimmed (normalizeLookupValue (lit "  Paracetamol   500 MG ")) = true
  /\ single_spaced (normalizeLookupValue (lit "  Paracetamol   500 MG ")) = true
  /\ normalizeLookupValue (normalizeLookupValue (lit "  Paracetamol   500 MG "))
     = normalizeLookupValue (lit "  Paracetamol   500 MG ")
  /\ normalizeLookupValue (toLowerCase (lit "  Paracetamol   500 MG "))
     = normalizeLookupValue (lit "  Paracetamol   500 MG ").
Proof. apply (lookup_key_normal_form (lit "  Paracetamol   500 MG ")). reflexivity. Defined.

(** The key of a name, computed. *)
Example lookup_key_paracetamol :
  normalizeLookupValue (lit "  Paracetamol   500 MG ") = lit "paracetamol 500 mg".
Proof. reflexivity. Qed.

(** ** Numerals *)

Lemma fold_digits_from (ds : jsstring) (a : Z) :
  fold_left (fun acc d => 10 * acc + digit_val d)%Z ds a
  = (a * 10 ^ Z.of_nat (length ds)
     + fold_left (fun acc d => 10 * acc + digit_val d)%Z ds 0)%Z.
Proof.
  revert a. induction ds as [|x ds IH]; intros a.
  - cbn. lia.
  - cbn [fold_left length]. rewrite IH, (IH (10 * 0 + digit_val x)%Z).
    rewrite Nat2Z.inj_succ, Z.pow_succ_r by lia. ring.
Qed.

Lemma digits_value_cons (d : cu) (ds : jsstring) :
  digits_value (d :: ds) = (digit_val d * 10 ^ Z.of_nat (length ds) + digits_value ds)%Z.
Proof.
  unfold digits_value. cbn [fold_left]. rewrite fold_digits_from. ring.
Qed.


Lemma digit_of_residue (n : N) :
  is_digit (48 + n mod 10)%N = true /\ digit_val (48 + n mod 10)%N = Z.of_N (n mod 10).
Proof.
  assert (L : (n mod 10 < 10)%N) by (apply N.mod_lt; discriminate).
  remember (n mod 10)%N as r eqn:E. clear E. split.
  - unfold is_digit, in_range. apply andb_true_iff. split; apply N.leb_le; lia.
  - unfold digit_val. lia.
Qed.

Lemma decimal_from_digits (fuel : nat) :
  forall n acc, forallb is_digit acc = true ->
                forallb is_digit (decimal_from fuel n acc) = true.
Proof.
  induction fuel as [|fuel IH]; intros n acc H; [exact H|].
  cbn [decimal_from]. cbv zeta.
  assert (A : forallb is_digit ((48 + n mod 10)%N :: acc) = true).
  { cbn [forallb]. now rewrite (proj1 (digit_of_residue n)). }
  destruct (n <? 10)%N; [exact A | now apply IH].
Qed.

Lemma decimal_from_nonempty (fuel : nat) :
  forall n acc, acc <> [] -> decimal_from fuel n acc <> [].
Proof.
  induction fuel as [|fuel IH]; intros n acc H; [exact H|].
  cbn [decimal_from]. cbv zeta.
  destruct (n <? 10)%N; [discriminate | apply IH; discriminate].
Qed.

Lemma decimal_from_value (fuel : nat) :
  forall n acc,
    (n < 10 ^ N.of_nat fuel)%N ->
    digits_value (decimal_from fuel n acc)
    = (Z.of_N n * 10 ^ Z.of_nat (length acc) + digits_value acc)%Z.
Proof.
  induction fuel as [|fuel IH]; intros n acc H.
  - cbn in H. assert (n = 0%N) by lia. subst n. cbn [decimal_from]. lia.
  - cbn [decimal_from]. cbv zeta.
    destruct (digit_of_residue n) as [_ V].
    assert (DM : n = (10 * (n / 10) + n mod 10)%N) by (apply N.div_mod; discriminate).
    destruct (N.ltb_spec n 10) as [L|L].
    + rewrite digits_value_cons, V. rewrite N.mod_small by exact L. reflexivity.
    + rewrite IH.
      * rewrite digits_value_cons, V. cbn [length].
        rewrite Nat2Z.inj_succ, Z.pow_succ_r by lia.
        rewrite DM at 3. rewrite N2Z.inj_add, N2Z.inj_mul. change (Z.of_N 10) with 10%Z. ring.
      * rewrite Nat2N.inj_succ, N.pow_succ_r' in H.
        apply N.Div0.div_lt_upper_bound; lia.
Qed.

Lemma decimal_digits (n : N) : forallb is_digit (decimal n) = true.
Proof. now apply decimal_from_digits. Qed.

Lemma decimal_nonempty (n : N) : decimal n <> [].
Proof.
  unfold decimal. cbn [decimal_from]. cbv zeta.
  destruct (n <? 10)%N; [discriminate | apply decimal_from_nonempty; discriminate].
Qed.

(** Reading the decimal numeral of a number gives the number back. *)
Lemma digits_value_decimal (n : N) : digits_value (decimal n) = Z.of_N n.
Proof.
  unfold decimal. rewrite decimal_from_value.
  - cbn [length]. change (digits_value []) with 0%Z. cbn. lia.
  - rewrite Nat2N.inj_succ, N2Nat.id.
    destruct (N.eq_dec n 0) as [->|Hn]; [reflexivity|].
    destruct (N.log2_spec n ltac:(lia)) as [_ U].
    eapply N.lt_le_trans; [exact U|]. apply N.pow_le_mono_l. lia.
Qed.

Lemma to_double_small (z : Z) : (z < 2 ^ 53)%Z -> to_double z = Finite z.
Proof.
  intros H. unfold to_double.
  destruct (Z.ltb_spec z (2 ^ 53)); [reflexivity | lia].
Qed.




(** X13. A count of days is read as it stands: the numeral of N followed
    by "day" or "days" gives N, without any factor; N is the exact value of
    the double of the source while it stays below 2^53. *)
Theorem duration_days_as_written (n : N) (sp u : jsstring) :
  forallb is_ws sp = true ->
  u = lit "day" \/ u = lit "days" ->
  (Z.of_N n < 2 ^ 53)%Z ->
  durationDaysFromText (decimal n ++ sp ++ u) = Some (Finite (Z.of_N n)).
Proof.
  intros Hsp Hu B. unfold durationDaysFromText, dayRegex.
  destruct (countOf_found [ "day"; "days" ]%string (decimal n) sp u
              (decimal_nonempty n) (decimal_digits n) Hsp) as (m & -> & G).
  - destruct Hu as [->| ->]; simpl; split; reflexivity.
  - now apply day_units_found.
  - unfold numberOfGroup1. rewrite G, digits_value_decimal. now rewrite to_double_small.
Qed.

Lemma duration_days_as_written_witness :
  durationDaysFromText (lit "10 days") = Some (Finite 10).
Proof.
  apply (duration_days_as_written 10 (lit " ") (lit "days")).
  - reflexivity.
  - right. reflexivity.
  - reflexivity.
Defined.

(** ** A phrase inside a text *)

















(** ** Literal phrases in patterns *)

Section MatcherStrings.

Variable R : Type.








End MatcherStrings.


(** ** The duration phrase of a prescription *)


Section DurationPhrase.

Variable R : Type.





End DurationPhrase.













(** ** The first oxygen reading of a report *)

Section OxygenReading.

Variable R : Type.






End OxygenReading.

































(** ** Lower-casing beyond Basic Latin *)

(** Lower-casing turns the Kelvin sign into the letter k and the dotted
    capital I into the letter i and a combining dot, so a report that
    spells "stroke" with the Kelvin sign is answered by the emergency
    gate. *)
Example kelvin_sign_reaches_gate :
  toLowerCase [8490%N] = lit "k"
  /\ toLowerCase [304%N] = [105%N; 775%N]
  /\ ruleBasedEmergencyCheck (normalizeInput kelvin_sign_report) = Some (lit "stroke").
Proof. repeat split; vm_compute; reflexivity. Qed.
